(** * Voice agent framework: context, routing, observer and task repository

    A shallow embedding of the call-time core of the voice agent framework
    (src/framework/core, src/client/agents/router.py,
    src/infrastructure/database/repository.py) together with the properties
    its specification states about it.

    Conventions of the embedding:
    - a Python [str] is a [string]; [str.lower] is the ASCII lowering
      ([A-Z] to [a-z], every other character unchanged);
    - [x | None] is an [option]; truthiness of an optional string is
      [truthy] (absent and empty are both false);
    - [datetime.utcnow()] is a clock reading handed to the operation that
      takes it;
    - stateful code threads its state explicitly; code that can raise
      returns a sum whose left side is the exception. *)

From Stdlib Require Import ZArith Lia Bool List.
From Stdlib Require Import Ascii String.
From stdpp Require Import base option gmap strings list pretty.

Local Open Scope string_scope.

(** ** Python strings *)

Module PyStr.

Definition nl : string := String (ascii_of_nat 10) EmptyString.
Definition dquote : string := String (ascii_of_nat 34) EmptyString.

(** [c.lower()] on one ASCII character. *)
Definition lower_char (c : ascii) : ascii :=
  let n := nat_of_ascii c in
  if (65 <=? n)%nat && (n <=? 90)%nat then ascii_of_nat (n + 32) else c.

(** [s.lower()]. *)
Fixpoint lower (s : string) : string :=
  match s with
  | EmptyString => EmptyString
  | String c t => String (lower_char c) (lower t)
  end.

(** [needle in hay] on strings: [needle] occurs as a substring. *)
Fixpoint contains (needle hay : string) : bool :=
  String.prefix needle hay ||
  match hay with
  | EmptyString => false
  | String _ t => contains needle t
  end.

(** [x in xs] for a list of strings. *)
Definition mem (x : string) (xs : list string) : bool :=
  existsb (String.eqb x) xs.

(** [bool(s)] for a string. *)
Definition nonempty (s : string) : bool :=
  match s with EmptyString => false | _ => true end.

(** [bool(o)] for [o : str | None]. *)
Definition truthy (o : option string) : bool :=
  match o with Some s => nonempty s | None => false end.

(** [sep.join(parts)]. *)
Definition join (sep : string) (parts : list string) : string :=
  String.concat sep parts.

(** [s.split("\n")]: the lines of [s], the pieces between its line
    feeds. *)
Fixpoint lines (s : string) : list string :=
  match s with
  | EmptyString => [EmptyString]
  | String c t =>
      if Ascii.eqb c (ascii_of_nat 10) then EmptyString :: lines t
      else match lines t with
           | l :: ls => String c l :: ls
           | [] => [String c EmptyString]
           end
  end.

(** ["\n" not in s]. *)
Fixpoint one_line (s : string) : bool :=
  match s with
  | EmptyString => true
  | String c t => negb (Ascii.eqb c (ascii_of_nat 10)) && one_line t
  end.

(** ["\n" not in o] for [o : str | None]; nothing to check when absent. *)
Definition one_line_opt (o : option string) : bool :=
  match o with Some s => one_line s | None => true end.

(** [s.startswith(p)] and [s.endswith(p)] as propositions. *)
Definition starts_with (p s : string) : Prop := exists r, s = p ++ r.
Definition ends_with (p s : string) : Prop := exists r, s = r ++ p.

End PyStr.

(** ** Context (src/framework/core/context.py) *)

Module Context.
Import PyStr.

(** [Any] values: what scratchpads and metadata store, and what the
    arguments of a tool call hold. *)
Inductive pyval : Type :=
| PNone
| PBool (b : bool)
| PInt (z : Z)
| PStr (s : string).

Record UserContext := mkUser {
  user_id : string;
  phone_number : string;
  full_name : option string;
  is_authenticated : bool
}.

(** [UserContext.anonymous()]. *)
Definition anonymous : UserContext :=
  {| user_id := "anonymous"; phone_number := "unknown";
     full_name := None; is_authenticated := false |}.

Record ConversationTurn := mkTurn {
  turn_timestamp : Z;
  role : string;
  content : string;
  agent_name : option string
}.

Record HandoffData := mkHandoff {
  source_agent : string;
  target_agent : string;
  last_user_turn : option string;
  user_intent : option string;
  user_name : option string;
  hd_greeting_completed : bool;
  scratchpad_snapshot : gmap string pyval;
  reason : option string;
  hd_timestamp : Z
}.

(** One [if self.f: parts.append(pre + self.f + post)] of
    [to_context_injection]. *)
Definition opt_line (pre : string) (o : option string) (post : string)
  : list string :=
  match o with
  | Some s => if nonempty s then [pre ++ s ++ post] else []
  | None => []
  end.

Definition greeting_note : string :=
  "Note: Greeting already completed. Do NOT re-greet the user.".

(** The list [parts] built by [HandoffData.to_context_injection]. *)
Definition injection_parts (h : HandoffData) : list string :=
  opt_line "User Name: " (user_name h) ""
  ++ opt_line "Previous Intent: " (user_intent h) ""
  ++ opt_line ("Last User Message: " ++ dquote) (last_user_turn h) dquote
  ++ (if hd_greeting_completed h then [greeting_note] else [])
  ++ opt_line "Handoff Reason: " (reason h) "".

Definition handoff_header : string := "[HANDOFF CONTEXT]" ++ nl.
Definition handoff_footer : string := nl ++ "[END CONTEXT]".

(** [HandoffData.to_context_injection]. *)
Definition to_context_injection (h : HandoffData) : string :=
  match injection_parts h with
  | [] => ""
  | parts => handoff_header ++ join nl parts ++ handoff_footer
  end.

(** [not parts] at the end of [to_context_injection], field by field:
    every optional text is absent or empty and the greeting flag is off. *)
Definition all_empty (h : HandoffData) : bool :=
  negb (truthy (user_name h)) && negb (truthy (user_intent h))
  && negb (truthy (last_user_turn h)) && negb (hd_greeting_completed h)
  && negb (truthy (reason h)).

(** No text field of the handoff holds a line feed. *)
Definition fields_one_line (h : HandoffData) : bool :=
  one_line_opt (user_name h) && one_line_opt (user_intent h)
  && one_line_opt (last_user_turn h) && one_line_opt (reason h).

(** The handoff that [prepare_handoff("task_manager", reason="")] makes on
    a fresh session: the reason is present, and empty. *)
Definition handoff_with_empty_reason : HandoffData :=
  {| source_agent := "router"; target_agent := "task_manager";
     last_user_turn := None; user_intent := None; user_name := None;
     hd_greeting_completed := false; scratchpad_snapshot := ∅;
     reason := Some ""; hd_timestamp := 0 |}.

(** A handoff without a user name whose reason runs over two lines, the
    second of which reads like the line of a user name. *)
Definition handoff_with_two_line_reason : HandoffData :=
  {| source_agent := "router"; target_agent := "task_manager";
     last_user_turn := None; user_intent := None; user_name := None;
     hd_greeting_completed := false; scratchpad_snapshot := ∅;
     reason := Some ("x" ++ nl ++ "User Name: Mallory"); hd_timestamp := 0 |}.

(** [Scratchpad]: the [data] dict and its update stamp. *)
Record Scratchpad := mkScratchpad {
  data : gmap string pyval;
  updated_at : Z
}.

Definition scratchpad_set (now : Z) (k : string) (v : pyval)
  (p : Scratchpad) : Scratchpad :=
  {| data := <[k := v]> (data p); updated_at := now |}.

Definition scratchpad_clear (now : Z) (p : Scratchpad) : Scratchpad :=
  {| data := ∅; updated_at := now |}.

Inductive Platform := TWILIO | WEB | CLI | TEST.

Record SessionContext := mkSession {
  session_id : string;
  last_activity : Z;
  platform : Platform;
  active_agent : string;
  previous_agent : option string;
  conversation_history : list ConversationTurn;
  scratchpad : Scratchpad;
  handoff_data : option HandoffData;
  greeting_completed : bool
}.

(** [SessionContext(session_id=sid, platform=pf)] created at [now]. *)
Definition new_session (sid : string) (pf : Platform) (now : Z)
  : SessionContext :=
  {| session_id := sid; last_activity := now; platform := pf;
     active_agent := "router"; previous_agent := None;
     conversation_history := [];
     scratchpad := {| data := ∅; updated_at := now |};
     handoff_data := None; greeting_completed := false |}.

(** [SessionContext.add_turn]: returns the session and the new turn. *)
Definition add_turn (now : Z) (r c : string) (ag : option string)
  (s : SessionContext) : SessionContext * ConversationTurn :=
  let turn := {| turn_timestamp := now; role := r; content := c;
                 agent_name := ag |} in
  ({| session_id := session_id s; last_activity := now;
      platform := platform s;
      active_agent := active_agent s; previous_agent := previous_agent s;
      conversation_history := conversation_history s ++ [turn];
      scratchpad := scratchpad s; handoff_data := handoff_data s;
      greeting_completed := greeting_completed s |}, turn).

(** The loop of [get_last_user_turn] over an already reversed history. *)
Fixpoint first_user_turn (turns : list ConversationTurn) : option string :=
  match turns with
  | [] => None
  | t :: rest =>
      if String.eqb (role t) "user" then Some (content t)
      else first_user_turn rest
  end.

(** [SessionContext.get_last_user_turn]. *)
Definition get_last_user_turn (s : SessionContext) : option string :=
  first_user_turn (rev (conversation_history s)).

(** [SessionContext.switch_agent]. *)
Definition switch_agent (now : Z) (new_agent : string)
  (s : SessionContext) : SessionContext :=
  {| session_id := session_id s; last_activity := now;
     platform := platform s;
     active_agent := new_agent; previous_agent := Some (active_agent s);
     conversation_history := conversation_history s;
     scratchpad := scratchpad s; handoff_data := handoff_data s;
     greeting_completed := greeting_completed s |}.

Definition set_handoff_data (o : option HandoffData) (s : SessionContext)
  : SessionContext :=
  {| session_id := session_id s; last_activity := last_activity s;
     platform := platform s;
     active_agent := active_agent s; previous_agent := previous_agent s;
     conversation_history := conversation_history s;
     scratchpad := scratchpad s; handoff_data := o;
     greeting_completed := greeting_completed s |}.

(** [SessionContext.prepare_handoff]: stores the new handoff in the
    session slot and returns it (the very object held by the slot). *)
Definition prepare_handoff (now : Z) (target : string)
  (why intent : option string) (s : SessionContext)
  : SessionContext * HandoffData :=
  let h := {| source_agent := active_agent s; target_agent := target;
              last_user_turn := get_last_user_turn s;
              user_intent := intent; user_name := None;
              hd_greeting_completed := greeting_completed s;
              scratchpad_snapshot := data (scratchpad s);
              reason := why; hd_timestamp := now |} in
  (set_handoff_data (Some h) s, h).

(** [SessionContext.consume_handoff]. *)
Definition consume_handoff (s : SessionContext)
  : SessionContext * option HandoffData :=
  (set_handoff_data None s, handoff_data s).

(** [SessionContext.mark_greeting_completed]. *)
Definition mark_greeting_completed (s : SessionContext) : SessionContext :=
  {| session_id := session_id s; last_activity := last_activity s;
     platform := platform s;
     active_agent := active_agent s; previous_agent := previous_agent s;
     conversation_history := conversation_history s;
     scratchpad := scratchpad s; handoff_data := handoff_data s;
     greeting_completed := true |}.

Definition set_scratchpad (p : Scratchpad) (s : SessionContext)
  : SessionContext :=
  {| session_id := session_id s; last_activity := last_activity s;
     platform := platform s;
     active_agent := active_agent s; previous_agent := previous_agent s;
     conversation_history := conversation_history s;
     scratchpad := p; handoff_data := handoff_data s;
     greeting_completed := greeting_completed s |}.

(** [handoff.user_name = name] on a handoff object. *)
Definition with_user_name (name : option string) (h : HandoffData)
  : HandoffData :=
  {| source_agent := source_agent h; target_agent := target_agent h;
     last_user_turn := last_user_turn h; user_intent := user_intent h;
     user_name := name;
     hd_greeting_completed := hd_greeting_completed h;
     scratchpad_snapshot := scratchpad_snapshot h;
     reason := reason h; hd_timestamp := hd_timestamp h |}.

Record GlobalContext := mkGlobal {
  current_time : Z;
  session : SessionContext;
  user : UserContext;
  available_agents : list string
}.

(** [GlobalContext()] created at [now], with a session of id [sid]. *)
Definition new_context (sid : string) (now : Z) : GlobalContext :=
  {| current_time := now; session := new_session sid CLI now;
     user := anonymous;
     available_agents := ["router"; "task_manager"; "identity"] |}.

Definition set_session (s : SessionContext) (g : GlobalContext)
  : GlobalContext :=
  {| current_time := current_time g; session := s; user := user g;
     available_agents := available_agents g |}.

(** [GlobalContext.refresh_time]. *)
Definition refresh_time (now : Z) (g : GlobalContext) : GlobalContext :=
  {| current_time := now; session := session g; user := user g;
     available_agents := available_agents g |}.

(** [GlobalContext.set_user]: also stamps the user's name on a pending
    handoff. *)
Definition set_user (u : UserContext) (g : GlobalContext) : GlobalContext :=
  {| current_time := current_time g;
     session :=
       match handoff_data (session g) with
       | Some h =>
           set_handoff_data (Some (with_user_name (full_name u) h))
             (session g)
       | None => session g
       end;
     user := u; available_agents := available_agents g |}.

(** [GlobalContext.clear_user]. *)
Definition clear_user (g : GlobalContext) : GlobalContext :=
  {| current_time := current_time g; session := session g;
     user := anonymous; available_agents := available_agents g |}.

(** [GlobalContext.is_authenticated]. *)
Definition ctx_is_authenticated (g : GlobalContext) : bool :=
  is_authenticated (user g).

Definition set_available_agents (l : list string) (g : GlobalContext)
  : GlobalContext :=
  {| current_time := current_time g; session := session g;
     user := user g; available_agents := l |}.

End Context.

(** ** Signals and responses (src/framework/core/signals.py) *)

Module Signals.

(** The three signal classes.  An audio signal carries its bytes and the
    [transcription] entry of its metadata, when there is one. *)
Inductive Signal : Type :=
| AudioSignal (sid : string) (audio : string) (transcription : option string)
| TextSignal (sid : string) (text : string)
| SystemSignal (sid : string) (event_type : string).

Definition signal_session_id (s : Signal) : string :=
  match s with
  | AudioSignal sid _ _ | TextSignal sid _ | SystemSignal sid _ => sid
  end.

(** A tool call whose argument values are strings, as the tool schemas
    of the agents declare them.  A call with arguments of any type, as
    the router may get it from the model, is a [Router.LlmToolCall]. *)
Record ToolCall := mkToolCall {
  tool_name : string;
  arguments : gmap string string;
  call_id : string
}.

Record RoutingDecision := mkDecision {
  thought_process : string;
  route_to : string;
  handover_context : option string;
  priority : Z
}.

Inductive ResponseType := AUDIO | TEXT | TOOL_CALL | ROUTING | ERROR.

Record Response := mkResponse {
  response_type : ResponseType;
  resp_session_id : string;
  resp_agent_name : string;
  audio_data : option string;
  text_content : option string;
  tool_calls : list ToolCall;
  routing_decision : option RoutingDecision;
  requires_tool_execution : bool;
  is_final : bool
}.

(** [Response.audio_response]. *)
Definition audio_response (sid ag audio : string) : Response :=
  {| response_type := AUDIO; resp_session_id := sid; resp_agent_name := ag;
     audio_data := Some audio; text_content := None; tool_calls := [];
     routing_decision := None; requires_tool_execution := false;
     is_final := true |}.

(** [Response.text_response]. *)
Definition text_response (sid ag txt : string) : Response :=
  {| response_type := TEXT; resp_session_id := sid; resp_agent_name := ag;
     audio_data := None; text_content := Some txt; tool_calls := [];
     routing_decision := None; requires_tool_execution := false;
     is_final := true |}.

(** [Response.tool_response]. *)
Definition tool_response (sid ag : string) (calls : list ToolCall)
  : Response :=
  {| response_type := TOOL_CALL; resp_session_id := sid;
     resp_agent_name := ag;
     audio_data := None; text_content := None; tool_calls := calls;
     routing_decision := None; requires_tool_execution := true;
     is_final := false |}.

(** [Response.routing_response]. *)
Definition routing_response (sid ag : string) (d : RoutingDecision)
  : Response :=
  {| response_type := ROUTING; resp_session_id := sid;
     resp_agent_name := ag;
     audio_data := None; text_content := None; tool_calls := [];
     routing_decision := Some d; requires_tool_execution := false;
     is_final := false |}.

(** [RoutingDecision(thought_process=t, route_to=r, handover_context=h)],
    with the default priority. *)
Definition decision (t r : string) (h : option string) : RoutingDecision :=
  {| thought_process := t; route_to := r; handover_context := h;
     priority := 0 |}.

(** The target of a response that carries a routing decision. *)
Definition routed_to (r : Response) : option string :=
  route_to <$> routing_decision r.

Definition set_is_final (b : bool) (r : Response) : Response :=
  {| response_type := response_type r;
     resp_session_id := resp_session_id r;
     resp_agent_name := resp_agent_name r;
     audio_data := audio_data r; text_content := text_content r;
     tool_calls := tool_calls r; routing_decision := routing_decision r;
     requires_tool_execution := requires_tool_execution r;
     is_final := b |}.

End Signals.

(** ** Exceptions (src/framework/core/exceptions.py and built-ins) *)

Module Exceptions.

Inductive Exn : Type :=
| ValueError (msg : string)
| RuntimeError (msg : string)
| IntegrityError (msg : string)
| RoutingException (msg src tgt : string)
| AgentException (msg agent : string) (recoverable : bool)
| ToolExecutionException (msg tool : string)
| PriorityIntervention (msg intervention_type : string)
    (target : option string) (hotword : option string).

Definition is_value_error (e : Exn) : bool :=
  match e with ValueError _ => true | _ => false end.

End Exceptions.

(** ** Agents (src/framework/core/agent.py) *)

Module Agents.
Import PyStr Context.

(** The part of an agent object the framework itself reads and writes:
    its name and the handoff text appended to its prompt. *)
Record Agent := mkAgent {
  name : string;
  _handoff_context : option string
}.

(** [AbstractAgent.on_enter]: the state change of the hook. *)
Definition on_enter (handoff : option HandoffData) (a : Agent) : Agent :=
  {| name := name a;
     _handoff_context :=
       match handoff with
       | Some h => Some (to_context_injection h)
       | None => None
       end |}.

(** [AbstractAgent.on_exit]. *)
Definition on_exit (a : Agent) : Agent :=
  {| name := name a; _handoff_context := None |}.

(** The tail of [AbstractAgent.render_prompt]: the handoff text is
    appended to the prompt when it is non-empty. *)
Definition inject_handoff (prompt : string) (a : Agent) : string :=
  match _handoff_context a with
  | Some c => if nonempty c then prompt ++ nl ++ nl ++ c else prompt
  | None => prompt
  end.

End Agents.

(** ** Intervention observer (src/framework/core/observer.py) *)

Module Observer.
Import PyStr Signals Exceptions.

Record HotwordConfig := mkHotwordConfig {
  hotwords : list string;
  case_sensitive : bool
}.

Definition default_hotwords : list string :=
  ["stop"; "cancel"; "operator"; "help"; "emergency"; "nevermind";
   "never mind"].

(** [HotwordConfig(hotwords, case_sensitive)]: an absent or empty list
    gives the default one. *)
Definition new_hotword_config (hw : option (list string)) (cs : bool)
  : HotwordConfig :=
  {| hotwords := match hw with
                 | Some (w :: l) => w :: l
                 | _ => default_hotwords
                 end;
     case_sensitive := cs |}.

(** The loop of [HotwordConfig.matches] over the remaining words. *)
Fixpoint first_match (cs : bool) (check_text : string) (words : list string)
  : option string :=
  match words with
  | [] => None
  | word :: rest =>
      let check_word := if cs then word else lower word in
      if contains check_word check_text then Some word
      else first_match cs check_text rest
  end.

(** [HotwordConfig.matches]. *)
Definition matches (cfg : HotwordConfig) (text : string) : option string :=
  let check_text := if case_sensitive cfg then text else lower text in
  first_match (case_sensitive cfg) check_text (hotwords cfg).

(** [InterventionObserver._get_target_for_hotword]. *)
Definition _get_target_for_hotword (hotword : string) : option string :=
  let hotword_lower := lower hotword in
  if mem hotword_lower ["operator"; "help"; "emergency"]
  then Some "human_intervention"
  else if mem hotword_lower ["stop"; "cancel"; "nevermind"; "never mind"]
  then Some "router"
  else None.

Definition negative_words : list string :=
  ["angry"; "frustrated"; "terrible"; "awful"; "hate";
   "worst"; "horrible"; "disgusting"; "furious"; "upset"].

Definition positive_words : list string :=
  ["great"; "wonderful"; "excellent"; "amazing"; "love";
   "best"; "fantastic"; "happy"; "pleased"; "thank"].

Definition count_in (words : list string) (text : string) : Z :=
  Z.of_nat (length (List.filter (fun w => contains w text) words)).

(** [InterventionObserver._analyze_sentiment]: the score as the fraction
    [(pos_count - neg_count) / total], given by its two terms; the score
    is zero when [total] is. *)
Definition _analyze_sentiment (text : string) : Z * Z :=
  let text_lower := lower text in
  let neg_count := count_in negative_words text_lower in
  let pos_count := count_in positive_words text_lower in
  (pos_count - neg_count, neg_count + pos_count)%Z.

(** [sentiment_score < -0.7] on such a fraction. *)
Definition very_negative (score : Z * Z) : bool :=
  let '(num, total) := score in
  negb (total =? 0)%Z && (10 * num <? -7 * total)%Z.

Record InterventionObserver := mkObserver {
  hotword_config : HotwordConfig;
  enable_sentiment : bool
}.

(** [InterventionObserver()], with sentiment analysis off. *)
Definition default_observer : InterventionObserver :=
  {| hotword_config := new_hotword_config None false;
     enable_sentiment := false |}.

(** The [text_content] that [_analyze_signal] reads off a signal. *)
Definition signal_text (signal : Signal) : option string :=
  match signal with
  | TextSignal _ c => Some c
  | AudioSignal _ _ transcription => transcription
  | SystemSignal _ _ => None
  end.

(** [matched] when [if matched:] holds. *)
Definition keep_truthy (matched : option string) : option string :=
  match matched with
  | Some m => if nonempty m then Some m else None
  | None => None
  end.

(** [InterventionObserver._analyze_signal]. *)
Definition _analyze_signal (ob : InterventionObserver) (signal : Signal)
  : Exn + unit :=
  match signal_text signal with
  | Some text_content =>
      if nonempty text_content then
        match keep_truthy (matches (hotword_config ob) text_content) with
        | Some matched =>
            inl (PriorityIntervention ("Hotword detected: " ++ matched)
                   "HOTWORD" (_get_target_for_hotword matched)
                   (Some matched))
        | None =>
            if enable_sentiment ob
               && very_negative (_analyze_sentiment text_content)
            then inl (PriorityIntervention "Negative sentiment detected"
                        "SENTIMENT" (Some "human_intervention") None)
            else inr tt
        end
      else inr tt
  | None => inr tt
  end.

End Observer.

(** ** Orchestrator (src/framework/core/orchestrator.py) *)

Module Orch.
Import PyStr Context Signals Exceptions Agents.

Inductive FillerType := F_ROUTING | F_TOOL_EXECUTION | F_THINKING
                      | F_CREATING | F_SEARCHING.

(** What the orchestrator does to its collaborators, in order: the
    lifecycle hooks of agents, the handoffs it prepares, and its calls to
    the IO handler and the observer. *)
Inductive Event : Type :=
| EvOnExit (agent : string)
| EvOnEnter (agent : string) (handoff : option HandoffData)
| EvPrepareHandoff (handoff : HandoffData)
| EvConsumeHandoff (handoff : option HandoffData)
| EvProcessSignal (agent : string)
| EvSendFiller (ft : FillerType) (agent : string)
| EvCancelFiller
| EvClearAudio
| EvStreamOutput (r : Response)
| EvSendText (text agent : string)
| EvObserverReset
| EvObserverCancel.

(** The orchestrator object.  Agent objects live in [_agents];
    [_active_agent] refers to one of them by its key, so a change made to
    the active agent by a hook is the change seen through the registry. *)
Record Orchestrator := mkOrch {
  context : GlobalContext;
  _agents : gmap string Agent;
  _active_agent : option string;
  _running : bool;
  trace : list Event
}.

(** [Orchestrator(context)]. *)
Definition new_orchestrator (ctx : GlobalContext) : Orchestrator :=
  {| context := ctx; _agents := ∅; _active_agent := None;
     _running := false; trace := [] |}.

(** The behaviour of the agents and tools the orchestrator drives, which
    depends on the language model: what an agent answers to a signal, and
    what running a tool and handing its result to the agent gives. *)
Inductive ToolOutcome : Type :=
| ToolDone (handler_response : option Response)
| ToolFailed (msg : string).

Record Env := mkEnv {
  agent_process : Agent -> Signal -> GlobalContext -> Exn + Response;
  is_tool_slow : Agent -> string -> bool;
  tool_run : Agent -> ToolCall -> GlobalContext -> ToolOutcome
}.

(** Computations over the orchestrator that may raise: the state reached is
    returned in both cases, as a raise keeps the writes already made. *)
Definition M (A : Type) : Type := Orchestrator -> Orchestrator * (Exn + A).

#[global] Instance M_ret : MRet M := fun A x o => (o, inr x).
#[global] Instance M_bind : MBind M := fun A B f m o =>
  match m o with
  | (o', inr x) => f x o'
  | (o', inl e) => (o', inl e)
  end.

Definition raise {A : Type} (e : Exn) : M A := fun o => (o, inl e).
Definition get : M Orchestrator := fun o => (o, inr o).
Definition put (o : Orchestrator) : M unit := fun _ => (o, inr tt).
Definition lift {A : Type} (r : Exn + A) : M A := fun o => (o, r).

(** [try: body except e: handler(e)]. *)
Definition try_catch {A : Type} (body : M A) (handler : Exn -> M A) : M A :=
  fun o =>
    match body o with
    | (o', inl e) => handler e o'
    | r => r
    end.

Definition set_context (g : GlobalContext) (o : Orchestrator) : Orchestrator :=
  {| context := g; _agents := _agents o; _active_agent := _active_agent o;
     _running := _running o; trace := trace o |}.

Definition set_agents (m : gmap string Agent) (o : Orchestrator)
  : Orchestrator :=
  {| context := context o; _agents := m; _active_agent := _active_agent o;
     _running := _running o; trace := trace o |}.

Definition set_active (k : option string) (o : Orchestrator) : Orchestrator :=
  {| context := context o; _agents := _agents o; _active_agent := k;
     _running := _running o; trace := trace o |}.

Definition set_running (b : bool) (o : Orchestrator) : Orchestrator :=
  {| context := context o; _agents := _agents o;
     _active_agent := _active_agent o; _running := b; trace := trace o |}.

Definition log (e : Event) (o : Orchestrator) : Orchestrator :=
  {| context := context o; _agents := _agents o;
     _active_agent := _active_agent o; _running := _running o;
     trace := trace o ++ [e] |}.

Definition modify (f : Orchestrator -> Orchestrator) : M unit :=
  fun o => (f o, inr tt).

Definition emit (e : Event) : M unit := modify (log e).

Definition modify_session (f : SessionContext -> SessionContext) : M unit :=
  modify (fun o => set_context (set_session (f (session (context o)))
                                  (context o)) o).

(** The agent object [self._active_agent], read through the registry. *)
Definition active_agent_obj (o : Orchestrator) : option Agent :=
  k ← _active_agent o; _agents o !! k.

(** [self._active_agent.name if self._active_agent else "system"]. *)
Definition active_name_or_system (o : Orchestrator) : string :=
  match active_agent_obj o with Some a => name a | None => "system" end.

(** Every agent is registered under its own name, as [register_agent]
    does it. *)
Definition registry_keyed_by_name (o : Orchestrator) : Prop :=
  map_Forall (fun k ag => name ag = k) (_agents o).

(** [{P} c {Q}]: from a state in [P], the computation [c] ends, returning
    or raising, with an outcome and a state in [Q]. *)
Definition hoare {A : Type} (P : Orchestrator -> Prop) (c : M A)
  (Q : Exn + A -> Orchestrator -> Prop) : Prop :=
  forall o, P o -> Q (snd (c o)) (fst (c o)).

(** [c] keeps [I], whether it returns or raises. *)
Definition keeps {A : Type} (I : Orchestrator -> Prop) (c : M A) : Prop :=
  hoare I c (fun _ => I).

(** [Orchestrator.register_agent]. *)
Definition register_agent (agent : Agent) : M unit :=
  o ← get;
  match _agents o !! name agent with
  | Some _ =>
      raise (ValueError ("Agent '" ++ name agent ++ "' is already registered"))
  | None =>
      modify (set_agents (<[name agent := agent]> (_agents o)));;
      o ← get;
      if mem (name agent) (available_agents (context o)) then mret tt
      else modify (set_context
                     (set_available_agents
                        (available_agents (context o) ++ [name agent])
                        (context o)))
  end.

(** [Orchestrator.get_agent]. *)
Definition get_agent (nm : string) (o : Orchestrator) : option Agent :=
  _agents o !! nm.

(** [await agent.on_exit(self.context)] on the registered agent [k]. *)
Definition run_on_exit (k : string) : M unit :=
  o ← get;
  match _agents o !! k with
  | Some a =>
      modify (set_agents (<[k := on_exit a]> (_agents o)));;
      emit (EvOnExit (name a))
  | None => mret tt
  end.

(** [await agent.on_enter(self.context, handoff)] on the registered
    agent [k]. *)
Definition run_on_enter (k : string) (handoff : option HandoffData) : M unit :=
  o ← get;
  match _agents o !! k with
  | Some a =>
      modify (set_agents (<[k := on_enter handoff a]> (_agents o)));;
      emit (EvOnEnter (name a) handoff)
  | None => mret tt
  end.

(** [Orchestrator.set_active_agent]. *)
Definition set_active_agent (now : Z) (agent_name : string)
  (handoff : option HandoffData) : M unit :=
  o ← get;
  match _agents o !! agent_name with
  | None =>
      raise (RoutingException ("Agent '" ++ agent_name ++ "' not found")
               (active_agent (session (context o))) agent_name)
  | Some _ =>
      match _active_agent o with
      | Some k => run_on_exit k
      | None => mret tt
      end;;
      modify (set_active (Some agent_name));;
      modify_session (switch_agent now agent_name);;
      run_on_enter agent_name handoff
  end.

(** [self.context.session.prepare_handoff(...)], keeping the handoff. *)
Definition prepare (now : Z) (target : string) (why intent : option string)
  : M HandoffData :=
  o ← get;
  let '(s, h) := prepare_handoff now target why intent
                   (session (context o)) in
  modify_session (fun _ => s);;
  emit (EvPrepareHandoff h);;
  mret h.

(** [if self.context.is_authenticated(): handoff.user_name = full_name].
    The handoff is the object held by the session slot, so the slot shows
    the name too; the updated handoff is returned. *)
Definition attach_user_name (h : HandoffData) : M HandoffData :=
  o ← get;
  if ctx_is_authenticated (context o) then
    let h' := with_user_name (full_name (user (context o))) h in
    modify_session (set_handoff_data (Some h'));;
    mret h'
  else mret h.

Definition TRANSFER_AGENT_TOOL : string := "transfer_agent".

(** The history update of [_process_signal]: only a text signal has a
    [content] attribute. *)
Definition record_user_turn (now : Z) (signal : Signal) : M unit :=
  match signal with
  | TextSignal _ c =>
      modify_session (fun s => fst (add_turn now "user" c None s))
  | _ => mret tt
  end.

(** The authentication check of [_process_signal], where [active_name] is
    [self._active_agent.name]. *)
Definition require_authentication (now : Z) (active_name : string) : M unit :=
  o ← get;
  if negb (ctx_is_authenticated (context o)) then
    if negb (String.eqb active_name "identity") then
      match _agents o !! "identity" with
      | Some _ =>
          h ← prepare now "identity" (Some "Authentication required") None;
          set_active_agent now "identity" (Some h)
      | None => mret tt
      end
    else mret tt
  else mret tt.

(** [await self._active_agent.process_signal(signal, self.context)]. *)
Definition run_active_agent (E : Env) (signal : Signal) : M Response :=
  o ← get;
  match active_agent_obj o with
  | None => raise (RuntimeError "No active agent")
  | Some a =>
      emit (EvProcessSignal (name a));;
      lift (agent_process E a signal (context o))
  end.

(** [Orchestrator._process_signal]. *)
Definition _process_signal (E : Env) (now : Z) (signal : Signal) : M Response :=
  o ← get;
  match active_agent_obj o with
  | None => raise (RuntimeError "No active agent")
  | Some a =>
      modify (fun o => set_context (refresh_time now (context o)) o);;
      record_user_turn now signal;;
      require_authentication now (name a);;
      run_active_agent E signal
  end.

(** [Orchestrator._get_filler_type_for_tool]. *)
Definition _get_filler_type_for_tool (tool : string) : FillerType :=
  if contains "create" tool || contains "add" tool then F_CREATING
  else if contains "search" tool || contains "get" tool
          || contains "list" tool then F_SEARCHING
  else F_TOOL_EXECUTION.

(** The [for tool_call in response.tool_calls] loop of [_execute_tools]:
    [Some r] when a tool handler answered with [r], which ends the loop. *)
Fixpoint execute_tool_calls (E : Env) (a : Agent) (calls : list ToolCall)
  : M (option Response) :=
  match calls with
  | [] => mret None
  | tc :: rest =>
      if String.eqb (tool_name tc) TRANSFER_AGENT_TOOL then
        execute_tool_calls E a rest
      else
        (if is_tool_slow E a (tool_name tc) then
           emit (EvSendFiller (_get_filler_type_for_tool (tool_name tc))
                   (name a))
         else mret tt);;
        o ← get;
        match tool_run E a tc (context o) with
        | ToolDone (Some r) => emit EvCancelFiller;; mret (Some r)
        | ToolDone None => emit EvCancelFiller;; execute_tool_calls E a rest
        | ToolFailed _ =>
            emit EvCancelFiller;;
            emit (EvSendText
                    "I'm having trouble with that. Let me try something else."
                    (name a));;
            execute_tool_calls E a rest
        end
  end.

(** [Orchestrator._execute_tools]. *)
Definition _execute_tools (E : Env) (response : Response) : M Response :=
  o ← get;
  match active_agent_obj o with
  | None => raise (RuntimeError "No active agent")
  | Some a =>
      r ← execute_tool_calls E a (tool_calls response);
      match r with
      | Some handler_response => mret handler_response
      | None => mret (set_is_final true response)
      end
  end.

(** [Orchestrator._handle_transfer_agent]. *)
Definition _handle_transfer_agent (now : Z) (tool_call : ToolCall) : M unit :=
  let target := default "task_manager"
                  (arguments tool_call !! "target_agent_name") in
  let why := default "" (arguments tool_call !! "reason") in
  o ← get;
  emit (EvSendFiller F_ROUTING (active_name_or_system o));;
  h ← prepare now target (Some why)
        (get_last_user_turn (session (context o)));
  h ← attach_user_name h;
  emit EvCancelFiller;;
  o ← get;
  match _agents o !! target with
  | Some _ => set_active_agent now target (Some h)
  | None => set_active_agent now "task_manager" (Some h)
  end.

(** [Orchestrator._handle_routing_decision], for a response that carries
    the decision [d]. *)
Definition _handle_routing_decision (now : Z) (response : Response)
  (d : RoutingDecision) : M unit :=
  o ← get;
  match _agents o !! route_to d with
  | Some _ =>
      emit (EvSendFiller F_ROUTING (resp_agent_name response));;
      h ← prepare now (route_to d) (Some (thought_process d))
            (handover_context d);
      h ← attach_user_name h;
      emit EvCancelFiller;;
      set_active_agent now (route_to d) (Some h)
  | None => mret tt
  end.

Definition is_routing (t : ResponseType) : bool :=
  match t with ROUTING => true | _ => false end.

(** The tail of [_handle_response], from the routing check on. *)
Definition dispatch_response (now : Z) (response : Response) : M unit :=
  match (if is_routing (response_type response)
         then routing_decision response else None) with
  | Some d => _handle_routing_decision now response d
  | None =>
      if truthy (text_content response) || truthy (audio_data response) then
        emit (EvStreamOutput response);;
        o ← get;
        (if negb (greeting_completed (session (context o))) then
           modify_session mark_greeting_completed
         else mret tt);;
        modify_session
          (fun s => fst (add_turn now "assistant"
                           (if truthy (text_content response)
                            then default "" (text_content response)
                            else "[audio response]")
                           (Some (resp_agent_name response)) s))
      else mret tt
  end.

(** [Orchestrator._handle_response]. *)
Definition _handle_response (E : Env) (now : Z) (response : Response)
  : M unit :=
  if requires_tool_execution response
     && negb (Nat.eqb (length (tool_calls response)) 0) then
    match find (fun tc => String.eqb (tool_name tc) TRANSFER_AGENT_TOOL)
            (tool_calls response) with
    | Some tc => _handle_transfer_agent now tc
    | None =>
        response ← _execute_tools E response;
        dispatch_response now response
    end
  else dispatch_response now response.

(** [Orchestrator._handle_intervention]. *)
Definition _handle_intervention (now : Z) (target : option string)
  (can_clear_audio : bool) : M unit :=
  emit EvCancelFiller;;
  (if can_clear_audio then emit EvClearAudio else mret tt);;
  o ← get;
  (match (if truthy target then target ≫= fun t =>
                                 _ ← _agents o !! t; Some t
          else None) with
   | Some t => set_active_agent now t None
   | None =>
       match _agents o !! "router" with
       | Some _ => set_active_agent now "router" None
       | None => mret tt
       end
   end);;
  o ← get;
  emit (EvSendText "I understand. How can I help you?"
          (active_name_or_system o));;
  emit EvObserverReset.

(** One turn of the loop of [Orchestrator._event_loop]: the [try] block run
    on a signal the observer let through, with its two handlers. *)
Definition loop_body (E : Env) (now : Z) (can_clear_audio : bool)
  (signal : Signal) : M unit :=
  try_catch
    (response ← _process_signal E now signal;
     _handle_response E now response)
    (fun e =>
       match e with
       | PriorityIntervention _ _ target _ =>
           _handle_intervention now target can_clear_audio
       | AgentException _ _ true =>
           emit (EvSendText "I encountered an issue. Let me try again."
                   "system")
       | _ => raise e
       end).

(** [Orchestrator.stop]. *)
Definition stop : M unit :=
  modify (set_running false);; emit EvObserverCancel.

(** [Orchestrator._event_loop] over the signals of the input stream, each
    with the clock reading at which it is handled.  The observer looks at a
    signal before the loop gets it; an intervention it raises is handled
    outside the loop, which ends there.  The loop also ends at the first
    exception that a turn does not handle. *)
Fixpoint _event_loop (E : Env) (ob : Observer.InterventionObserver)
  (can_clear_audio : bool) (signals : list (Z * Signal)) : M unit :=
  match signals with
  | [] => mret tt
  | (now, s) :: rest =>
      match Observer._analyze_signal ob s with
      | inl (PriorityIntervention _ _ target _) =>
          _handle_intervention now target can_clear_audio
      | inl e => raise e
      | inr _ =>
          loop_body E now can_clear_audio s;;
          _event_loop E ob can_clear_audio rest
      end
  end.

End Orch.

(** ** Router agent (src/client/agents/router.py) *)

Module Router.
Import PyStr Context Signals Exceptions.

(** [RouterAgent.VALID_TARGETS]. *)
Definition VALID_TARGETS : list string := ["identity"; "task_manager"; "router"].

(** A tool call of the answer of the model.  [ToolCall.arguments] is a
    [dict[str, Any]] and nothing checks what the model sent against the
    schema of the tool, so an argument can hold a value of any type. *)
Record LlmToolCall := mkLlmToolCall {
  llm_tool_name : string;
  llm_arguments : gmap string pyval;
  llm_call_id : string
}.

(** The tool call [tc], whose arguments are strings, as the model sends
    it. *)
Definition sent (tc : ToolCall) : LlmToolCall :=
  {| llm_tool_name := tool_name tc;
     llm_arguments := PStr <$> arguments tc;
     llm_call_id := call_id tc |}.

(** What [gemini_client.generate] gave: an exception (or nothing that is
    a response), or a response with its tool calls and its text. *)
Inductive LlmResult : Type :=
| LlmRaised
| LlmResponse (llm_tool_calls : list LlmToolCall) (llm_text : option string).

(** [x in VALID_TARGETS] for a value of any type: only a string equals a
    string. *)
Definition in_valid_targets (x : pyval) : bool :=
  match x with
  | PStr s => mem s VALID_TARGETS
  | _ => false
  end.

(** The validation of a [str] field when pydantic builds a model: a
    string is taken as it is, a value of another type is refused. *)
Definition validate_str (x : pyval) : option string :=
  match x with
  | PStr s => Some s
  | _ => None
  end.

(** [RoutingDecision(thought_process=t, route_to=r, handover_context=h)]
    on values of any type; [None] when pydantic raises its validation
    error. *)
Definition new_decision (t r : pyval) (h : option string)
  : option RoutingDecision :=
  match validate_str t, validate_str r with
  | Some t, Some r => Some (decision t r h)
  | _, _ => None
  end.

(** [RouterAgent._extract_text]. *)
Definition _extract_text (signal : Signal) : option string :=
  match signal with
  | TextSignal _ c => Some c
  | AudioSignal _ _ transcription => transcription
  | SystemSignal _ _ => None
  end.

Definition task_keywords : list string :=
  ["task"; "todo"; "remind"; "schedule"; "add"; "create";
   "list"; "show"; "what's on"; "what do i have"; "meeting";
   "appointment"; "deadline"; "priority"; "due"; "mark";
   "complete"; "done"; "finish"; "delete"; "remove"].

Definition auth_keywords : list string := ["who am i"; "my name"; "identify"].

(** The first keyword of the list that occurs in [text]. *)
Definition first_keyword (keywords : list string) (text : string)
  : option string :=
  find (fun k => contains k text) keywords.

(** [RouterAgent._quick_route]. *)
Definition _quick_route (text : string) (ctx : GlobalContext)
  : option RoutingDecision :=
  match first_keyword task_keywords text with
  | Some keyword =>
      Some (decision ("Detected task intent: '" ++ keyword ++ "'")
              "task_manager" (Some text))
  | None =>
      match first_keyword auth_keywords text with
      | Some keyword =>
          Some (decision ("User asking about identity: '" ++ keyword ++ "'")
                  "identity" None)
      | None =>
          if ctx_is_authenticated ctx then
            Some (decision "Authenticated user, defaulting to task manager"
                    "task_manager" (Some text))
          else None
      end
  end.

(** [RouterAgent._parse_text_routing]. *)
Definition _parse_text_routing (text sid : string) : Response :=
  let text_lower := lower text in
  let target := if contains "identity" text_lower || contains "auth" text_lower
                then "identity" else "task_manager" in
  routing_response sid "router"
    (decision ("Parsed from text: " ++ String.substring 0 100 text)
       target None).

Definition is_transfer_agent (tc : LlmToolCall) : bool :=
  String.eqb (llm_tool_name tc) "transfer_agent".

(** The default at the end of [_llm_route]. *)
Definition fallback_route (sid : string) : Response :=
  routing_response sid "router" (decision "Fallback routing" "task_manager" None).

(** [RouterAgent._llm_route], given the outcome [llm] of the model call.
    The first [transfer_agent] call of the answer ends the loop; when the
    decision cannot be built from it, the exception is caught by the
    [except Exception] around the body and the default at the end is
    returned. *)
Definition _llm_route (llm : LlmResult) (signal : Signal) : Response :=
  let sid := signal_session_id signal in
  let text_content :=
    match _extract_text signal with
    | Some t => if nonempty t then t else "[audio input]"
    | None => "[audio input]"
    end in
  match llm with
  | LlmRaised => fallback_route sid
  | LlmResponse calls text =>
      match find is_transfer_agent calls with
      | Some tool_call =>
          let target := default (PStr "task_manager")
                          (llm_arguments tool_call !! "target_agent_name") in
          let why := default (PStr "") (llm_arguments tool_call !! "reason") in
          let target := if in_valid_targets target then target
                        else PStr "task_manager" in
          match new_decision why target (Some text_content) with
          | Some d => routing_response sid "router" d
          | None => fallback_route sid
          end
      | None =>
          match text with
          | Some t =>
              if nonempty t then _parse_text_routing t sid
              else fallback_route sid
          | None => fallback_route sid
          end
      end
  end.

(** A call of the [transfer_agent] tool as the model issues it. *)
Definition transfer_call (target why : string) : ToolCall :=
  {| tool_name := "transfer_agent";
     arguments := <["target_agent_name" := target]> (<["reason" := why]> ∅);
     call_id := "call-1" |}.

(** [RouterAgent.process_signal]. *)
Definition process_signal (llm : LlmResult) (signal : Signal)
  (ctx : GlobalContext) : Response :=
  if negb (ctx_is_authenticated ctx) then
    routing_response (signal_session_id signal) "router"
      (decision "User is not authenticated" "identity"
         (Some "New session, authentication required"))
  else
    match (match _extract_text signal with
           | Some t =>
               if nonempty t then _quick_route (lower t) ctx else None
           | None => None
           end) with
    | Some quick_route =>
        routing_response (signal_session_id signal) "router" quick_route
    | None => _llm_route llm signal
    end.

End Router.

(** ** Task repository (src/infrastructure/database/repository.py) *)

Module TaskRepo.
Import PyStr Exceptions.

Local Open Scope Z_scope.

(** A row of the [tasks] table (src/infrastructure/database/models.py). *)
Record Task := mkTask {
  task_id : string;
  user_id : string;
  description : string;
  priority : Z;
  status : string;
  due_date : option Z;
  created_at : Z;
  updated_at : Z
}.

(** The store behind the session: the ids of the [users] table, the
    [tasks] table by primary key, and whether the engine checks the
    foreign key of [tasks.user_id]. *)
Record Database := mkDatabase {
  users : gset string;
  tasks : gmap string Task;
  enforces_foreign_keys : bool
}.

Definition empty_database (fk : bool) : Database :=
  {| users := ∅; tasks := ∅; enforces_foreign_keys := fk |}.

Definition set_tasks (m : gmap string Task) (db : Database) : Database :=
  {| users := users db; tasks := m;
     enforces_foreign_keys := enforces_foreign_keys db |}.

Definition add_user (uid : string) (db : Database) : Database :=
  {| users := {[uid]} ∪ users db; tasks := tasks db;
     enforces_foreign_keys := enforces_foreign_keys db |}.

(** [max(1, min(5, priority))]. *)
Definition clamp_priority (p : Z) : Z := Z.max 1 (Z.min 5 p).

(** [TaskRepository.create]; [new_id] is the value of [str(uuid4())].  The
    insert is refused on a primary key already in the table, and on an
    unknown user when the engine checks foreign keys. *)
Definition create (new_id : string) (now : Z)
  (uid descr : string) (prio : Z) (due : option Z) (db : Database)
  : Exn + (Database * Task) :=
  let task := {| task_id := new_id; user_id := uid; description := descr;
                 priority := clamp_priority prio; status := "OPEN";
                 due_date := due; created_at := now; updated_at := now |} in
  match tasks db !! new_id with
  | Some _ => inl (IntegrityError "duplicate key: tasks.task_id")
  | None =>
      if enforces_foreign_keys db && negb (bool_decide (uid ∈ users db))
      then inl (IntegrityError "foreign key: tasks.user_id")
      else inr (set_tasks (<[new_id := task]> (tasks db)) db, task)
  end.

(** [TaskRepository.get_by_id]. *)
Definition get_by_id (tid : string) (db : Database) : option Task :=
  tasks db !! tid.

Definition valid_statuses : list string :=
  ["OPEN"; "IN_PROGRESS"; "COMPLETED"; "CANCELLED"].

Definition with_status (now : Z) (st : string) (t : Task) : Task :=
  {| task_id := task_id t; user_id := user_id t;
     description := description t; priority := priority t; status := st;
     due_date := due_date t; created_at := created_at t;
     updated_at := now |}.

(** [TaskRepository.update_status]. *)
Definition update_status (now : Z) (tid st : string) (db : Database)
  : Exn + (Database * option Task) :=
  if negb (mem st valid_statuses) then
    inl (ValueError ("Invalid status: " ++ st))
  else
    let db' := set_tasks (alter (with_status now st) tid (tasks db)) db in
    inr (db', get_by_id tid db').

(** The keyword arguments of [TaskRepository.update] for the columns
    [description], [priority], [status] and [due_date]: each is either
    given or left out.  A call that names another column is not among
    the calls described here. *)
Record TaskFields := mkFields {
  f_description : option string;
  f_priority : option Z;
  f_status : option string;
  f_due_date : option (option Z)
}.

(** [UPDATE tasks SET ... WHERE task_id = ...] on one row. *)
Definition apply_fields (now : Z) (kw : TaskFields) (t : Task) : Task :=
  {| task_id := task_id t; user_id := user_id t;
     description := default (description t) (f_description kw);
     priority := default (priority t) (f_priority kw);
     status := default (status t) (f_status kw);
     due_date := default (due_date t) (f_due_date kw);
     created_at := created_at t; updated_at := now |}.

(** [kwargs["priority"] = max(1, min(5, kwargs["priority"]))]. *)
Definition clamp_fields (kw : TaskFields) : TaskFields :=
  {| f_description := f_description kw;
     f_priority := clamp_priority <$> f_priority kw;
     f_status := f_status kw; f_due_date := f_due_date kw |}.

(** [TaskRepository.update]. *)
Definition update (now : Z) (tid : string) (kwargs : TaskFields)
  (db : Database) : Exn + (Database * option Task) :=
  let kwargs := clamp_fields kwargs in
  match f_status kwargs with
  | Some st =>
      if negb (mem st valid_statuses) then
        inl (ValueError ("Invalid status: " ++ st))
      else
        let db' := set_tasks (alter (apply_fields now kwargs) tid (tasks db))
                     db in
        inr (db', get_by_id tid db')
  | None =>
      let db' := set_tasks (alter (apply_fields now kwargs) tid (tasks db))
                   db in
      inr (db', get_by_id tid db')
  end.

(** [TaskRepository.delete]. *)
Definition delete (tid : string) (db : Database) : Database * bool :=
  (set_tasks (base.delete tid (tasks db)) db,
   bool_decide (is_Some (tasks db !! tid))).

(** A call on the repository, and the store it leaves: the store is
    unchanged when the call raises. *)
Inductive RepoCall : Type :=
| CallAddUser (uid : string)
| CallCreate (new_id : string) (now : Z) (uid descr : string)
    (prio : Z) (due : option Z)
| CallUpdateStatus (now : Z) (tid st : string)
| CallUpdate (now : Z) (tid : string) (kwargs : TaskFields)
| CallDelete (tid : string).

Definition store_after {A : Type} (db : Database) (r : Exn + (Database * A))
  : Database :=
  match r with inr (db', _) => db' | inl _ => db end.

Definition run_call (db : Database) (c : RepoCall) : Database :=
  match c with
  | CallAddUser uid => add_user uid db
  | CallCreate new_id now uid descr prio due =>
      store_after db (create new_id now uid descr prio due db)
  | CallUpdateStatus now tid st => store_after db (update_status now tid st db)
  | CallUpdate now tid kwargs => store_after db (update now tid kwargs db)
  | CallDelete tid => fst (delete tid db)
  end.

Definition run_calls (db : Database) (calls : list RepoCall) : Database :=
  fold_left run_call calls db.

(** Every row of the table has its priority in the range [1..5]. *)
Definition priorities_clamped (db : Database) : Prop :=
  forall tid t, tasks db !! tid = Some t -> 1 <= priority t <= 5.

End TaskRepo.

(** ** Sequences of operations and the handoff protocol *)

Module Runs.
Import PyStr Context Signals Exceptions Agents Orch.

#[global] Instance pyval_eq_dec : EqDecision pyval.
Proof. solve_decision. Defined.

#[global] Instance HandoffData_eq_dec : EqDecision HandoffData.
Proof. solve_decision. Defined.

(** The operations that act on a session, on the global context that holds
    it, and on the orchestrator that owns the context. *)
Inductive Op : Type :=
| OpAddTurn (r c : string) (ag : option string)
| OpSwitchAgent (new_agent : string)
| OpPrepareHandoff (target : string) (why intent : option string)
| OpConsumeHandoff
| OpMarkGreetingCompleted
| OpScratchpadSet (k : string) (v : pyval)
| OpScratchpadClear
| OpRefreshTime
| OpSetUser (u : UserContext)
| OpClearUser
| OpRegisterAgent (a : Agent)
| OpSetActiveAgent (nm : string) (handoff : option HandoffData)
| OpProcessSignal (signal : Signal)
| OpHandleResponse (response : Response)
| OpHandleIntervention (target : option string) (can_clear_audio : bool)
| OpLoopBody (can_clear_audio : bool) (signal : Signal)
| OpEventLoop (ob : Observer.InterventionObserver) (can_clear_audio : bool)
    (signals : list (Z * Signal))
| OpStop
| OpAudioFrameSent.

(** [session.consume_handoff()] on the orchestrator's session. *)
Definition consume : M (option HandoffData) :=
  o ← get;
  let '(s, h) := consume_handoff (session (context o)) in
  modify_session (fun _ => s);;
  emit (EvConsumeHandoff h);;
  mret h.

(** The greeting latch of [TwilioVoiceHandler._send_to_twilio], run after
    an audio frame went out. *)
Definition audio_frame_sent : M unit :=
  o ← get;
  if negb (greeting_completed (session (context o))) then
    modify_session mark_greeting_completed
  else mret tt.

Definition modify_context (f : GlobalContext -> GlobalContext) : M unit :=
  modify (fun o => set_context (f (context o)) o).

Definition void {A : Type} (c : M A) : M unit := c ≫= fun _ => mret tt.

(** The computation an operation stands for, at clock reading [now]. *)
Definition op_run (E : Env) (now : Z) (op : Op) : M unit :=
  match op with
  | OpAddTurn r c ag => modify_session (fun s => fst (add_turn now r c ag s))
  | OpSwitchAgent a => modify_session (switch_agent now a)
  | OpPrepareHandoff t w i => void (prepare now t w i)
  | OpConsumeHandoff => void consume
  | OpMarkGreetingCompleted => modify_session mark_greeting_completed
  | OpScratchpadSet k v =>
      modify_session
        (fun s => set_scratchpad (scratchpad_set now k v (scratchpad s)) s)
  | OpScratchpadClear =>
      modify_session
        (fun s => set_scratchpad (scratchpad_clear now (scratchpad s)) s)
  | OpRefreshTime => modify_context (refresh_time now)
  | OpSetUser u => modify_context (set_user u)
  | OpClearUser => modify_context clear_user
  | OpRegisterAgent a => register_agent a
  | OpSetActiveAgent nm h => set_active_agent now nm h
  | OpProcessSignal s => void (_process_signal E now s)
  | OpHandleResponse r => _handle_response E now r
  | OpHandleIntervention t c => _handle_intervention now t c
  | OpLoopBody c s => loop_body E now c s
  | OpEventLoop ob c l => _event_loop E ob c l
  | OpStop => stop
  | OpAudioFrameSent => audio_frame_sent
  end.

(** The state an operation leaves, whether it returns or raises. *)
Definition run_op (E : Env) (o : Orchestrator) (step : Z * Op) : Orchestrator :=
  fst (op_run E (fst step) (snd step) o).

Definition run_ops (E : Env) (steps : list (Z * Op)) (o : Orchestrator)
  : Orchestrator :=
  fold_left (run_op E) steps o.

Definition greeting (o : Orchestrator) : bool :=
  greeting_completed (session (context o)).

(** *** The handoff protocol on traces

    The protocol state is the handoff that was prepared and not consumed
    yet, if any.  A handoff object may get its [user_name] set between the
    two, so handoffs are compared up to that field. *)
Definition same_handoff (h1 h2 : HandoffData) : bool :=
  bool_decide (with_user_name None h1 = with_user_name None h2).

Definition handoff_step (pending : option HandoffData) (e : Event)
  : option (option HandoffData) :=
  match e with
  | EvPrepareHandoff h =>
      match pending with Some _ => None | None => Some (Some h) end
  | EvOnEnter _ (Some h) | EvConsumeHandoff (Some h) =>
      match pending with
      | Some h0 => if same_handoff h h0 then Some None else None
      | None => None
      end
  | _ => Some pending
  end.

(** The protocol state after a trace; [None] when the trace breaks the
    protocol. *)
Definition handoff_run (pending : option HandoffData) (tr : list Event)
  : option (option HandoffData) :=
  fold_left (fun st e => st ≫= fun p => handoff_step p e) tr (Some pending).

(** Every [prepare_handoff] of the trace is followed by exactly one
    consumption of the handoff it prepared, before the next one. *)
Definition single_consumption (tr : list Event) : bool :=
  match handoff_run None tr with
  | Some None => true
  | _ => false
  end.

End Runs.


(** ** More of the context (src/framework/core/context.py) *)

Module ContextOps.
Import PyStr Context.

(** [l[-n:]]: the start index [-n] counts from the end when it is
    negative and is clipped to the list; [-0] is [0]. *)
Definition slice_last {A : Type} (n : Z) (l : list A) : list A :=
  if (0 <? n)%Z then drop (length l - Z.to_nat n) l
  else drop (Z.to_nat (- n)) l.

(** [SessionContext.get_recent_history]. *)
Definition get_recent_history (limit : Z) (s : SessionContext)
  : list ConversationTurn :=
  slice_last limit (conversation_history s).

(** [Scratchpad.get]. *)
Definition scratchpad_get (k : string) (dflt : pyval) (p : Scratchpad)
  : pyval :=
  default dflt (data p !! k).

(** [Scratchpad.has]. *)
Definition scratchpad_has (k : string) (p : Scratchpad) : bool :=
  bool_decide (is_Some (data p !! k)).

(** A turn said by the user. *)
Definition is_user_turn (t : ConversationTurn) : bool :=
  String.eqb (role t) "user".

End ContextOps.

(** ** More of the task repository
    (src/infrastructure/database/repository.py) *)

Module TaskQueries.
Import PyStr Exceptions TaskRepo.

(** [Task.status.in_(["OPEN", "IN_PROGRESS"])]. *)
Definition is_active (t : Task) : bool :=
  mem (status t) ["OPEN"; "IN_PROGRESS"].

(** The [WHERE] clause of [get_open_count] on a row of the table. *)
Definition counted_for (uid : string) (row : string * Task) : Prop :=
  user_id (snd row) = uid /\ is_active (snd row) = true.

#[global] Instance counted_for_dec (uid : string) (row : string * Task)
  : Decision (counted_for uid row).
Proof. unfold counted_for. apply _. Defined.

(** [TaskRepository.get_open_count]. *)
Definition get_open_count (uid : string) (db : Database) : Z :=
  Z.of_nat (size (filter (counted_for uid) (tasks db))).

(** Every row of the table has one of the four statuses. *)
Definition statuses_valid (db : Database) : Prop :=
  forall tid t, tasks db !! tid = Some t -> In (status t) valid_statuses.

(** One if the task counts as open for [uid], zero otherwise. *)
Definition open_weight (uid : string) (t : Task) : Z :=
  if String.eqb (user_id t) uid && is_active t then 1%Z else 0%Z.

End TaskQueries.

(** ** User repository (src/infrastructure/database/repository.py) *)

Module UserRepo.
Import PyStr.

(** A row of the [users] table (src/infrastructure/database/models.py). *)
Record User := mkUser {
  user_id : string;
  phone_number : string;
  full_name : option string;
  voice_preferences : list (string * string);
  created_at : Z;
  updated_at : Z
}.

(** What a statement can raise on this table, the session being in
    working order (no earlier statement of it has failed). *)
Inductive DbError : Type :=
| UniqueViolation (column : string)
| MultipleResultsFound.

(** The [WHERE User.phone_number == phone] clause on a row. *)
Definition has_phone (phone : string) (row : string * User) : Prop :=
  phone_number (snd row) = phone.

#[global] Instance has_phone_dec (phone : string) (row : string * User)
  : Decision (has_phone phone row).
Proof. unfold has_phone. apply _. Defined.

(** [result.scalar_one_or_none()]. *)
Definition scalar_one_or_none {A : Type} (rows : list A) : DbError + option A :=
  match rows with
  | [] => inr None
  | [x] => inr (Some x)
  | _ => inl MultipleResultsFound
  end.

(** [UserRepository.get_by_id]; the table is keyed by its primary key. *)
Definition get_by_id (uid : string) (tbl : gmap string User) : option User :=
  tbl !! uid.

(** [UserRepository.get_by_phone]. *)
Definition get_by_phone (phone : string) (tbl : gmap string User)
  : DbError + option User :=
  scalar_one_or_none (snd <$> map_to_list (filter (has_phone phone) tbl)).

(** Some row other than [uid] has the phone number. *)
Definition phone_taken (phone uid : string) (tbl : gmap string User) : bool :=
  bool_decide (exists k u, tbl !! k = Some u /\ k <> uid
                           /\ phone_number u = phone).

(** [UserRepository.create]; [new_id] is the value of [str(uuid4())].  The
    insert is refused on a primary key or a phone number already in the
    table. *)
Definition create (new_id : string) (now : Z) (phone : string)
  (name : option string) (prefs : option (list (string * string)))
  (tbl : gmap string User) : DbError + (gmap string User * User) :=
  let user := {| user_id := new_id; phone_number := phone;
                 full_name := name;
                 voice_preferences := default [] prefs;
                 created_at := now; updated_at := now |} in
  match tbl !! new_id with
  | Some _ => inl (UniqueViolation "user_id")
  | None =>
      if phone_taken phone new_id tbl
      then inl (UniqueViolation "phone_number")
      else inr (<[new_id := user]> tbl, user)
  end.

(** [UserRepository.get_or_create]. *)
Definition get_or_create (new_id : string) (now : Z) (phone : string)
  (name : option string) (tbl : gmap string User)
  : DbError + (gmap string User * (User * bool)) :=
  match get_by_phone phone tbl with
  | inl e => inl e
  | inr (Some existing) => inr (tbl, (existing, false))
  | inr None =>
      match create new_id now phone name None tbl with
      | inl e => inl e
      | inr (tbl', user) => inr (tbl', (user, true))
      end
  end.

(** No two rows have the same phone number (the unique index). *)
Definition phones_unique (tbl : gmap string User) : Prop :=
  forall i j u v,
    tbl !! i = Some u -> tbl !! j = Some v ->
    phone_number u = phone_number v -> i = j.

(** The table after a call: the one the call gives, or the table as it
    was when the call raised. *)
Definition table_after {A : Type} (tbl : gmap string User)
  (r : DbError + (gmap string User * A)) : gmap string User :=
  match r with inr (tbl', _) => tbl' | inl _ => tbl end.

End UserRepo.

(** ** Identity agent (src/client/agents/identity.py) *)

Module Identity.
Import PyStr.

(** [s.replace(c, "")] for a one-character string [c]. *)
Fixpoint remove_char (c : ascii) (s : string) : string :=
  match s with
  | EmptyString => EmptyString
  | String x t =>
      if Ascii.eqb x c then remove_char c t else String x (remove_char c t)
  end.

(** [phone_number.replace(" ", "").replace("-", "")]. *)
Definition clean_phone (phone_number : string) : string :=
  remove_char "-" (remove_char " " phone_number).

(** The dict a [create_user] call returns. *)
Inductive CreateUserResult : Type :=
| UserCreated (user_id : string) (full_name : option string)
| UserNotCreated (error : UserRepo.DbError).

(** [IdentityAgent._create_user] on the table of users; [new_id] and [now]
    are the id and the clock reading the repository draws.  A refused
    insert is caught and reported in the result. *)
Definition _create_user (new_id : string) (now : Z)
  (phone_number full_name : string) (tbl : gmap string UserRepo.User)
  : gmap string UserRepo.User * CreateUserResult :=
  let clean := clean_phone phone_number in
  match UserRepo.create new_id now clean (Some full_name) None tbl with
  | inr (tbl', user) =>
      (tbl', UserCreated (UserRepo.user_id user) (UserRepo.full_name user))
  | inl e => (tbl, UserNotCreated e)
  end.

End Identity.

(** ** Telephone calls (src/server/twilio_handler.py) *)

Module Twilio.
Import PyStr Context Signals Exceptions Agents Orch.

(** The fields of [TwilioVoiceHandler] that steer a switch of agent. *)
Record VoiceHandler := mkVoice {
  _switch_agent_requested : bool;
  _next_agent_name : option string;
  _handoff_data : option HandoffData
}.

(** The choice of the first agent in [handle_call]: a caller whose number
    is on record is signed in and goes to "task_manager"; a failed lookup
    is logged and leaves "identity". *)
Definition choose_initial_agent (real_number : string)
  (tbl : gmap string UserRepo.User) : M string :=
  if nonempty real_number && negb (String.eqb real_number "unknown") then
    match UserRepo.get_by_phone real_number tbl with
    | inr (Some user) =>
        modify (fun o =>
                  set_context
                    (set_user {| user_id := UserRepo.user_id user;
                                 phone_number := real_number;
                                 full_name := UserRepo.full_name user;
                                 is_authenticated := true |}
                       (context o)) o);;
        mret "task_manager"
    | inr None => mret "identity"
    | inl _ => mret "identity"
    end
  else mret "identity".

(** The start of [handle_call], up to its session loop: the user is
    cleared, a session is made for the call, and the first agent is
    activated. *)
Definition start_call (now : Z) (call_sid real_number : string)
  (tbl : gmap string UserRepo.User) : M unit :=
  modify (fun o => set_context (clear_user (context o)) o);;
  modify (fun o => set_context
                     (set_session (new_session call_sid TWILIO now)
                        (context o)) o);;
  initial_agent ← choose_initial_agent real_number tbl;
  set_active_agent now initial_agent None.

(** [TwilioVoiceHandler._handle_transfer_agent]. *)
Definition _handle_transfer_agent (now : Z) (tool_call : ToolCall)
  (v : VoiceHandler) : M VoiceHandler :=
  let target := default "task_manager"
                  (arguments tool_call !! "target_agent_name") in
  let why := default "" (arguments tool_call !! "reason") in
  o ← get;
  h ← prepare now target (Some why)
        (get_last_user_turn (session (context o)));
  h ← attach_user_name h;
  mret {| _switch_agent_requested := true;
          _next_agent_name := Some target;
          _handoff_data := Some h |}.

(** The [create_user] case of [TwilioVoiceHandler._execute_tool], given
    what the tool returned; [session_phone] is the [phone_number] entry of
    the session metadata. *)
Definition on_create_user_result (now : Z) (session_phone : string)
  (result : Identity.CreateUserResult) (v : VoiceHandler)
  : M VoiceHandler :=
  match result with
  | Identity.UserCreated uid name =>
      modify (fun o =>
                set_context
                  (set_user {| user_id := uid;
                               phone_number := session_phone;
                               full_name := name;
                               is_authenticated := true |}
                     (context o)) o);;
      h ← prepare now "task_manager" (Some "User authenticated") None;
      let h' := with_user_name name h in
      modify_session (set_handoff_data (Some h'));;
      mret {| _switch_agent_requested := true;
              _next_agent_name := Some "task_manager";
              _handoff_data := Some h' |}
  | Identity.UserNotCreated _ => mret v
  end.

(** The end of a turn of the session loop of [handle_call]: the switch
    that was requested is made, and the answer says whether the loop goes
    on.  What [set_active_agent] raises leaves the loop and ends the
    call. *)
Definition switch_if_requested (now : Z) (v : VoiceHandler)
  : M (VoiceHandler * bool) :=
  if _switch_agent_requested v then
    match _next_agent_name v with
    | Some n =>
        if nonempty n then set_active_agent now n (_handoff_data v)
        else mret tt
    | None => mret tt
    end;;
    mret ({| _switch_agent_requested := false; _next_agent_name := None;
             _handoff_data := None |}, true)
  else mret (v, false).

End Twilio.

(** ** Task manager agent (src/client/agents/task_agent.py) *)

Module TaskAgent.
Import PyStr Context Exceptions.
Local Open Scope string_scope.

(** The dicts the task tools return. *)
Inductive ToolResult : Type :=
| NoContext
| TaskCreated (task_id description : string) (priority : Z)
    (due_date : option Z)
| StatusUpdated (task_id new_status : string)
| TaskDeleted (task_id : string)
| TaskNotFound (task_id : string).

(** [TaskManagerAgent._get_user_id]. *)
Definition _get_user_id (ctx : GlobalContext) : Exn + string :=
  if negb (ctx_is_authenticated ctx)
  then inl (ValueError "User not authenticated")
  else inr (user_id (user ctx)).

(** [TaskManagerAgent._create_task]; [current] is [self._current_context]
    and [parsed_due_date] the due date after parsing. *)
Definition _create_task (current : option GlobalContext)
  (new_id : string) (now : Z) (description : string) (priority : Z)
  (parsed_due_date : option Z) (db : TaskRepo.Database)
  : Exn + (TaskRepo.Database * ToolResult) :=
  match current with
  | None => inr (db, NoContext)
  | Some ctx =>
      match _get_user_id ctx with
      | inl e => inl e
      | inr uid =>
          match TaskRepo.create new_id now uid description priority
                  parsed_due_date db with
          | inl e => inl e
          | inr (db', task) =>
              inr (db', TaskCreated (TaskRepo.task_id task)
                          (TaskRepo.description task)
                          (TaskRepo.priority task)
                          (TaskRepo.due_date task))
          end
      end
  end.

(** [TaskManagerAgent._update_task_status]. *)
Definition _update_task_status (now : Z) (task_id status : string)
  (db : TaskRepo.Database) : Exn + (TaskRepo.Database * ToolResult) :=
  match TaskRepo.update_status now task_id status db with
  | inl e => inl e
  | inr (db', Some _) => inr (db', StatusUpdated task_id status)
  | inr (db', None) => inr (db', TaskNotFound task_id)
  end.

(** [TaskManagerAgent._delete_task]. *)
Definition _delete_task (task_id : string) (db : TaskRepo.Database)
  : TaskRepo.Database * ToolResult :=
  let '(db', deleted) := TaskRepo.delete task_id db in
  (db', if deleted then TaskDeleted task_id else TaskNotFound task_id).

Definition is_high (t : TaskRepo.Task) : bool :=
  (TaskRepo.priority t <=? 2)%Z.

Definition is_normal (t : TaskRepo.Task) : bool :=
  (2 <? TaskRepo.priority t)%Z && (TaskRepo.priority t <=? 4)%Z.

Definition is_low (t : TaskRepo.Task) : bool :=
  (4 <? TaskRepo.priority t)%Z.

Definition bullet (t : TaskRepo.Task) : string :=
  "  - " ++ TaskRepo.description t.

(** The list [parts] of [_summarize_tasks] after the high priority
    group. *)
Definition parts_with_high (tasks : list TaskRepo.Task) : list string :=
  let count := length tasks in
  let high_priority := List.filter is_high tasks in
  let parts := ["You have " ++ pretty count ++ " task"
                ++ (if Nat.eqb count 1 then "" else "s") ++ "."] in
  match high_priority with
  | [] => parts
  | _ => (parts
          ++ [(nl ++ pretty (length high_priority)
               ++ " high priority:")%string]
          ++ List.map bullet (firstn 3 high_priority))%list
  end.

(** The list [parts] joined at the end of [_summarize_tasks]. *)
Definition summary_parts (tasks : list TaskRepo.Task) : list string :=
  let normal := List.filter is_normal tasks in
  let parts := parts_with_high tasks in
  match normal with
  | [] => parts
  | _ =>
      if (length parts <? 6)%nat then
        (parts ++ [(nl ++ pretty (length normal)
                    ++ " normal priority:")%string]
         ++ List.map bullet (firstn 2 normal))%list
      else parts
  end.

(** [TaskManagerAgent._summarize_tasks] on the rows of the tasks. *)
Definition _summarize_tasks (tasks : list TaskRepo.Task) : string :=
  match tasks with
  | [] => "You have no tasks."
  | _ => join nl (summary_parts tasks)
  end.

End TaskAgent.


(** * Properties *)

Import PyStr Context Signals Exceptions Agents.

Local Open Scope string_scope.

(** ** Strings *)

Lemma string_length_app (a b : string) :
  String.length (a ++ b) = (String.length a + String.length b)%nat.
Proof.
  induction a as [|c a IH]; [reflexivity|].
  change (S (String.length (a ++ b)) = S (String.length a + String.length b)).
  now rewrite IH.
Qed.

Lemma string_app_assoc (a b c : string) : (a ++ b) ++ c = a ++ (b ++ c).
Proof.
  induction a as [|x a IH]; [reflexivity|].
  change (String x ((a ++ b) ++ c) = String x (a ++ (b ++ c))).
  now rewrite IH.
Qed.

Lemma string_app_inv_tail (a b t : string) : a ++ t = b ++ t -> a = b.
Proof.
  revert b. induction a as [|c a IH]; intros [|d b] H.
  - reflexivity.
  - apply (f_equal String.length) in H.
    rewrite !string_length_app in H. simpl in H. lia.
  - apply (f_equal String.length) in H.
    rewrite !string_length_app in H. simpl in H. lia.
  - change (String c (a ++ t) = String d (b ++ t)) in H.
    injection H as -> H. f_equal. now apply IH.
Qed.

Lemma nonempty_true (s : string) : nonempty s = true <-> s <> "".
Proof. destruct s; simpl; split; congruence. Qed.

Lemma opt_line_In (pre post : string) (o : option string) (x : string) :
  In x (opt_line pre o post) <->
  exists s, o = Some s /\ s <> "" /\ x = pre ++ s ++ post.
Proof.
  unfold opt_line. destruct o as [s|].
  - destruct (nonempty s) eqn:Hs; simpl.
    + split.
      * intros [<- | []]. exists s. rewrite <- nonempty_true. auto.
      * intros (s' & [= <-] & _ & ->). now left.
    + split; [intros [] |].
      intros (s' & [= <-] & Hne & _). apply nonempty_true in Hne. congruence.
  - simpl. split; [intros [] | intros (s' & [=] & _)].
Qed.

Lemma opt_line_nil (pre post : string) (o : option string) :
  opt_line pre o post = [] <-> truthy o = false.
Proof.
  unfold opt_line, truthy. destruct o as [s|]; [|tauto].
  destruct (nonempty s); split; congruence.
Qed.

Lemma injection_parts_nil (h : HandoffData) :
  injection_parts h = [] <-> all_empty h = true.
Proof.
  unfold injection_parts, all_empty, opt_line, truthy.
  destruct (user_name h) as [[|? ?]|], (user_intent h) as [[|? ?]|],
    (last_user_turn h) as [[|? ?]|], (hd_greeting_completed h),
    (reason h) as [[|? ?]|]; simpl; split; congruence.
Qed.

Lemma string_app_nil_r (a : string) : a ++ "" = a.
Proof.
  induction a as [|x a IH]; [reflexivity|].
  change (String x (a ++ "") = String x a). now rewrite IH.
Qed.

Lemma In_parts (h : HandoffData) (x : string) :
  In x (injection_parts h) <->
  (exists s, user_name h = Some s /\ s <> "" /\ x = "User Name: " ++ s ++ "")
  \/ (exists s, user_intent h = Some s /\ s <> ""
                /\ x = "Previous Intent: " ++ s ++ "")
  \/ (exists s, last_user_turn h = Some s /\ s <> ""
                /\ x = ("Last User Message: " ++ dquote) ++ s ++ dquote)
  \/ (hd_greeting_completed h = true /\ x = greeting_note)
  \/ (exists s, reason h = Some s /\ s <> ""
                /\ x = "Handoff Reason: " ++ s ++ "").
Proof.
  unfold injection_parts. rewrite !in_app_iff, !opt_line_In.
  destruct (hd_greeting_completed h); simpl;
    intuition (subst; try discriminate; auto 10).
Qed.

Ltac parts_cases H :=
  destruct H as [(s & Hs & Hne & Hx)|[(s & Hs & Hne & Hx)|[(s & Hs & Hne & Hx)
                |[(Hg & Hx)|(s & Hs & Hne & Hx)]]]];
  try discriminate Hx.

Lemma one_line_app (a b : string) :
  one_line (a ++ b) = one_line a && one_line b.
Proof.
  induction a as [|c a IH]; [reflexivity|].
  change (one_line (String c (a ++ b))
          = one_line (String c a) && one_line b).
  cbn [one_line]. rewrite IH. now rewrite andb_assoc.
Qed.

Lemma lines_one_line (s : string) : one_line s = true -> lines s = [s].
Proof.
  induction s as [|c s IH]; [reflexivity|]. cbn [one_line lines].
  destruct (Ascii.eqb c (ascii_of_nat 10)); [discriminate|].
  cbn [negb andb]. intros H. now rewrite (IH H).
Qed.

Lemma lines_app_nl (a b : string) :
  one_line a = true -> lines (a ++ nl ++ b) = a :: lines b.
Proof.
  induction a as [|c a IH]; intros H; [reflexivity|].
  change (lines (String c (a ++ nl ++ b)) = String c a :: lines b).
  cbn [one_line] in H. cbn [lines].
  destruct (Ascii.eqb c (ascii_of_nat 10)); [discriminate H|].
  cbn [negb andb] in H. now rewrite (IH H).
Qed.

Lemma lines_join (parts : list string) (rest : string) :
  parts <> [] -> forallb one_line parts = true ->
  lines (join nl parts ++ nl ++ rest) = (parts ++ lines rest)%list.
Proof.
  induction parts as [|p ps IH]; [congruence|]. intros _ H.
  cbn [forallb] in H. apply andb_true_iff in H as [Hp Hps].
  destruct ps as [|q qs].
  - change (join nl [p]) with p. now rewrite lines_app_nl.
  - change (join nl (p :: q :: qs)) with (p ++ nl ++ join nl (q :: qs)).
    rewrite !string_app_assoc, (lines_app_nl p _ Hp).
    now rewrite IH.
Qed.

Lemma opt_line_one_line (pre post : string) (o : option string) :
  one_line pre = true -> one_line post = true -> one_line_opt o = true ->
  forallb one_line (opt_line pre o post) = true.
Proof.
  intros Hpre Hpost Ho. unfold opt_line. destruct o as [s|]; [|reflexivity].
  destruct (nonempty s); [|reflexivity]. cbn [forallb].
  rewrite !one_line_app, Hpre, Hpost. cbn [one_line_opt] in Ho.
  now rewrite Ho.
Qed.

Lemma injection_parts_one_line (h : HandoffData) :
  fields_one_line h = true -> forallb one_line (injection_parts h) = true.
Proof.
  unfold fields_one_line. rewrite !andb_true_iff.
  intros [[[Hn Hi] Ht] Hr]. unfold injection_parts.
  rewrite !forallb_app, !opt_line_one_line by (reflexivity || assumption).
  now destruct (hd_greeting_completed h).
Qed.

(** The lines of the injection: nothing but the empty line when there is
    no part; else the header, the parts and the footer. *)
Lemma injection_lines (h : HandoffData) :
  fields_one_line h = true ->
  lines (to_context_injection h)
  = (if all_empty h then [""]
     else "[HANDOFF CONTEXT]" :: injection_parts h ++ ["[END CONTEXT]"])%list.
Proof.
  intros Hl. apply injection_parts_one_line in Hl.
  unfold to_context_injection.
  destruct (all_empty h) eqn:He.
  - apply injection_parts_nil in He. now rewrite He.
  - destruct (injection_parts h) as [|p ps] eqn:Hp.
    + apply injection_parts_nil in Hp. congruence.
    + unfold handoff_header, handoff_footer.
      rewrite string_app_assoc, lines_app_nl by reflexivity.
      now rewrite lines_join.
Qed.

(** A line that is neither empty nor the header nor the footer is a line
    of the injection exactly when it is one of the parts. *)
Lemma injection_line_iff (h : HandoffData) (x : string) :
  fields_one_line h = true ->
  x <> "" -> x <> "[HANDOFF CONTEXT]" -> x <> "[END CONTEXT]" ->
  In x (lines (to_context_injection h)) <-> In x (injection_parts h).
Proof.
  intros Hl H0 H1 H2. rewrite (injection_lines h Hl).
  destruct (all_empty h) eqn:He.
  - apply injection_parts_nil in He. rewrite He. simpl.
    split; [intros [H|[]]; congruence | intros []].
  - simpl. rewrite in_app_iff. simpl. split.
    + intros [H|[H|[H|[]]]]; congruence.
    + auto.
Qed.

Lemma parts_iff (h : HandoffData) :
  (forall n, In ("User Name: " ++ n) (injection_parts h)
             <-> user_name h = Some n /\ n <> "")
  /\ (forall i, In ("Previous Intent: " ++ i) (injection_parts h)
                <-> user_intent h = Some i /\ i <> "")
  /\ (forall t, In ("Last User Message: " ++ dquote ++ t ++ dquote)
                  (injection_parts h)
                <-> last_user_turn h = Some t /\ t <> "")
  /\ (In "Note: Greeting already completed. Do NOT re-greet the user."
         (injection_parts h)
      <-> hd_greeting_completed h = true)
  /\ (forall r, In ("Handoff Reason: " ++ r) (injection_parts h)
                <-> reason h = Some r /\ r <> "").
Proof.
  pose proof (In_parts h) as P.
  split; [|split; [|split; [|split]]].
  - intros n. split.
    + intros H. apply P in H. parts_cases H.
      rewrite string_app_nil_r in Hx. apply String.app_inj in Hx. now subst.
    + intros [Hn Hne]. apply P. left. exists n.
      now rewrite string_app_nil_r.
  - intros i. split.
    + intros H. apply P in H. parts_cases H.
      rewrite string_app_nil_r in Hx. apply String.app_inj in Hx. now subst.
    + intros [Hn Hne]. apply P. right; left. exists i.
      now rewrite string_app_nil_r.
  - intros t. split.
    + intros H. apply P in H. parts_cases H.
      rewrite !string_app_assoc in Hx. do 2 apply String.app_inj in Hx.
      apply string_app_inv_tail in Hx. now subst.
    + intros [Hn Hne]. apply P. right; right; left. exists t.
      now rewrite !string_app_assoc.
  - split.
    + intros H. apply P in H. parts_cases H. exact Hg.
    + intros Hg. apply P. right; right; right; left. now split.
  - intros r. split.
    + intros H. apply P in H. parts_cases H.
      rewrite string_app_nil_r in Hx. apply String.app_inj in Hx. now subst.
    + intros [Hn Hne]. apply P. right; right; right; right. exists r.
      now rewrite string_app_nil_r.
Qed.

(** C2, amended.  [to_context_injection] returns the empty string when
    [user_name], [user_intent], [last_user_turn] and [reason] are all absent
    or empty and [greeting_completed] is false; otherwise it returns a
    string that begins with the header line and ends with the footer line.
    When no field holds a line feed, the lines of that string are the
    header, the parts and the footer, and among the lines of the returned
    string there is "User Name: <name>" exactly when [user_name] is
    present and non-empty, and likewise the intent, the quoted last user
    message, the greeting note (exactly when [greeting_completed] is true)
    and the handoff reason. *)
Theorem injection_format (h : HandoffData) :
  to_context_injection h
  = (if all_empty h then ""
     else handoff_header ++ join nl (injection_parts h) ++ handoff_footer)
  /\ (if all_empty h then True
      else starts_with ("[HANDOFF CONTEXT]" ++ nl) (to_context_injection h)
           /\ ends_with (nl ++ "[END CONTEXT]") (to_context_injection h))
  /\ (fields_one_line h = true ->
      (all_empty h = false ->
       lines (to_context_injection h)
       = ("[HANDOFF CONTEXT]" :: injection_parts h
          ++ ["[END CONTEXT]"])%list)
      /\ (forall n, In ("User Name: " ++ n) (lines (to_context_injection h))
                    <-> user_name h = Some n /\ n <> "")
      /\ (forall i, In ("Previous Intent: " ++ i)
                      (lines (to_context_injection h))
                    <-> user_intent h = Some i /\ i <> "")
      /\ (forall t, In ("Last User Message: " ++ dquote ++ t ++ dquote)
                      (lines (to_context_injection h))
                    <-> last_user_turn h = Some t /\ t <> "")
      /\ (In "Note: Greeting already completed. Do NOT re-greet the user."
             (lines (to_context_injection h))
          <-> hd_greeting_completed h = true)
      /\ (forall r, In ("Handoff Reason: " ++ r)
                      (lines (to_context_injection h))
                    <-> reason h = Some r /\ r <> "")).
Proof.
  assert (Hinj : to_context_injection h
    = (if all_empty h then ""
       else handoff_header ++ join nl (injection_parts h) ++ handoff_footer)).
  { unfold to_context_injection.
    destruct (all_empty h) eqn:He.
    - apply injection_parts_nil in He. now rewrite He.
    - destruct (injection_parts h) eqn:Hp; [|reflexivity].
      apply injection_parts_nil in Hp. congruence. }
  split; [exact Hinj|]. split.
  { rewrite Hinj. destruct (all_empty h); [exact I|]. split.
    - eexists. reflexivity.
    - exists ("[HANDOFF CONTEXT]" ++ nl ++ join nl (injection_parts h)).
      unfold handoff_header, handoff_footer.
      now rewrite !string_app_assoc. }
  intros Hl.
  destruct (parts_iff h) as (Pn & Pi & Pt & Pg & Pr).
  split; [|split; [|split; [|split; [|split]]]].
  - intros He. rewrite (injection_lines h Hl). now rewrite He.
  - intros n. rewrite <- Pn.
    apply injection_line_iff; [exact Hl|discriminate..].
  - intros i. rewrite <- Pi.
    apply injection_line_iff; [exact Hl|discriminate..].
  - intros t. rewrite <- Pt.
    apply injection_line_iff; [exact Hl|discriminate..].
  - rewrite <- Pg.
    apply injection_line_iff; [exact Hl|discriminate..].
  - intros r. rewrite <- Pr.
    apply injection_line_iff; [exact Hl|discriminate..].
Qed.

Lemma injection_format_witness :
  lines (to_context_injection
           (mkHandoff "router" "task_manager" None None (Some "Ann") false
              ∅ (Some "sign in") 0))
  = ["[HANDOFF CONTEXT]"; "User Name: Ann"; "Handoff Reason: sign in";
     "[END CONTEXT]"].
Proof.
  exact (proj1 (proj2 (proj2 (injection_format
                                (mkHandoff "router" "task_manager" None None
                                   (Some "Ann") false ∅ (Some "sign in") 0)))
                 eq_refl) eq_refl).
Defined.

(** C2 as stated fails in two ways.  On a handoff whose reason is present
    and empty, no field is omitted for absence alone, yet the injection is
    the empty string, which does not begin with the header.  On a handoff
    without a user name whose reason holds a line feed, the returned string
    has the line "User Name: Mallory" although [user_name] is absent. *)
Lemma injection_empty_reason_or_line_feed :
  (reason handoff_with_empty_reason = Some ""
   /\ to_context_injection handoff_with_empty_reason = ""
   /\ ~ starts_with ("[HANDOFF CONTEXT]" ++ nl)
         (to_context_injection handoff_with_empty_reason))
  /\ (user_name handoff_with_two_line_reason = None
      /\ In "User Name: Mallory"
           (lines (to_context_injection handoff_with_two_line_reason))).
Proof.
  split.
  - split; [reflexivity|]. split; [reflexivity|].
    intros [r Hr]. discriminate Hr.
  - split; [reflexivity|]. vm_compute. auto.
Qed.

(** ** Router: the LLM fallback *)

Import Router.

Lemma mem_In (x : string) (l : list string) : mem x l = true <-> In x l.
Proof.
  unfold mem. rewrite existsb_exists. split.
  - intros (y & Hy & He). apply String.eqb_eq in He. now subst.
  - intros H. exists x. split; [exact H | apply String.eqb_refl].
Qed.

Lemma in_valid_targets_In (x : pyval) :
  in_valid_targets x = true
  <-> exists target, x = PStr target /\ In target VALID_TARGETS.
Proof.
  destruct x as [| | |s]; cbn [in_valid_targets];
    try (split; [discriminate | intros (t & [=] & _)]).
  rewrite mem_In. split; [eauto|]. now intros (t & [= ->] & H).
Qed.

(** C3, amended.  In the LLM fallback of the router, the first
    [transfer_agent] call of the model's answer decides the route.  When
    its [reason] is a string or is missing, the decision routes to its
    [target_agent_name] when that is the string "identity", "task_manager"
    or "router", and to "task_manager" for every other target value, a
    missing one and one that is not a string included.  When its [reason]
    is a value that is not a string, no decision can be built from the
    call and the router answers with its default, which routes to
    "task_manager".  When the answer has no such call and carries free
    text, the decision routes to "identity" if the lowercased text
    contains "identity" or "auth", and to "task_manager" otherwise. *)
Theorem llm_route_target (calls : list LlmToolCall) (text : option string)
  (signal : Signal) :
  (forall tc,
      find is_transfer_agent calls = Some tc ->
      ((llm_arguments tc !! "reason" = None
        \/ (exists why, llm_arguments tc !! "reason" = Some (PStr why))) ->
       (forall target,
           llm_arguments tc !! "target_agent_name" = Some (PStr target) ->
           In target ["identity"; "task_manager"; "router"] ->
           routed_to (_llm_route (LlmResponse calls text) signal)
           = Some target)
       /\ ((forall target,
              llm_arguments tc !! "target_agent_name" = Some (PStr target) ->
              ~ In target ["identity"; "task_manager"; "router"]) ->
           routed_to (_llm_route (LlmResponse calls text) signal)
           = Some "task_manager"))
      /\ (forall v,
            llm_arguments tc !! "reason" = Some v ->
            (forall why, v <> PStr why) ->
            _llm_route (LlmResponse calls text) signal
            = fallback_route (signal_session_id signal)
            /\ routed_to (_llm_route (LlmResponse calls text) signal)
               = Some "task_manager"))
  /\ (forall t,
        find is_transfer_agent calls = None ->
        text = Some t ->
        routed_to (_llm_route (LlmResponse calls text) signal)
        = Some (if contains "identity" (lower t) || contains "auth" (lower t)
                then "identity" else "task_manager")).
Proof.
  split.
  - intros tc Hf. split.
    + intros Hwhy.
      assert (Hv : exists why,
                 validate_str (default (PStr "")
                                 (llm_arguments tc !! "reason")) = Some why).
      { destruct Hwhy as [-> | (why & ->)]; simpl; eauto. }
      destruct Hv as (why & Hv). split.
      * intros target Ht Hin. unfold _llm_route. rewrite Hf, Ht.
        cbv zeta.
        change (default (PStr "task_manager") (Some (PStr target)))
          with (PStr target).
        change (in_valid_targets (PStr target))
          with (mem target VALID_TARGETS).
        apply mem_In in Hin. unfold VALID_TARGETS. rewrite Hin.
        unfold new_decision. rewrite Hv. reflexivity.
      * intros Hother. unfold _llm_route. rewrite Hf. cbv zeta.
        destruct (in_valid_targets
                    (default (PStr "task_manager")
                       (llm_arguments tc !! "target_agent_name"))) eqn:Hm.
        -- apply in_valid_targets_In in Hm. destruct Hm as (t & Ht & Hin).
           destruct (llm_arguments tc !! "target_agent_name") as [x|] eqn:Hx.
           ++ simpl in Ht. subst x. now destruct (Hother t eq_refl).
           ++ simpl in Ht. injection Ht as <-.
              unfold new_decision. rewrite Hv. reflexivity.
        -- unfold new_decision. rewrite Hv. reflexivity.
    + intros v Hv Hns. unfold _llm_route. rewrite Hf, Hv. cbv zeta.
      change (default (PStr "") (Some v)) with v.
      destruct v as [| | |why]; [..|now destruct (Hns why)];
        (split; reflexivity).
  - intros t Hf ->. unfold _llm_route. rewrite Hf.
    destruct t as [|c t]; reflexivity.
Qed.

Lemma llm_route_target_witness :
  routed_to (_llm_route
               (LlmResponse [sent (transfer_call "identity" "sign in")] None)
               (TextSignal "s" "")) = Some "identity"
  /\ routed_to (_llm_route
                  (LlmResponse [sent (transfer_call "billing" "pay")] None)
                  (TextSignal "s" "")) = Some "task_manager"
  /\ routed_to (_llm_route
                  (LlmResponse
                     [mkLlmToolCall "transfer_agent"
                        (<["target_agent_name" := PStr "identity"]>
                           (<["reason" := PInt 7]> ∅)) "call-1"] None)
                  (TextSignal "s" "")) = Some "task_manager"
  /\ routed_to (_llm_route
                  (LlmResponse [] (Some "Needs AUTH first"))
                  (TextSignal "s" "")) = Some "identity".
Proof.
  split; [|split; [|split]].
  - apply (proj1 (proj1 (proj1 (llm_route_target
                                  [sent (transfer_call "identity" "sign in")]
                                  None (TextSignal "s" ""))
                           (sent (transfer_call "identity" "sign in"))
                           eq_refl)
                    (or_intror (ex_intro _ "sign in" eq_refl)))
             "identity");
      [reflexivity | simpl; auto].
  - apply (proj2 (proj1 (proj1 (llm_route_target
                                  [sent (transfer_call "billing" "pay")]
                                  None (TextSignal "s" ""))
                           (sent (transfer_call "billing" "pay"))
                           eq_refl)
                    (or_intror (ex_intro _ "pay" eq_refl)))).
    intros target Ht. vm_compute in Ht. injection Ht as <-.
    simpl. intros [H|[H|[H|[]]]]; discriminate H.
  - apply (proj2 (proj1 (llm_route_target
                           [mkLlmToolCall "transfer_agent"
                              (<["target_agent_name" := PStr "identity"]>
                                 (<["reason" := PInt 7]> ∅)) "call-1"]
                           None (TextSignal "s" ""))
                    (mkLlmToolCall "transfer_agent"
                       (<["target_agent_name" := PStr "identity"]>
                          (<["reason" := PInt 7]> ∅)) "call-1")
                    eq_refl)
             (PInt 7)); [reflexivity | discriminate].
  - apply (proj2 (llm_route_target [] (Some "Needs AUTH first")
                    (TextSignal "s" "")) "Needs AUTH first");
      reflexivity.
Defined.

(** C3 as stated fails in three ways.  The target "router" is neither
    "identity" nor "task_manager", and the decision routes to it all the
    same.  Of two [transfer_agent] calls in one answer the second is not
    looked at: its target is "identity" and the decision routes to
    "task_manager", the target of the first.  And a call whose target is
    "identity" and whose reason is null gives no decision of its own: the
    route is "task_manager". *)
Lemma llm_route_departures :
  ("router" <> "identity" /\ "router" <> "task_manager"
   /\ routed_to (_llm_route
                   (LlmResponse [sent (transfer_call "router" "start over")]
                      None)
                   (TextSignal "s" "")) = Some "router")
  /\ (is_transfer_agent (sent (transfer_call "identity" "who is it")) = true
      /\ llm_arguments (sent (transfer_call "identity" "who is it"))
         !! "target_agent_name" = Some (PStr "identity")
      /\ routed_to (_llm_route
                      (LlmResponse
                         [sent (transfer_call "task_manager" "a task");
                          sent (transfer_call "identity" "who is it")] None)
                      (TextSignal "s" "")) = Some "task_manager")
  /\ (llm_arguments
        (mkLlmToolCall "transfer_agent"
           (<["target_agent_name" := PStr "identity"]>
              (<["reason" := PNone]> ∅)) "call-1")
      !! "target_agent_name" = Some (PStr "identity")
      /\ routed_to (_llm_route
                      (LlmResponse
                         [mkLlmToolCall "transfer_agent"
                            (<["target_agent_name" := PStr "identity"]>
                               (<["reason" := PNone]> ∅)) "call-1"] None)
                      (TextSignal "s" "")) = Some "task_manager").
Proof.
  split; [|split].
  - split; [discriminate|]. split; [discriminate|]. reflexivity.
  - split; [reflexivity|]. split; reflexivity.
  - split; reflexivity.
Qed.

(** ** Observer: hotwords *)

Section ObserverFacts.
Import Observer.

Lemma first_match_Some (cs : bool) (ct : string) (words : list string)
  (w : string) :
  first_match cs ct words = Some w ->
  In w words /\ contains (if cs then w else lower w) ct = true.
Proof.
  induction words as [|x words IH]; simpl; [discriminate|].
  destruct (contains (if cs then x else lower x) ct) eqn:Hc.
  - intros [= <-]. auto.
  - intros H. destruct (IH H). auto.
Qed.

Lemma first_match_None (cs : bool) (ct : string) (words : list string) :
  first_match cs ct words = None <->
  forall w, In w words -> contains (if cs then w else lower w) ct = false.
Proof.
  induction words as [|x words IH]; simpl.
  - split; [intros _ w [] | reflexivity].
  - destruct (contains (if cs then x else lower x) ct) eqn:Hc.
    + split; [discriminate|]. intros H. specialize (H x (or_introl eq_refl)).
      congruence.
    + rewrite IH. split.
      * intros H w [<- | Hw]; auto.
      * intros H w Hw. apply H. now right.
Qed.

Lemma default_hotword_target (w : string) :
  In w default_hotwords ->
  nonempty w = true
  /\ _get_target_for_hotword w
     = (if mem w ["operator"; "help"; "emergency"]
        then Some "human_intervention" else Some "router")
  /\ (mem w ["operator"; "help"; "emergency"] = false ->
      In w ["stop"; "cancel"; "nevermind"; "never mind"]).
Proof.
  unfold default_hotwords. simpl.
  intros [<- | [<- | [<- | [<- | [<- | [<- | [<- | []]]]]]]];
    repeat split; try reflexivity; try discriminate; simpl; auto 8.
Qed.

(** C6.  With sentiment analysis off and the default hotwords, a signal
    that carries text makes the observer raise if and only if the text
    contains one of the hotwords as a case-insensitive substring; what it
    raises is a [PriorityIntervention] of type HOTWORD for the hotword
    matched, whose target agent is "human_intervention" when that hotword
    is operator, help or emergency, and "router" when it is stop, cancel,
    nevermind or never mind. *)
Theorem hotword_detection (signal : Signal) (text : string) :
  signal_text signal = Some text ->
  ((exists e, _analyze_signal default_observer signal = inl e)
   <-> (exists w, In w default_hotwords
                  /\ contains (lower w) (lower text) = true))
  /\ (forall e, _analyze_signal default_observer signal = inl e ->
      exists w,
        e = PriorityIntervention ("Hotword detected: " ++ w) "HOTWORD"
              (if mem w ["operator"; "help"; "emergency"]
               then Some "human_intervention" else Some "router")
              (Some w)
        /\ In w default_hotwords
        /\ contains (lower w) (lower text) = true
        /\ (mem w ["operator"; "help"; "emergency"] = false ->
            In w ["stop"; "cancel"; "nevermind"; "never mind"])).
Proof.
  intros Ht. unfold _analyze_signal. rewrite Ht.
  change (enable_sentiment default_observer) with false.
  change (hotword_config default_observer)
    with {| hotwords := default_hotwords; case_sensitive := false |}.
  unfold matches. cbn [case_sensitive hotwords andb].
  destruct (nonempty text) eqn:Hne.
  - destruct (first_match false (lower text) default_hotwords) as [w|] eqn:Hm.
    + destruct (first_match_Some _ _ _ _ Hm) as [Hin Hc].
      destruct (default_hotword_target w Hin) as (Hw & Htg & Hrest).
      cbn [keep_truthy]. rewrite Hw, Htg. split.
      * split; eauto.
      * intros e [= <-]. exists w. auto.
    + cbn [keep_truthy]. split.
      * split; [intros [e He]; discriminate He|].
        intros (w & Hin & Hc).
        rewrite first_match_None in Hm. rewrite (Hm w Hin) in Hc.
        discriminate Hc.
      * intros e He. discriminate He.
  - destruct text; [|discriminate Hne]. split.
    + split; [intros [e He]; discriminate He|].
      intros (w & Hin & Hc). exfalso. revert Hc.
      unfold default_hotwords in Hin. simpl in Hin.
      destruct Hin as [<- | [<- | [<- | [<- | [<- | [<- | [<- | []]]]]]]];
        vm_compute; discriminate.
    + intros e He. discriminate He.
Qed.

Lemma hotword_detection_witness :
  exists e, _analyze_signal default_observer
              (TextSignal "call" "OPERATOR please") = inl e.
Proof.
  apply (proj2 (proj1 (hotword_detection (TextSignal "call" "OPERATOR please")
                         "OPERATOR please" eq_refl))).
  exists "operator". split; [simpl; auto | reflexivity].
Defined.

(** Scenario 4 of the specification, evaluated. *)
Example hotword_operator_please :
  _analyze_signal default_observer (TextSignal "call" "operator please")
  = inl (PriorityIntervention "Hotword detected: operator" "HOTWORD"
           (Some "human_intervention") (Some "operator")).
Proof. reflexivity. Qed.

End ObserverFacts.

(** ** Task repository *)

Section TaskRepoFacts.
Import TaskRepo.
Local Open Scope Z_scope.

Lemma clamp_priority_range (p : Z) : 1 <= clamp_priority p <= 5.
Proof. unfold clamp_priority. lia. Qed.

Lemma create_inr (new_id : string) (now : Z) (uid descr : string) (prio : Z)
  (due : option Z) (db db' : Database) (t : Task) :
  create new_id now uid descr prio due db = inr (db', t) ->
  t = {| task_id := new_id; user_id := uid; description := descr;
         priority := clamp_priority prio; status := "OPEN";
         due_date := due; created_at := now; updated_at := now |}
  /\ db' = set_tasks (<[new_id := t]> (tasks db)) db.
Proof.
  unfold create. destruct (tasks db !! new_id); [discriminate|].
  destruct (_ && _); [discriminate|]. now intros [= <- <-].
Qed.

Lemma create_clamped new_id now uid descr prio due db :
  priorities_clamped db ->
  priorities_clamped (store_after db (create new_id now uid descr prio due db)).
Proof.
  intros Hdb. destruct (create _ _ _ _ _ _ db) as [e|[db' t]] eqn:Hc;
    [exact Hdb|].
  apply create_inr in Hc as [-> ->]. intros tid t. simpl.
  rewrite lookup_insert. case_decide.
  - intros [= <-]. simpl. apply clamp_priority_range.
  - apply Hdb.
Qed.

Lemma alter_clamped (f : Task -> Task) (tid : string) (db : Database) :
  (forall t, 1 <= priority t <= 5 -> 1 <= priority (f t) <= 5) ->
  priorities_clamped db ->
  priorities_clamped (set_tasks (alter f tid (tasks db)) db).
Proof.
  intros Hf Hdb k t. simpl. rewrite lookup_alter. case_decide.
  - subst k. destruct (tasks db !! tid) as [t0|] eqn:H0; [|discriminate].
    intros [= <-]. apply Hf. now apply (Hdb tid).
  - apply Hdb.
Qed.

Lemma update_status_clamped now tid st db :
  priorities_clamped db ->
  priorities_clamped (store_after db (update_status now tid st db)).
Proof.
  intros Hdb. unfold update_status. destruct (negb _); [exact Hdb|].
  simpl. apply alter_clamped; auto.
Qed.

Lemma apply_fields_clamped now kw t :
  1 <= priority t <= 5 ->
  1 <= priority (apply_fields now (clamp_fields kw) t) <= 5.
Proof.
  intros Ht. simpl. destruct (f_priority kw); simpl;
    [apply clamp_priority_range | exact Ht].
Qed.

Lemma update_clamped now tid kw db :
  priorities_clamped db ->
  priorities_clamped (store_after db (update now tid kw db)).
Proof.
  intros Hdb. unfold update.
  destruct (f_status (clamp_fields kw)) as [st|].
  - destruct (negb _); [exact Hdb|]. simpl.
    apply alter_clamped; auto using apply_fields_clamped.
  - simpl. apply alter_clamped; auto using apply_fields_clamped.
Qed.

Lemma run_call_clamped db c :
  priorities_clamped db -> priorities_clamped (run_call db c).
Proof.
  intros Hdb. destruct c; simpl.
  - exact Hdb.
  - now apply create_clamped.
  - now apply update_status_clamped.
  - now apply update_clamped.
  - intros k t. simpl. rewrite lookup_delete. case_decide; [discriminate|].
    apply Hdb.
Qed.

Lemma run_calls_clamped calls db :
  priorities_clamped db -> priorities_clamped (run_calls db calls).
Proof.
  revert db. induction calls as [|c calls IH]; intros db Hdb; simpl.
  - exact Hdb.
  - apply IH, run_call_clamped, Hdb.
Qed.

(** C4.  [create] followed by [get_by_id] on the id of the task it
    returned yields a task with the description given, the priority
    [max(1, min(5, p))] and the status "OPEN"; [create] does return a task
    when the new id is fresh and the user is known to a store that checks
    foreign keys; and every task of a store reached from the empty one by
    repository calls has its priority in [1..5]. *)
Theorem create_get_round_trip (db : Database) (new_id : string) (now : Z)
  (uid descr : string) (prio : Z) (due : option Z) :
  (tasks db !! new_id = None ->
   (enforces_foreign_keys db = true -> uid ∈ users db) ->
   exists db' t, create new_id now uid descr prio due db = inr (db', t))
  /\ (forall db' t,
        create new_id now uid descr prio due db = inr (db', t) ->
        exists t', get_by_id (task_id t) db' = Some t'
                   /\ description t' = descr
                   /\ priority t' = Z.max 1 (Z.min 5 prio)
                   /\ status t' = "OPEN")
  /\ (forall fk calls tid t,
        get_by_id tid (run_calls (empty_database fk) calls) = Some t ->
        1 <= priority t <= 5).
Proof.
  split; [|split].
  - intros Hfresh Hfk. unfold create. rewrite Hfresh.
    destruct (enforces_foreign_keys db); simpl; [|eauto].
    rewrite bool_decide_eq_true_2 by auto. simpl. eauto.
  - intros db' t Hc. apply create_inr in Hc as [-> ->]. eexists. split.
    + unfold get_by_id. simpl. apply lookup_insert_eq.
    + auto.
  - intros fk calls tid t. unfold get_by_id.
    apply (run_calls_clamped calls (empty_database fk)).
    intros k t0. simpl. rewrite lookup_empty. discriminate.
Qed.

Lemma create_get_round_trip_witness :
  exists t', get_by_id "t-1"
               (store_after (add_user "u-1" (empty_database true))
                  (create "t-1" 7 "u-1" "call mum" 9 None
                     (add_user "u-1" (empty_database true)))) = Some t'
             /\ description t' = "call mum" /\ priority t' = 5
             /\ status t' = "OPEN".
Proof.
  pose proof (create_get_round_trip (add_user "u-1" (empty_database true))
                "t-1" 7 "u-1" "call mum" 9 None) as (Hex & Hget & _).
  destruct Hex as (db' & t & Hc); [reflexivity | intros _; set_solver |].
  rewrite Hc. simpl. destruct (Hget db' t Hc) as (t' & Ht' & Hd & Hp & Hs).
  apply create_inr in Hc as [-> ->]. exists t'. auto.
Defined.

Lemma valid_status_cases (st : string) :
  In st valid_statuses <->
  st = "OPEN" \/ st = "IN_PROGRESS" \/ st = "COMPLETED" \/ st = "CANCELLED".
Proof. unfold valid_statuses. simpl. intuition. Qed.

Lemma alter_status_lookup (f : Task -> Task) (tid st : string)
  (db : Database) :
  (forall t, status (f t) = st) ->
  (forall t, get_by_id tid db = Some t ->
             exists t', get_by_id tid (set_tasks (alter f tid (tasks db)) db)
                        = Some t')
  /\ (forall t', get_by_id tid (set_tasks (alter f tid (tasks db)) db)
                 = Some t' -> status t' = st).
Proof.
  intros Hf. unfold get_by_id. simpl. rewrite lookup_alter_eq. split.
  - intros t ->. simpl. eauto.
  - intros t'. destruct (tasks db !! tid); simpl; [|discriminate].
    intros [= <-]. apply Hf.
Qed.

(** C5.  [update_status] raises if and only if the status is not one of
    OPEN, IN_PROGRESS, COMPLETED, CANCELLED, and what it raises is the
    argument error; [update] raises under the same condition on a status
    field that is supplied, and never without one; with a valid status
    neither raises, a task stored under the id stays stored, and the task
    stored under the id after the call has the status supplied. *)
Theorem status_validation (now : Z) (tid st : string) (kwargs : TaskFields)
  (db : Database) :
  ((exists e, update_status now tid st db = inl e)
   <-> ~ (st = "OPEN" \/ st = "IN_PROGRESS" \/ st = "COMPLETED"
         \/ st = "CANCELLED"))
  /\ (forall e, update_status now tid st db = inl e ->
                e = ValueError ("Invalid status: " ++ st))
  /\ ((exists e, update now tid kwargs db = inl e)
      <-> exists s, f_status kwargs = Some s
                    /\ ~ (s = "OPEN" \/ s = "IN_PROGRESS" \/ s = "COMPLETED"
                          \/ s = "CANCELLED"))
  /\ (forall e, update now tid kwargs db = inl e ->
                exists s, e = ValueError ("Invalid status: " ++ s))
  /\ (st = "OPEN" \/ st = "IN_PROGRESS" \/ st = "COMPLETED"
      \/ st = "CANCELLED" ->
      exists db',
        update_status now tid st db = inr (db', get_by_id tid db')
        /\ (forall t, get_by_id tid db = Some t ->
                      exists t', get_by_id tid db' = Some t')
        /\ (forall t', get_by_id tid db' = Some t' -> status t' = st))
  /\ (st = "OPEN" \/ st = "IN_PROGRESS" \/ st = "COMPLETED"
      \/ st = "CANCELLED" ->
      f_status kwargs = Some st ->
      exists db',
        update now tid kwargs db = inr (db', get_by_id tid db')
        /\ (forall t, get_by_id tid db = Some t ->
                      exists t', get_by_id tid db' = Some t')
        /\ (forall t', get_by_id tid db' = Some t' -> status t' = st)).
Proof.
  repeat setoid_rewrite <- valid_status_cases.
  assert (Hmem : forall s, negb (mem s valid_statuses) = true
                           <-> ~ In s valid_statuses).
  { intros s. rewrite negb_true_iff, <- not_true_iff_false, mem_In. tauto. }
  split; [|split; [|split; [|split; [|split]]]].
  - unfold update_status. destruct (negb (mem st valid_statuses)) eqn:Hv.
    + apply Hmem in Hv. split; eauto.
    + split; [intros [e He]; discriminate He|].
      intros Hn. apply Hmem in Hn. congruence.
  - intros e. unfold update_status.
    destruct (negb (mem st valid_statuses)); [|discriminate].
    now intros [= <-].
  - unfold update.
    change (f_status (clamp_fields kwargs)) with (f_status kwargs).
    destruct (f_status kwargs) as [s|].
    + destruct (negb (mem s valid_statuses)) eqn:Hv.
      * apply Hmem in Hv. split; [intros _; exists s; auto | eauto].
      * split; [intros [e He]; discriminate He|].
        intros (s' & [= <-] & Hn). apply Hmem in Hn. congruence.
    + split; [intros [e He]; discriminate He|].
      intros (s' & [=] & _).
  - intros e. unfold update.
    change (f_status (clamp_fields kwargs)) with (f_status kwargs).
    destruct (f_status kwargs) as [s|]; [|discriminate].
    destruct (negb (mem s valid_statuses)); [|discriminate].
    intros [= <-]. eauto.
  - intros Hv. unfold update_status.
    destruct (negb (mem st valid_statuses)) eqn:Hn;
      [apply Hmem in Hn; contradiction|].
    eexists. split; [reflexivity|].
    apply alter_status_lookup. reflexivity.
  - intros Hv Hs. unfold update.
    change (f_status (clamp_fields kwargs)) with (f_status kwargs).
    rewrite Hs.
    destruct (negb (mem st valid_statuses)) eqn:Hn;
      [apply Hmem in Hn; contradiction|].
    eexists. split; [reflexivity|].
    apply alter_status_lookup. intros t. simpl. now rewrite Hs.
Qed.

Lemma status_validation_witness :
  exists db',
    update_status 9 "t-1" "COMPLETED"
      (store_after (empty_database false)
         (create "t-1" 7 "u-1" "call mum" 2 None (empty_database false)))
    = inr (db', get_by_id "t-1" db')
    /\ (forall t', get_by_id "t-1" db' = Some t' -> status t' = "COMPLETED").
Proof.
  destruct (status_validation 9 "t-1" "COMPLETED"
              (mkFields None None None None)
              (store_after (empty_database false)
                 (create "t-1" 7 "u-1" "call mum" 2 None
                    (empty_database false))))
    as (_ & _ & _ & _ & H & _).
  destruct H as (db' & Hu & _ & Hs); [auto|].
  exists db'. auto.
Defined.

End TaskRepoFacts.

(** * Further properties of the code *)

(** ** Conversation history and scratchpad *)

Section ContextOpsFacts.
Import ContextOps.

Lemma first_user_turn_Some (turns : list ConversationTurn) (c : string) :
  first_user_turn turns = Some c <->
  exists pre t post,
    turns = (pre ++ t :: post)%list /\ is_user_turn t = true
    /\ content t = c /\ forallb (fun x => negb (is_user_turn x)) pre = true.
Proof.
  induction turns as [|t turns IH]; simpl.
  - split; [discriminate|]. intros (pre & t & post & H & _).
    destruct pre; discriminate H.
  - fold (is_user_turn t). destruct (is_user_turn t) eqn:Hu.
    + split.
      * intros [= <-]. exists [], t, turns. auto.
      * intros (pre & t' & post & H & Hu' & Hc & Hpre).
        destruct pre as [|p pre]; simpl in H.
        -- injection H as -> _. now rewrite Hc.
        -- injection H as -> _. simpl in Hpre. rewrite Hu in Hpre.
           discriminate Hpre.
    + rewrite IH. split.
      * intros (pre & t' & post & -> & Hu' & Hc & Hpre).
        exists (t :: pre), t', post. simpl. rewrite Hu. auto.
      * intros (pre & t' & post & H & Hu' & Hc & Hpre).
        destruct pre as [|p pre]; simpl in H.
        -- injection H as -> _. congruence.
        -- injection H as -> ->. simpl in Hpre. rewrite Hu in Hpre.
           exists pre, t', post. auto.
Qed.

Lemma first_user_turn_None (turns : list ConversationTurn) :
  first_user_turn turns = None <->
  forallb (fun x => negb (is_user_turn x)) turns = true.
Proof.
  induction turns as [|t turns IH]; simpl; [tauto|].
  fold (is_user_turn t). destruct (is_user_turn t); simpl; [|exact IH].
  split; discriminate.
Qed.

(** [get_last_user_turn] returns the content of the latest turn whose role
    is "user": no later turn is a user turn; it returns [None] exactly when
    the history has no user turn. *)
Theorem last_user_turn_is_latest (s : SessionContext) :
  (forall c,
      get_last_user_turn s = Some c <->
      exists earlier t later,
        conversation_history s = (earlier ++ t :: later)%list
        /\ role t = "user" /\ content t = c
        /\ Forall (fun x => role x <> "user") later)
  /\ (get_last_user_turn s = None <->
      Forall (fun x => role x <> "user") (conversation_history s)).
Proof.
  assert (Hall : forall l,
             forallb (fun x => negb (is_user_turn x)) l = true
             <-> Forall (fun x => role x <> "user") l).
  { intros l. rewrite forallb_forall, List.Forall_forall.
    split; intros H x Hx; specialize (H x Hx); unfold is_user_turn in *.
    - apply negb_true_iff in H. now apply String.eqb_neq.
    - apply negb_true_iff. now apply String.eqb_neq. }
  unfold get_last_user_turn. split.
  - intros c. rewrite first_user_turn_Some. split.
    + intros (pre & t & post & Hrev & Hu & Hc & Hpre).
      exists (rev post), t, (rev pre).
      apply (f_equal (@rev _)) in Hrev. rewrite rev_involutive in Hrev.
      rewrite Hrev, rev_app_distr. simpl. rewrite <- app_assoc. simpl.
      split; [reflexivity|]. split; [now apply String.eqb_eq|].
      split; [exact Hc|]. apply Hall. rewrite forallb_forall.
      intros x Hx. rewrite forallb_forall in Hpre. apply Hpre.
      now apply in_rev.
    + intros (pre & t & post & Hh & Hu & Hc & Hpost).
      exists (rev post), t, (rev pre). rewrite Hh, rev_app_distr. simpl.
      rewrite <- app_assoc. simpl. split; [reflexivity|].
      split; [now apply String.eqb_eq|]. split; [exact Hc|].
      apply Hall in Hpost. rewrite forallb_forall in *. intros x Hx.
      apply Hpost. now apply in_rev.
  - rewrite first_user_turn_None, Hall. split; intros H.
    + apply List.Forall_rev in H. now rewrite rev_involutive in H.
    + now apply List.Forall_rev.
Qed.

(** After [add_turn], the last user turn is the new content when the role
    is "user", and what it was before otherwise. *)
Theorem last_user_turn_after_add_turn (now : Z) (r c : string)
  (ag : option string) (s : SessionContext) :
  get_last_user_turn (fst (add_turn now r c ag s))
  = if String.eqb r "user" then Some c else get_last_user_turn s.
Proof.
  unfold get_last_user_turn, add_turn. simpl. rewrite rev_app_distr. simpl.
  reflexivity.
Qed.

(** [get_recent_history(limit)]: a positive limit gives the last
    [min(limit, len)] turns; a limit of zero gives the whole history, not
    the empty list; a negative limit drops the first [-limit] turns. *)
Theorem recent_history_slice (limit : Z) (s : SessionContext) :
  ((0 < limit)%Z ->
   exists earlier,
     conversation_history s = (earlier ++ get_recent_history limit s)%list
     /\ length (get_recent_history limit s)
        = Nat.min (Z.to_nat limit) (length (conversation_history s)))
  /\ (limit = 0%Z -> get_recent_history limit s = conversation_history s)
  /\ ((limit < 0)%Z ->
      get_recent_history limit s
      = drop (Z.to_nat (- limit)) (conversation_history s)).
Proof.
  unfold get_recent_history, slice_last. split; [|split].
  - intros Hl. rewrite (proj2 (Z.ltb_lt 0 limit) Hl).
    exists (take (length (conversation_history s) - Z.to_nat limit)
              (conversation_history s)).
    split; [now rewrite take_drop|]. rewrite length_drop. lia.
  - intros ->. reflexivity.
  - intros Hl. destruct (0 <? limit)%Z eqn:H; [|reflexivity].
    apply Z.ltb_lt in H. lia.
Qed.

Lemma recent_history_slice_witness :
  get_recent_history 0
    (fst (add_turn 2 "assistant" "hello" (Some "router")
            (fst (add_turn 1 "user" "hi" None (new_session "s" CLI 0)))))
  = [mkTurn 1 "user" "hi" None; mkTurn 2 "assistant" "hello" (Some "router")].
Proof.
  rewrite (proj1 (proj2 (recent_history_slice 0 _)) eq_refl). reflexivity.
Defined.

(** Scratchpad round trips: [get] after [set] on the same key gives the
    value set, other keys are untouched, and after [clear] no key is
    present and [get] gives the default. *)
Theorem scratchpad_round_trip (now : Z) (k k' : string) (v dflt : pyval)
  (p : Scratchpad) :
  scratchpad_get k dflt (scratchpad_set now k v p) = v
  /\ scratchpad_has k (scratchpad_set now k v p) = true
  /\ (k' <> k ->
      scratchpad_get k' dflt (scratchpad_set now k v p)
      = scratchpad_get k' dflt p
      /\ scratchpad_has k' (scratchpad_set now k v p) = scratchpad_has k' p)
  /\ scratchpad_has k' (scratchpad_clear now p) = false
  /\ scratchpad_get k' dflt (scratchpad_clear now p) = dflt.
Proof.
  unfold scratchpad_get, scratchpad_has, scratchpad_set, scratchpad_clear.
  simpl. rewrite lookup_insert_eq, lookup_empty. simpl.
  split; [reflexivity|].
  split; [first [reflexivity | now apply bool_decide_eq_true_2]|].
  split; [|split; [|reflexivity]].
  - intros Hne. rewrite lookup_insert_ne by congruence. auto.
  - first [reflexivity
          | apply bool_decide_eq_false_2; intros [x Hx]; discriminate Hx].
Qed.

Lemma scratchpad_round_trip_witness :
  scratchpad_get "slot" PNone
    (scratchpad_set 3 "date" (PStr "friday")
       (scratchpad_set 2 "slot" (PInt 4) (mkScratchpad ∅ 0)))
  = PInt 4.
Proof.
  destruct (scratchpad_round_trip 3 "date" "slot" (PStr "friday") PNone
              (scratchpad_set 2 "slot" (PInt 4) (mkScratchpad ∅ 0)))
    as (_ & _ & H & _).
  destruct H as [H _]; [discriminate|]. rewrite H.
  apply (proj1 (scratchpad_round_trip 2 "slot" "slot" (PInt 4) PNone
                  (mkScratchpad ∅ 0))).
Defined.

End ContextOpsFacts.

(** ** Task repository: deletion, unknown ids, status domain, open count *)

Section TaskQueriesFacts.
Import TaskRepo TaskQueries.
Local Open Scope Z_scope.

Lemma set_tasks_same (db : Database) : set_tasks (tasks db) db = db.
Proof. now destruct db. Qed.

Lemma alter_absent (f : Task -> Task) (tid : string)
  (m : gmap string Task) :
  m !! tid = None -> alter f tid m = m.
Proof.
  intros H. apply map_eq. intros i. rewrite lookup_alter.
  case_decide; subst; rewrite ?H; done.
Qed.

(** [delete] answers true exactly when the id was stored; afterwards the
    id is not stored any more and every other task is as before. *)
Theorem delete_removes_task (tid : string) (db : Database) :
  (snd (delete tid db) = true <-> is_Some (get_by_id tid db))
  /\ get_by_id tid (fst (delete tid db)) = None
  /\ (forall k, k <> tid ->
        get_by_id k (fst (delete tid db)) = get_by_id k db)
  /\ (get_by_id tid db = None -> fst (delete tid db) = db).
Proof.
  unfold delete, get_by_id. simpl. split; [|split; [|split]].
  - apply bool_decide_eq_true.
  - apply lookup_delete_eq.
  - intros k Hk. now apply lookup_delete_ne.
  - intros Hn. rewrite delete_id by exact Hn. apply set_tasks_same.
Qed.

(** A task that was created and then deleted is not found, and the
    deletion reports success (the scenario of the repository test). *)
Theorem create_then_delete (new_id : string) (now : Z) (uid descr : string)
  (prio : Z) (due : option Z) (db db' : Database) (t : Task) :
  create new_id now uid descr prio due db = inr (db', t) ->
  snd (delete (task_id t) db') = true
  /\ get_by_id (task_id t) (fst (delete (task_id t) db')) = None
  /\ tasks (fst (delete (task_id t) db')) = tasks db.
Proof.
  intros Hc. pose proof Hc as Hc'. apply create_inr in Hc' as [-> ->].
  unfold create in Hc. destruct (tasks db !! new_id) eqn:Hn; [discriminate|].
  unfold delete, get_by_id. simpl. rewrite lookup_insert_eq.
  split; [now apply bool_decide_eq_true_2|]. split.
  - apply lookup_delete_eq.
  - rewrite delete_insert_eq. now apply delete_id.
Qed.

Lemma create_then_delete_witness :
  get_by_id "t-1"
    (fst (delete "t-1"
            (store_after (empty_database false)
               (create "t-1" 7 "u-1" "call mum" 2 None
                  (empty_database false))))) = None.
Proof.
  destruct (create "t-1" 7 "u-1" "call mum" 2 None (empty_database false))
    as [e|[db' t]] eqn:Hc; [discriminate Hc|].
  destruct (create_then_delete _ _ _ _ _ _ _ _ _ Hc) as (_ & H & _).
  apply create_inr in Hc as [-> ->]. exact H.
Defined.

(** On an id that is not stored, [update_status] and [update] (with a
    status that is valid, when one is given) return no task and leave the
    store as it is: no row is created. *)
Theorem update_unknown_id (now : Z) (tid st : string) (kwargs : TaskFields)
  (db : Database) :
  get_by_id tid db = None ->
  (In st valid_statuses -> update_status now tid st db = inr (db, None))
  /\ ((forall s, f_status kwargs = Some s -> In s valid_statuses) ->
      update now tid kwargs db = inr (db, None)).
Proof.
  unfold get_by_id. intros Hn.
  assert (Ha : forall f, set_tasks (alter f tid (tasks db)) db = db).
  { intros f. rewrite (alter_absent f tid (tasks db) Hn).
    apply set_tasks_same. }
  split.
  - intros Hv. unfold update_status. apply mem_In in Hv. rewrite Hv. simpl.
    rewrite Ha. unfold get_by_id. now rewrite Hn.
  - intros Hv. unfold update.
    change (f_status (clamp_fields kwargs)) with (f_status kwargs).
    destruct (f_status kwargs) as [s|] eqn:Hs.
    + specialize (Hv s eq_refl). apply mem_In in Hv. rewrite Hv. simpl.
      rewrite Ha. unfold get_by_id. now rewrite Hn.
    + rewrite Ha. unfold get_by_id. now rewrite Hn.
Qed.

Lemma update_unknown_id_witness :
  update_status 3 "missing" "COMPLETED" (empty_database true)
  = inr (empty_database true, None).
Proof.
  apply (proj1 (update_unknown_id 3 "missing" "COMPLETED"
                  (mkFields None None None None) (empty_database true)
                  eq_refl)).
  simpl. auto.
Defined.

(** What [update] writes to a stored task when its keyword arguments are
    among [description], [priority], [status] and [due_date]: the task it
    returns is the one now stored under the id, each of these columns
    that is given has the value given (the priority clamped), each of
    them that is left out has kept its value, the update time is the
    current one, and no other task has changed. *)
Theorem update_fields (now : Z) (tid : string) (kwargs : TaskFields)
  (db db' : Database) (t : Task) (r : option Task) :
  get_by_id tid db = Some t ->
  update now tid kwargs db = inr (db', r) ->
  exists t',
    r = Some t' /\ get_by_id tid db' = Some t'
    /\ updated_at t' = now
    /\ description t' = default (description t) (f_description kwargs)
    /\ priority t'
       = default (priority t) (clamp_priority <$> f_priority kwargs)
    /\ status t' = default (status t) (f_status kwargs)
    /\ due_date t' = default (due_date t) (f_due_date kwargs)
    /\ (forall k, k <> tid -> get_by_id k db' = get_by_id k db).
Proof.
  unfold get_by_id. intros Ht Hu.
  assert (Hdb : db' = set_tasks
                        (alter (apply_fields now (clamp_fields kwargs)) tid
                           (tasks db)) db
                /\ r = get_by_id tid db').
  { unfold update in Hu.
    destruct (f_status (clamp_fields kwargs)) as [s|].
    - destruct (negb (mem s valid_statuses)); [discriminate Hu|].
      injection Hu as <- <-. auto.
    - injection Hu as <- <-. auto. }
  destruct Hdb as [-> ->]. unfold get_by_id. simpl.
  rewrite lookup_alter_eq, Ht. simpl. eexists. split; [reflexivity|].
  split; [reflexivity|]. simpl. repeat split; try reflexivity.
  intros k Hk. now rewrite lookup_alter_ne.
Qed.

Lemma update_fields_witness :
  exists t',
    get_by_id "t-1"
      (store_after (empty_database false)
         (update 9 "t-1" (mkFields None (Some 0) None None)
            (store_after (empty_database false)
               (create "t-1" 7 "u-1" "call mum" 4 None
                  (empty_database false))))) = Some t'
    /\ priority t' = 1 /\ description t' = "call mum".
Proof.
  set (db0 := store_after (empty_database false)
                (create "t-1" 7 "u-1" "call mum" 4 None
                   (empty_database false))).
  assert (H0 : get_by_id "t-1" db0
               = Some (mkTask "t-1" "u-1" "call mum" 4 "OPEN" None 7 7))
    by reflexivity.
  destruct (update 9 "t-1" (mkFields None (Some 0) None None) db0)
    as [e|[db' r]] eqn:Hu; [discriminate Hu|].
  destruct (update_fields 9 "t-1" (mkFields None (Some 0) None None) db0 db'
              _ r H0 Hu)
    as (t' & _ & Hg & _ & Hd & Hp & _).
  exists t'. simpl. auto.
Defined.

Lemma alter_statuses_valid (f : Task -> Task) (tid : string) (db : Database) :
  (forall t, In (status t) valid_statuses -> In (status (f t)) valid_statuses) ->
  statuses_valid db ->
  statuses_valid (set_tasks (alter f tid (tasks db)) db).
Proof.
  intros Hf Hdb k t. simpl. rewrite lookup_alter. case_decide.
  - subst k. destruct (tasks db !! tid) as [t0|] eqn:H0; [|discriminate].
    intros [= <-]. apply Hf. now apply (Hdb tid).
  - apply Hdb.
Qed.

Lemma run_call_statuses_valid (db : Database) (c : RepoCall) :
  statuses_valid db -> statuses_valid (run_call db c).
Proof.
  intros Hdb. destruct c as [uid|new_id now uid descr prio due|now tid st
                            |now tid kwargs|tid]; simpl.
  - exact Hdb.
  - destruct (create _ _ _ _ _ _ db) as [e|[db' t]] eqn:Hc; [exact Hdb|].
    apply create_inr in Hc as [-> ->]. intros k t. simpl.
    rewrite lookup_insert. case_decide; [|apply Hdb].
    intros [= <-]. simpl. auto.
  - unfold update_status.
    destruct (mem st valid_statuses) eqn:Hv; simpl; [|exact Hdb].
    apply alter_statuses_valid; [|exact Hdb].
    intros t _. exact (proj1 (mem_In st valid_statuses) Hv).
  - unfold update.
    change (f_status (clamp_fields kwargs)) with (f_status kwargs).
    destruct (f_status kwargs) as [s|] eqn:Hs.
    + destruct (mem s valid_statuses) eqn:Hv; simpl; [|exact Hdb].
      apply alter_statuses_valid; [|exact Hdb].
      intros t _.
      assert (E : status (apply_fields now (clamp_fields kwargs) t) = s)
        by (simpl; now rewrite Hs).
      rewrite E. exact (proj1 (mem_In s valid_statuses) Hv).
    + simpl. apply alter_statuses_valid; [|exact Hdb].
      intros t Ht.
      assert (E : status (apply_fields now (clamp_fields kwargs) t)
                  = status t) by (simpl; now rewrite Hs).
      now rewrite E.
  - intros k t. simpl. rewrite lookup_delete. case_decide; [discriminate|].
    apply Hdb.
Qed.

(** Status domain: every task of a store reached from the empty one by
    repository calls has one of the statuses OPEN, IN_PROGRESS, COMPLETED,
    CANCELLED. *)
Theorem status_domain (fk : bool) (calls : list RepoCall) (tid : string)
  (t : Task) :
  get_by_id tid (run_calls (empty_database fk) calls) = Some t ->
  status t = "OPEN" \/ status t = "IN_PROGRESS" \/ status t = "COMPLETED"
  \/ status t = "CANCELLED".
Proof.
  assert (H : forall db, statuses_valid db ->
                         statuses_valid (run_calls db calls)).
  { induction calls as [|c calls IH]; intros db Hdb; simpl; [exact Hdb|].
    apply IH, run_call_statuses_valid, Hdb. }
  intros Hg. apply valid_status_cases.
  apply (H (empty_database fk)) with (tid := tid); [|exact Hg].
  intros k t0. simpl. rewrite lookup_empty. discriminate.
Qed.

Lemma status_domain_witness :
  exists t,
    get_by_id "t-1"
      (run_calls (empty_database false)
         [CallCreate "t-1" 7 "u-1" "call mum" 2 None;
          CallUpdateStatus 8 "t-1" "DONE";
          CallUpdateStatus 9 "t-1" "IN_PROGRESS"]) = Some t
    /\ status t = "IN_PROGRESS".
Proof.
  eexists. split; [reflexivity|].
  destruct (status_domain false
              [CallCreate "t-1" 7 "u-1" "call mum" 2 None;
               CallUpdateStatus 8 "t-1" "DONE";
               CallUpdateStatus 9 "t-1" "IN_PROGRESS"] "t-1" _ eq_refl)
    as [H|[H|[H|H]]]; first [exact H | discriminate H].
Defined.

(** How many rows a filter keeps after one row is written. *)
Lemma size_filter_insert (P : string * Task -> Prop)
  `{!forall x, Decision (P x)} (m : gmap string Task) (i : string) (x : Task) :
  (size (filter P (<[i:=x]> m))
   + match m !! i with
     | Some old => if decide (P (i, old)) then 1 else 0
     | None => 0
     end
   = size (filter P m) + (if decide (P (i, x)) then 1 else 0))%nat.
Proof.
  destruct (decide (P (i, x))) as [Hx|Hx].
  - rewrite map_filter_insert_True by exact Hx. rewrite map_size_insert.
    destruct (m !! i) as [old|] eqn:Hi.
    + destruct (decide (P (i, old))) as [Ho|Ho].
      * rewrite (map_lookup_filter_Some_2 P m i old Hi Ho). simpl. lia.
      * rewrite (map_lookup_filter_None_2 P m i); [simpl; lia|].
        right. intros y Hy. congruence.
    + rewrite (map_lookup_filter_None_2 P m i); [simpl; lia|]. now left.
  - rewrite map_filter_insert_False by exact Hx. rewrite map_filter_delete.
    rewrite map_size_delete. destruct (m !! i) as [old|] eqn:Hi.
    + destruct (decide (P (i, old))) as [Ho|Ho].
      * rewrite (map_lookup_filter_Some_2 P m i old Hi Ho). simpl.
        assert (size (filter P m) <> 0)%nat; [|lia].
        intros H0. apply map_size_empty_iff in H0.
        pose proof (map_lookup_filter_Some_2 P m i old Hi Ho) as H1.
        rewrite H0, lookup_empty in H1. discriminate H1.
      * rewrite (map_lookup_filter_None_2 P m i); [simpl; lia|].
        right. intros y Hy. congruence.
    + rewrite (map_lookup_filter_None_2 P m i); [simpl; lia|]. now left.
Qed.

Lemma open_weight_decide (uid k : string) (t : Task) :
  Z.of_nat (if decide (counted_for uid (k, t)) then 1 else 0)
  = open_weight uid t.
Proof.
  unfold open_weight, counted_for. simpl.
  destruct (decide _) as [[Hu Ha]|Hn].
  - rewrite Ha. apply String.eqb_eq in Hu. now rewrite Hu.
  - destruct (String.eqb (user_id t) uid) eqn:Hu; [|reflexivity].
    destruct (is_active t) eqn:Ha; [|reflexivity].
    exfalso. apply Hn. apply String.eqb_eq in Hu. auto.
Qed.

(** The open count follows the writes: a created task adds one to the
    count of its owner and nothing to the others; a status update of a
    stored task changes the count of its owner by the difference between
    being active after and before; deleting a stored task takes its weight
    away. *)
Theorem open_count_after_writes (uid : string) (db : Database) :
  (forall new_id now owner descr prio due db' t,
      create new_id now owner descr prio due db = inr (db', t) ->
      get_open_count uid db'
      = get_open_count uid db + (if String.eqb owner uid then 1 else 0))
  /\ (forall now tid st t db' r,
        get_by_id tid db = Some t ->
        update_status now tid st db = inr (db', r) ->
        get_open_count uid db'
        = get_open_count uid db - open_weight uid t
          + open_weight uid (with_status now st t))
  /\ (forall tid t,
        get_by_id tid db = Some t ->
        get_open_count uid (fst (delete tid db))
        = get_open_count uid db - open_weight uid t).
Proof.
  unfold get_open_count, get_by_id. split; [|split].
  - intros new_id now owner descr prio due db' t Hc.
    pose proof Hc as Hc'. apply create_inr in Hc' as [-> ->].
    unfold create in Hc. destruct (tasks db !! new_id) eqn:Hn; [discriminate|].
    clear Hc. simpl.
    pose proof (size_filter_insert (counted_for uid) (tasks db) new_id
                  {| task_id := new_id; user_id := owner;
                     description := descr;
                     priority := clamp_priority prio; status := "OPEN";
                     due_date := due; created_at := now;
                     updated_at := now |}) as H.
    rewrite Hn in H. apply (f_equal Z.of_nat) in H.
    rewrite !Nat2Z.inj_add, open_weight_decide in H. simpl in H.
    unfold open_weight, is_active in H. cbn [user_id status mem existsb] in H.
    change ("OPEN" =? "OPEN")%string with true in H.
    rewrite orb_true_l, andb_true_r in H. simpl in H. lia.
  - intros now tid st t db' r Ht Hu. unfold update_status in Hu.
    destruct (negb (mem st valid_statuses)); [discriminate Hu|].
    injection Hu as <- _. simpl.
    assert (Ha : alter (with_status now st) tid (tasks db)
                 = <[tid := with_status now st t]> (tasks db)).
    { apply map_eq. intros k. rewrite lookup_alter, lookup_insert.
      case_decide; [subst k; now rewrite Ht | reflexivity]. }
    rewrite Ha.
    pose proof (size_filter_insert (counted_for uid) (tasks db) tid
                  (with_status now st t)) as H.
    rewrite Ht in H. apply (f_equal Z.of_nat) in H.
    rewrite !Nat2Z.inj_add, !open_weight_decide in H. lia.
  - intros tid t Ht. simpl. rewrite map_filter_delete, map_size_delete.
    destruct (decide (counted_for uid (tid, t))) as [Hc|Hc].
    + rewrite (map_lookup_filter_Some_2 _ _ _ _ Ht Hc).
      pose proof (open_weight_decide uid tid t) as Hw.
      rewrite decide_True in Hw by exact Hc.
      assert (size (filter (counted_for uid) (tasks db)) <> 0)%nat; [|lia].
      intros H0. apply map_size_empty_iff in H0.
      pose proof (map_lookup_filter_Some_2 _ _ _ _ Ht Hc) as H1.
      rewrite H0, lookup_empty in H1. discriminate H1.
    + rewrite (map_lookup_filter_None_2 (counted_for uid) (tasks db) tid).
      * pose proof (open_weight_decide uid tid t) as Hw.
        rewrite decide_False in Hw by exact Hc. simpl in *. lia.
      * right. intros y Hy. congruence.
Qed.

Lemma open_count_after_writes_witness :
  get_open_count "u-1"
    (store_after (empty_database false)
       (create "t-1" 7 "u-1" "call mum" 2 None (empty_database false)))
  = 1.
Proof.
  destruct (create "t-1" 7 "u-1" "call mum" 2 None (empty_database false))
    as [e|[db' t]] eqn:Hc; [discriminate Hc|].
  cbn [store_after].
  rewrite (proj1 (open_count_after_writes "u-1" (empty_database false))
             _ _ _ _ _ _ _ _ Hc).
  reflexivity.
Defined.

End TaskQueriesFacts.

(** ** User repository: the phone number index *)

Section UserRepoFacts.
Import UserRepo.

Lemma filter_phone_singleton (tbl : gmap string User) (i : string)
  (u : User) :
  phones_unique tbl -> tbl !! i = Some u ->
  filter (has_phone (phone_number u)) tbl = {[ i := u ]}.
Proof.
  intros Hu Hi. apply map_eq. intros k.
  destruct (decide (k = i)) as [->|Hne].
  - rewrite lookup_singleton_eq.
    apply map_lookup_filter_Some_2; [exact Hi | reflexivity].
  - rewrite lookup_singleton_ne by congruence.
    apply map_lookup_filter_None. 
    destruct (tbl !! k) as [v|] eqn:Hk; [right | now left].
    intros v' Hv' Hp. unfold has_phone in Hp. simpl in Hp.
    assert (v' = v) by congruence. subst v'.
    apply Hne. exact (Hu k i v u Hk Hi Hp).
Qed.

Lemma get_by_phone_found (tbl : gmap string User) (i : string) (u : User) :
  phones_unique tbl -> tbl !! i = Some u ->
  get_by_phone (phone_number u) tbl = inr (Some u).
Proof.
  intros Hu Hi. unfold get_by_phone.
  rewrite (filter_phone_singleton tbl i u Hu Hi), map_to_list_singleton.
  reflexivity.
Qed.

Lemma get_by_phone_cases (phone : string) (tbl : gmap string User) :
  phones_unique tbl ->
  (exists i u, tbl !! i = Some u /\ phone_number u = phone
               /\ get_by_phone phone tbl = inr (Some u))
  \/ ((forall i u, tbl !! i = Some u -> phone_number u <> phone)
      /\ get_by_phone phone tbl = inr None).
Proof.
  intros Hu.
  destruct (map_choose_or_empty (filter (has_phone phone) tbl))
    as [(i & u & Hf)|He].
  - left. apply map_lookup_filter_Some in Hf. destruct Hf as [Hi Hp].
    unfold has_phone in Hp. simpl in Hp. exists i, u.
    split; [exact Hi|]. split; [exact Hp|].
    rewrite <- Hp. now apply get_by_phone_found with i.
  - right. split.
    + intros i u Hi Hp.
      assert (Hf : filter (has_phone phone) tbl !! i = Some u)
        by now apply map_lookup_filter_Some_2.
      rewrite He in Hf. now rewrite lookup_empty in Hf.
    + unfold get_by_phone. rewrite He, map_to_list_empty. reflexivity.
Qed.

Lemma get_by_phone_by_cases (phone : string) (tbl : gmap string User) :
  match get_by_phone phone tbl with
  | inr None => forall i u, tbl !! i = Some u -> phone_number u <> phone
  | inr (Some u) =>
      exists i, tbl !! i = Some u /\ phone_number u = phone
        /\ forall j v, tbl !! j = Some v -> phone_number v = phone -> j = i
  | inl MultipleResultsFound =>
      exists i j u v, i <> j /\ tbl !! i = Some u /\ tbl !! j = Some v
        /\ phone_number u = phone /\ phone_number v = phone
  | inl (UniqueViolation _) => False
  end.
Proof.
  unfold get_by_phone.
  assert (Hin : forall i u,
             (i, u) ∈ map_to_list (filter (has_phone phone) tbl)
             <-> tbl !! i = Some u /\ phone_number u = phone).
  { intros i u. rewrite elem_of_map_to_list, map_lookup_filter_Some.
    reflexivity. }
  pose proof (NoDup_fst_map_to_list (filter (has_phone phone) tbl)) as Hnd.
  destruct (map_to_list (filter (has_phone phone) tbl))
    as [|[i u] [|[j v] l]]; cbn [fmap list_fmap snd scalar_one_or_none].
  - intros i u Hi Hp.
    assert (Hf : (i, u) ∈ @nil (string * User)) by (apply Hin; auto).
    now apply elem_of_nil in Hf.
  - destruct (proj1 (Hin i u)) as [Hi Hp]; [apply list_elem_of_here|].
    exists i. split; [exact Hi|]. split; [exact Hp|].
    intros j v Hj Hq.
    assert (Hf : (j, v) ∈ [(i, u)]) by (apply Hin; auto).
    apply list_elem_of_singleton in Hf. congruence.
  - destruct (proj1 (Hin i u)) as [Hi Hp]; [apply list_elem_of_here|].
    destruct (proj1 (Hin j v)) as [Hj Hq];
      [apply list_elem_of_further, list_elem_of_here|].
    exists i, j, u, v. split; [|auto].
    cbn [fmap list_fmap fst] in Hnd. apply NoDup_cons_1_1 in Hnd.
    intros ->. apply Hnd. apply list_elem_of_here.
Qed.

(** What a lookup by phone number gives on a session in working order,
    whatever the table: None exactly when no row has the number, a row
    exactly when it is the only row with the number, and the error of
    [scalar_one_or_none] exactly when two rows have the number.  Where no
    two rows share a phone number (the unique index of the column) the
    lookup therefore returns. *)
Theorem get_by_phone_outcome (phone : string) (tbl : gmap string User) :
  (get_by_phone phone tbl = inr None
   <-> forall i u, tbl !! i = Some u -> phone_number u <> phone)
  /\ (forall u,
        get_by_phone phone tbl = inr (Some u)
        <-> exists i, tbl !! i = Some u /\ phone_number u = phone
              /\ forall j v, tbl !! j = Some v -> phone_number v = phone ->
                             j = i)
  /\ (get_by_phone phone tbl = inl MultipleResultsFound
      <-> exists i j u v, i <> j /\ tbl !! i = Some u /\ tbl !! j = Some v
            /\ phone_number u = phone /\ phone_number v = phone)
  /\ (phones_unique tbl -> exists r, get_by_phone phone tbl = inr r).
Proof.
  pose proof (get_by_phone_by_cases phone tbl) as H.
  destruct (get_by_phone phone tbl) as [[c|]|[w|]].
  - destruct H.
  - destruct H as (i & j & u & v & Hne & Hi & Hj & Hp & Hq).
    split; [|split; [|split]].
    + split; [discriminate|]. intros Hn. now destruct (Hn i u Hi).
    + intros w. split; [discriminate|].
      intros (k & Hk & _ & Hall). exfalso. apply Hne.
      now rewrite (Hall i u Hi Hp), (Hall j v Hj Hq).
    + split; [intros _; now exists i, j, u, v | reflexivity].
    + intros Hu. exfalso. apply Hne. apply (Hu i j u v Hi Hj). congruence.
  - destruct H as (i & Hi & Hp & Hall).
    split; [|split; [|split]].
    + split; [discriminate|]. intros Hn. now destruct (Hn i w Hi).
    + intros u. split.
      * intros [= <-]. now exists i.
      * intros (k & Hk & Hq & _). rewrite (Hall k u Hk Hq) in Hk.
        congruence.
    + split; [discriminate|].
      intros (a & b & u & v & Hne & Ha & Hb & Hq & Hr). exfalso. apply Hne.
      now rewrite (Hall a u Ha Hq), (Hall b v Hb Hr).
    + eauto.
  - split; [|split; [|split]].
    + split; [intros _; exact H | reflexivity].
    + intros u. split; [discriminate|].
      intros (k & Hk & Hq & _). now destruct (H k u Hk).
    + split; [discriminate|].
      intros (a & b & u & v & _ & Ha & _ & Hq & _). now destruct (H a u Ha).
    + eauto.
Qed.

Lemma phones_unique_empty : phones_unique ∅.
Proof. intros i j u v Hi. now rewrite lookup_empty in Hi. Qed.

Lemma phone_taken_false (phone uid : string) (tbl : gmap string User) :
  phone_taken phone uid tbl = false ->
  forall k u, tbl !! k = Some u -> k <> uid -> phone_number u <> phone.
Proof.
  unfold phone_taken. intros H k u Hk Hne Hp.
  apply bool_decide_eq_false in H. apply H. now exists k, u.
Qed.

Lemma user_create_inr (new_id : string) (now : Z) (phone : string)
  (name : option string) (prefs : option (list (string * string)))
  (tbl tbl' : gmap string User) (u : User) :
  create new_id now phone name prefs tbl = inr (tbl', u) ->
  tbl !! new_id = None
  /\ phone_taken phone new_id tbl = false
  /\ tbl' = <[new_id := u]> tbl
  /\ user_id u = new_id /\ phone_number u = phone /\ full_name u = name.
Proof.
  unfold create. destruct (tbl !! new_id) eqn:Hn; [discriminate|].
  destruct (phone_taken phone new_id tbl) eqn:Ht; [discriminate|].
  intros [= <- <-]. simpl. repeat split; reflexivity.
Qed.

Lemma insert_phones_unique (tbl : gmap string User) (i : string) (u : User) :
  phones_unique tbl ->
  (forall k v, tbl !! k = Some v -> k <> i ->
     phone_number v <> phone_number u) ->
  phones_unique (<[i := u]> tbl).
Proof.
  intros Hu Hfree a b x y Ha Hb Hp.
  destruct (decide (a = i)) as [->|Hai], (decide (b = i)) as [->|Hbi];
    [reflexivity | | | ].
  - rewrite lookup_insert_eq in Ha. rewrite lookup_insert_ne in Hb by congruence.
    injection Ha as <-. now destruct (Hfree b y Hb Hbi).
  - rewrite lookup_insert_eq in Hb. rewrite lookup_insert_ne in Ha by congruence.
    injection Hb as <-. now destruct (Hfree a x Ha Hai).
  - rewrite lookup_insert_ne in Ha, Hb by congruence.
    exact (Hu a b x y Ha Hb Hp).
Qed.

Lemma get_by_phone_outcome_witness :
  exists r,
    get_by_phone "555" (<["u1" := mkUser "u1" "555" (Some "Ann") [] 1 1]> ∅)
    = inr r.
Proof.
  apply (proj2 (proj2 (proj2 (get_by_phone_outcome "555"
                                (<["u1" := mkUser "u1" "555" (Some "Ann")
                                             [] 1 1]> ∅))))).
  apply insert_phones_unique; [exact phones_unique_empty|].
  intros k v Hk. now rewrite lookup_empty in Hk.
Defined.

Lemma create_phones_unique (new_id : string) (now : Z) (phone : string)
  (name : option string) (prefs : option (list (string * string)))
  (tbl : gmap string User) :
  phones_unique tbl ->
  phones_unique (table_after tbl (create new_id now phone name prefs tbl)).
Proof.
  intros Hu.
  destruct (create new_id now phone name prefs tbl) as [e|[tbl' u]] eqn:Hc;
    [exact Hu|].
  apply user_create_inr in Hc. destruct Hc as (Hn & Ht & -> & _ & Hp & _).
  simpl. apply insert_phones_unique; [exact Hu|].
  intros k v Hk Hne. rewrite Hp.
  exact (phone_taken_false phone new_id tbl Ht k v Hk Hne).
Qed.

(** [get_or_create] is idempotent: once it has returned a user for a
    phone number, asking again for that number, with whatever name,
    returns the same user, reports that nothing was created and leaves
    the table as it is. *)
Theorem get_or_create_idempotent (new_id new_id' : string) (now now' : Z)
  (phone : string) (name name' : option string)
  (tbl tbl' : gmap string User) (u : User) (created : bool) :
  phones_unique tbl ->
  get_or_create new_id now phone name tbl = inr (tbl', (u, created)) ->
  get_or_create new_id' now' phone name' tbl' = inr (tbl', (u, false)).
Proof.
  intros Hu H. unfold get_or_create in H.
  destruct (get_by_phone_cases phone tbl Hu)
    as [(i & v & Hi & Hp & Hg)|[Hn Hg]]; rewrite Hg in H.
  - injection H as <- <- <-. unfold get_or_create. now rewrite Hg.
  - destruct (create new_id now phone name None tbl) as [e|[t w]] eqn:Hc;
      [discriminate|].
    injection H as <- <- <-.
    pose proof (create_phones_unique new_id now phone name None tbl Hu)
      as Hu'.
    rewrite Hc in Hu'. simpl in Hu'.
    apply user_create_inr in Hc. destruct Hc as (_ & _ & -> & _ & Hp & _).
    unfold get_or_create.
    rewrite <- Hp.
    rewrite (get_by_phone_found _ new_id w Hu'
               (lookup_insert_eq tbl new_id w)).
    reflexivity.
Qed.

Lemma get_or_create_idempotent_witness :
  get_or_create "u2" 2 "555" (Some "Bob")
    (<["u1" := mkUser "u1" "555" (Some "Ann") [] 1 1]> ∅)
  = inr (<["u1" := mkUser "u1" "555" (Some "Ann") [] 1 1]> ∅,
         (mkUser "u1" "555" (Some "Ann") [] 1 1, false)).
Proof.
  apply (get_or_create_idempotent "u1" "u2" 1 2 "555" (Some "Ann")
           (Some "Bob") ∅ _ _ true phones_unique_empty).
  reflexivity.
Defined.

End UserRepoFacts.

(** ** Observer: order of the hotwords, empty hotwords, sentiment *)

Section ObserverMoreFacts.
Import Observer.

Lemma first_match_app (cs : bool) (ct : string) (pre post : list string) :
  (forall x, In x pre -> contains (if cs then x else lower x) ct = false) ->
  first_match cs ct (pre ++ post)%list = first_match cs ct post.
Proof.
  induction pre as [|x pre IH]; intros H; [reflexivity|].
  simpl. rewrite (H x (or_introl eq_refl)). apply IH.
  intros y Hy. apply H. now right.
Qed.

Lemma first_match_split (cs : bool) (ct : string) (words : list string)
  (w : string) :
  first_match cs ct words = Some w ->
  exists pre post,
    words = (pre ++ w :: post)%list
    /\ (forall x, In x pre ->
          contains (if cs then x else lower x) ct = false)
    /\ contains (if cs then w else lower w) ct = true.
Proof.
  induction words as [|x words IH]; simpl; [discriminate|].
  destruct (contains (if cs then x else lower x) ct) eqn:Hc.
  - intros [= <-]. exists [], words. repeat split; [|exact Hc].
    intros y [].
  - intros H. destruct (IH H) as (pre & post & -> & Hpre & Hw).
    exists (x :: pre), post. repeat split; [|exact Hw].
    intros y [<- | Hy]; [exact Hc | now apply Hpre].
Qed.

(** [matches] returns the first hotword, in the order of the configured
    list, that occurs in the text (both lowercased unless the
    configuration is case sensitive): no hotword before it occurs. *)
Theorem matches_first_in_order (cfg : HotwordConfig) (text w : string) :
  let norm := fun s => if case_sensitive cfg then s else lower s in
  matches cfg text = Some w <->
  exists pre post,
    hotwords cfg = (pre ++ w :: post)%list
    /\ (forall x, In x pre -> contains (norm x) (norm text) = false)
    /\ contains (norm w) (norm text) = true.
Proof.
  unfold matches. destruct cfg as [words cs]. cbn [case_sensitive hotwords].
  split.
  - apply first_match_split.
  - intros (pre & post & -> & Hpre & Hw).
    rewrite first_match_app by exact Hpre. simpl. now rewrite Hw.
Qed.

Lemma contains_empty (t : string) : contains "" t = true.
Proof. now destruct t. Qed.

(** An empty string in the list of hotwords hides every hotword after it:
    it occurs in every text, so the search stops there, and as it is
    falsy no intervention is raised for it.  With sentiment analysis off,
    a signal whose text has none of the hotwords listed before the empty
    one passes, whatever the hotwords listed after it. *)
Theorem empty_hotword_masks_rest (ob : InterventionObserver)
  (signal : Signal) (pre post : list string) (text : string) :
  hotwords (hotword_config ob) = (pre ++ "" :: post)%list ->
  enable_sentiment ob = false ->
  signal_text signal = Some text ->
  (forall x, In x pre ->
     contains (if case_sensitive (hotword_config ob) then x else lower x)
       (if case_sensitive (hotword_config ob) then text else lower text)
     = false) ->
  _analyze_signal ob signal = inr tt.
Proof.
  intros Hw Hs Ht Hpre. unfold _analyze_signal. rewrite Ht, Hs.
  destruct (nonempty text); [|reflexivity].
  unfold matches. rewrite Hw, first_match_app by exact Hpre.
  simpl. destruct (case_sensitive (hotword_config ob));
    simpl; rewrite contains_empty; reflexivity.
Qed.

Lemma empty_hotword_masks_rest_witness :
  _analyze_signal
    (mkObserver (new_hotword_config (Some ["abort"; ""; "stop"]) false)
       false)
    (TextSignal "call" "please stop") = inr tt.
Proof.
  apply (empty_hotword_masks_rest _ _ ["abort"] ["stop"] "please stop");
    [reflexivity | reflexivity | reflexivity |].
  intros x [<- | []]. reflexivity.
Defined.

Lemma count_in_bounds (words : list string) (text : string) :
  (0 <= count_in words text <= Z.of_nat (length words))%Z.
Proof.
  unfold count_in. split; [lia|].
  apply inj_le. apply List.filter_length_le.
Qed.

Lemma sentiment_threshold_aux (text : string) :
  very_negative (_analyze_sentiment text) = true
  <-> (17 * count_in positive_words (lower text)
       < 3 * count_in negative_words (lower text))%Z.
Proof.
  unfold _analyze_sentiment.
  pose proof (count_in_bounds positive_words (lower text)) as Hp.
  pose proof (count_in_bounds negative_words (lower text)) as Hn.
  unfold very_negative. rewrite andb_true_iff, negb_true_iff.
  rewrite Z.eqb_neq, Z.ltb_lt. lia.
Qed.

(** The sentiment score is a fraction between -1 and 1, over at most
    twenty counted words; it is below the threshold -0.7 of the observer
    exactly when seventeen times the number of positive words found is
    less than three times the number of negative words found.  So a text
    with a positive word needs six negative ones to be very negative. *)
Theorem sentiment_threshold (text : string) :
  let pos := count_in positive_words (lower text) in
  let neg := count_in negative_words (lower text) in
  let score := _analyze_sentiment text in
  (- snd score <= fst score <= snd score /\ 0 <= snd score <= 20)%Z
  /\ (very_negative score = true <-> (17 * pos < 3 * neg)%Z).
Proof.
  intros pos neg score. split; [|apply sentiment_threshold_aux].
  unfold score, _analyze_sentiment. cbn [fst snd].
  pose proof (count_in_bounds positive_words (lower text)) as Hp.
  pose proof (count_in_bounds negative_words (lower text)) as Hn.
  change (Z.of_nat (length positive_words)) with 10%Z in Hp.
  change (Z.of_nat (length negative_words)) with 10%Z in Hn.
  lia.
Qed.

(** With sentiment analysis on, a text in which no hotword occurs raises
    the SENTIMENT intervention, towards "human_intervention", exactly when
    its score is below the threshold; a hotword that occurs is raised
    first, whatever the score. *)
Theorem sentiment_after_hotwords (ob : InterventionObserver)
  (signal : Signal) (text : string) :
  signal_text signal = Some text ->
  nonempty text = true ->
  enable_sentiment ob = true ->
  (forall w, matches (hotword_config ob) text = Some w ->
     nonempty w = true ->
     _analyze_signal ob signal
     = inl (PriorityIntervention ("Hotword detected: " ++ w) "HOTWORD"
              (_get_target_for_hotword w) (Some w)))
  /\ (matches (hotword_config ob) text = None ->
      _analyze_signal ob signal
      = if (17 * count_in positive_words (lower text)
            <? 3 * count_in negative_words (lower text))%Z
        then inl (PriorityIntervention "Negative sentiment detected"
                    "SENTIMENT" (Some "human_intervention") None)
        else inr tt).
Proof.
  intros Ht Hne Hs. unfold _analyze_signal. rewrite Ht, Hne, Hs. split.
  - intros w -> Hw. simpl. now rewrite Hw.
  - intros ->. cbn [keep_truthy andb].
    pose proof (sentiment_threshold_aux text) as H.
    destruct (very_negative (_analyze_sentiment text)) eqn:Hv.
    + apply proj1 in H. specialize (H eq_refl).
      apply Z.ltb_lt in H. now rewrite H.
    + destruct (17 * count_in positive_words (lower text)
                <? 3 * count_in negative_words (lower text))%Z eqn:Hl;
        [|reflexivity].
      apply Z.ltb_lt in Hl. apply (proj2 H) in Hl. congruence.
Qed.

Lemma sentiment_after_hotwords_witness :
  _analyze_signal (mkObserver (new_hotword_config None false) true)
    (TextSignal "call" "This is TERRIBLE, just awful")
  = inl (PriorityIntervention "Negative sentiment detected" "SENTIMENT"
           (Some "human_intervention") None).
Proof.
  exact (proj2 (sentiment_after_hotwords
                  (mkObserver (new_hotword_config None false) true)
                  (TextSignal "call" "This is TERRIBLE, just awful")
                  "This is TERRIBLE, just awful" eq_refl eq_refl eq_refl)
           eq_refl).
Defined.

End ObserverMoreFacts.

(** ** Router: keyword routing and the targets it can give *)

Section RouterFacts.
Import Router.

Lemma quick_route_authenticated (text : string) (ctx : GlobalContext) :
  ctx_is_authenticated ctx = true ->
  exists d, _quick_route text ctx = Some d
    /\ route_to d
       = match first_keyword task_keywords text,
               first_keyword auth_keywords text with
         | Some _, _ => "task_manager"
         | None, Some _ => "identity"
         | None, None => "task_manager"
         end.
Proof.
  intros Ha. unfold _quick_route. rewrite Ha.
  destruct (first_keyword task_keywords text); [eauto|].
  destruct (first_keyword auth_keywords text); eauto.
Qed.

(** For an authenticated user, a signal that carries text is routed by
    keywords alone: the answer of the language model is never looked at.
    A task keyword in the lowercased text wins and gives "task_manager",
    otherwise an identity keyword gives "identity", otherwise the route
    is "task_manager". *)
Theorem authenticated_text_route (llm : LlmResult) (signal : Signal)
  (ctx : GlobalContext) (t : string) :
  ctx_is_authenticated ctx = true ->
  _extract_text signal = Some t ->
  nonempty t = true ->
  process_signal llm signal ctx = process_signal LlmRaised signal ctx
  /\ routed_to (process_signal llm signal ctx)
     = Some (match first_keyword task_keywords (lower t),
                   first_keyword auth_keywords (lower t) with
             | Some _, _ => "task_manager"
             | None, Some _ => "identity"
             | None, None => "task_manager"
             end).
Proof.
  intros Ha Ht Hne. unfold process_signal. rewrite Ha, Ht, Hne.
  cbn [negb].
  destruct (quick_route_authenticated (lower t) ctx Ha) as (d & -> & Hd).
  split; [reflexivity|]. unfold routed_to. simpl. now rewrite Hd.
Qed.

Lemma authenticated_text_route_witness :
  process_signal
    (LlmResponse [sent (transfer_call "identity" "asks who they are")]
       None)
    (TextSignal "s" "Show my name")
    (set_user (mkUser "u1" "555" (Some "Ann") true) (new_context "s" 0))
  = process_signal LlmRaised (TextSignal "s" "Show my name")
      (set_user (mkUser "u1" "555" (Some "Ann") true) (new_context "s" 0))
  /\ routed_to
       (process_signal
          (LlmResponse
             [sent (transfer_call "identity" "asks who they are")] None)
          (TextSignal "s" "Show my name")
          (set_user (mkUser "u1" "555" (Some "Ann") true)
             (new_context "s" 0)))
     = Some "task_manager".
Proof.
  exact (authenticated_text_route
           (LlmResponse
              [sent (transfer_call "identity" "asks who they are")] None)
           (TextSignal "s" "Show my name")
           (set_user (mkUser "u1" "555" (Some "Ann") true)
              (new_context "s" 0))
           "Show my name" eq_refl eq_refl eq_refl).
Defined.




End RouterFacts.

(** ** Orchestrator: switching agents *)

Section SwitchFacts.
Import Orch.

Ltac land_on Hland t ag Ht c :=
  match goal with
  | |- context [set_active_agent _ t None ?o1] =>
      let o2 := fresh "o2" in
      let mid := fresh "mid" in
      let H2 := fresh in let H3 := fresh in let H4 := fresh in
      let H5 := fresh in let H6 := fresh in
      destruct (Hland t ag o1 c eq_refl Ht)
        as (o2 & -> & H2 & H3 & H4 & H5 & (mid & H6));
      eexists; split; [reflexivity|];
      split_and!;
      [ exact H2
      | intros ? [= <-]; exists ag; split_and!;
        [exact Ht | exact H3 | exact H4]
      | discriminate
      | exact H5
      | exists mid; cbn [trace log]; rewrite H6;
        cbn [app]; rewrite <- ?app_assoc; reflexivity ]
  end.

Ltac run_m :=
  unfold mbind, M_bind, mret, M_ret, get, put, raise, lift, emit,
    modify_session, modify; cbn beta iota.

Lemma run_on_exit_run (k : string) (o : Orchestrator) :
  run_on_exit k o
  = match _agents o !! k with
    | Some a =>
        (log (EvOnExit (name a))
           (set_agents (<[k := on_exit a]> (_agents o)) o), inr tt)
    | None => (o, inr tt)
    end.
Proof. unfold run_on_exit. run_m. now destruct (_agents o !! k). Qed.

Lemma run_on_enter_run (k : string) (h : option HandoffData)
  (o : Orchestrator) :
  run_on_enter k h o
  = match _agents o !! k with
    | Some a =>
        (log (EvOnEnter (name a) h)
           (set_agents (<[k := on_enter h a]> (_agents o)) o), inr tt)
    | None => (o, inr tt)
    end.
Proof. unfold run_on_enter. run_m. now destruct (_agents o !! k). Qed.

Lemma set_active_agent_run (now : Z) (k : string)
  (h : option HandoffData) (o : Orchestrator) (ag : Agent) :
  _agents o !! k = Some ag ->
  exists o',
    set_active_agent now k h o = (o', inr tt)
    /\ _active_agent o' = Some k
    /\ _agents o' !! k
       = Some (mkAgent (name ag) (to_context_injection <$> h))
    /\ (forall j, j <> k ->
          _agents o' !! j
          = if bool_decide (_active_agent o = Some j)
            then on_exit <$> _agents o !! j else _agents o !! j)
    /\ session (context o')
       = switch_agent now k (session (context o))
    /\ user (context o') = user (context o)
    /\ available_agents (context o') = available_agents (context o)
    /\ current_time (context o') = current_time (context o)
    /\ _running o' = _running o
    /\ trace o'
       = (trace o
          ++ match active_agent_obj o with
             | Some a0 => [EvOnExit (name a0)]
             | None => []
             end
          ++ [EvOnEnter (name ag) h])%list.
Proof.
  intros Hk. unfold set_active_agent. run_m. rewrite Hk.
  unfold active_agent_obj.
  destruct (_active_agent o) as [k0|] eqn:Ha; cbn [mbind option_bind].
  - rewrite run_on_exit_run.
    destruct (_agents o !! k0) as [a0|] eqn:H0.
    + cbn beta iota. rewrite run_on_enter_run. cbn.
      destruct (decide (k0 = k)) as [->|Hne].
      * rewrite lookup_insert_eq. eexists. split; [reflexivity|].
        cbn. rewrite lookup_insert_eq.
        assert (a0 = ag) by congruence. subst a0.
        split_and!; try reflexivity.
        -- intros j Hj. rewrite !lookup_insert_ne by congruence.
           case_bool_decide; [congruence | reflexivity].
        -- now rewrite <- app_assoc.
      * rewrite lookup_insert_ne, Hk by congruence.
        eexists. split; [reflexivity|]. cbn. rewrite lookup_insert_eq.
        split_and!; try reflexivity.
        -- intros j Hj. rewrite lookup_insert_ne by congruence.
           case_bool_decide as Hd.
           ++ injection Hd as <-. now rewrite lookup_insert_eq, H0.
           ++ rewrite lookup_insert_ne by congruence. reflexivity.
        -- now rewrite <- app_assoc.
    + cbn beta iota. rewrite run_on_enter_run. cbn. rewrite Hk.
      eexists. split; [reflexivity|]. cbn. rewrite lookup_insert_eq.
      split_and!; try reflexivity.
      intros j Hj. rewrite lookup_insert_ne by congruence.
      case_bool_decide as Hd; [|reflexivity].
      injection Hd as <-. now rewrite H0.
  - cbn beta iota. rewrite run_on_enter_run. cbn. rewrite Hk.
    eexists. split; [reflexivity|]. cbn. rewrite lookup_insert_eq.
    split_and!; try reflexivity.
    intros j Hj. rewrite lookup_insert_ne by congruence.
    case_bool_decide; [congruence | reflexivity].
Qed.

(** Switching to a registered agent returns normally and makes it the
    active agent.  The exit hook of the agent that was active runs before
    the enter hook of the new one; the new agent holds the rendering of
    the handoff it was given (none without a handoff); the session records
    the new and the previous agent.  The switch does not touch the
    conversation history, the greeting flag or the handoff slot of the
    session: a handoff that was prepared stays stored there. *)
Theorem set_active_agent_switch (now : Z) (k : string)
  (h : option HandoffData) (o : Orchestrator) (ag : Agent) :
  _agents o !! k = Some ag ->
  let o' := fst (set_active_agent now k h o) in
  snd (set_active_agent now k h o) = inr tt
  /\ active_agent_obj o'
     = Some (mkAgent (name ag) (to_context_injection <$> h))
  /\ active_agent (session (context o')) = k
  /\ previous_agent (session (context o'))
     = Some (active_agent (session (context o)))
  /\ conversation_history (session (context o'))
     = conversation_history (session (context o))
  /\ greeting_completed (session (context o'))
     = greeting_completed (session (context o))
  /\ handoff_data (session (context o'))
     = handoff_data (session (context o))
  /\ trace o'
     = (trace o
        ++ match active_agent_obj o with
           | Some a0 => [EvOnExit (name a0)]
           | None => []
           end
        ++ [EvOnEnter (name ag) h])%list.
Proof.
  intros Hk.
  destruct (set_active_agent_run now k h o ag Hk)
    as (o1 & -> & Ha & Hag & _ & Hs & _ & _ & _ & _ & Ht).
  cbn [fst snd]. unfold active_agent_obj at 1. rewrite Ha. cbn [mbind option_bind].
  rewrite Hag, Hs, Ht. split_and!; reflexivity.
Qed.

Lemma set_active_agent_switch_witness :
  let o := mkOrch (new_context "s" 0)
             (<["router" := mkAgent "router" None]>
                (<["identity" := mkAgent "identity" None]> ∅))
             (Some "router") true [] in
  let o' := fst (set_active_agent 5 "identity" None o) in
  snd (set_active_agent 5 "identity" None o) = inr tt
  /\ active_agent_obj o' = Some (mkAgent "identity" None)
  /\ active_agent (session (context o')) = "identity"
  /\ previous_agent (session (context o')) = Some "router"
  /\ conversation_history (session (context o')) = []
  /\ greeting_completed (session (context o')) = false
  /\ handoff_data (session (context o')) = None
  /\ trace o' = [EvOnExit "router"; EvOnEnter "identity" None].
Proof.
  exact (set_active_agent_switch 5 "identity" None
           (mkOrch (new_context "s" 0)
              (<["router" := mkAgent "router" None]>
                 (<["identity" := mkAgent "identity" None]> ∅))
              (Some "router") true [])
           (mkAgent "identity" None) eq_refl).
Defined.

(** The target an intervention lands on: the requested agent when it is
    named and registered, else "router" when that is registered. *)
Lemma handle_intervention_run (now : Z) (target : option string)
  (can_clear_audio : bool) (o : Orchestrator) :
  let landing :=
    match (if truthy target
           then target ≫= fun t => _ ← _agents o !! t; Some t
           else None) with
    | Some t => Some t
    | None => _ ← _agents o !! "router"; Some "router"
    end in
  exists o',
    _handle_intervention now target can_clear_audio o = (o', inr tt)
    /\ _active_agent o'
       = match landing with Some t => Some t | None => _active_agent o end
    /\ (forall t, landing = Some t ->
          exists ag, _agents o !! t = Some ag
            /\ active_agent_obj o' = Some (mkAgent (name ag) None)
            /\ active_agent (session (context o')) = t)
    /\ (landing = None -> context o' = context o /\ _agents o' = _agents o)
    /\ handoff_data (session (context o'))
       = handoff_data (session (context o))
    /\ exists middle,
         trace o'
         = (trace o
            ++ EvCancelFiller
               :: (if can_clear_audio then [EvClearAudio] else [])
            ++ middle
            ++ [EvSendText "I understand. How can I help you?"
                  (active_name_or_system o');
                EvObserverReset])%list.
Proof.
  intros landing. subst landing. unfold _handle_intervention. run_m.
  assert (Hsw : forall t ag o1,
            _agents o1 = _agents o -> context o1 = context o ->
            _agents o !! t = Some ag ->
            exists o2, set_active_agent now t None o1 = (o2, inr tt)
              /\ _active_agent o2 = Some t
              /\ active_agent_obj o2 = Some (mkAgent (name ag) None)
              /\ active_agent (session (context o2)) = t
              /\ handoff_data (session (context o2))
                 = handoff_data (session (context o))
              /\ exists middle, trace o2 = (trace o1 ++ middle)%list).
  { intros t ag o1 Hg Hc Ht. rewrite <- Hg in Ht.
    destruct (set_active_agent_run now t None o1 ag Ht)
      as (o2 & -> & Ha & Hag & _ & Hs & _ & _ & _ & _ & Htr).
    exists o2. split; [reflexivity|]. split; [exact Ha|].
    unfold active_agent_obj. rewrite Ha. cbn [mbind option_bind].
    rewrite Hag, Hs, Hc. split_and!; try reflexivity.
    eexists. exact Htr. }
  assert (Hland : forall t ag o1 (c : bool),
            o1 = (if c then log EvClearAudio (log EvCancelFiller o)
                  else log EvCancelFiller o) ->
            _agents o !! t = Some ag ->
            exists o2, set_active_agent now t None o1 = (o2, inr tt)
              /\ _active_agent o2 = Some t
              /\ active_agent_obj o2 = Some (mkAgent (name ag) None)
              /\ active_agent (session (context o2)) = t
              /\ handoff_data (session (context o2))
                 = handoff_data (session (context o))
              /\ exists middle,
                   trace o2
                   = (trace o ++ EvCancelFiller
                        :: (if c then [EvClearAudio] else [])
                        ++ middle)%list).
  { intros t ag o1 c -> Ht.
    destruct (Hsw t ag (if c then log EvClearAudio (log EvCancelFiller o)
                        else log EvCancelFiller o))
      as (o2 & H1 & H2 & H3 & H4 & H5 & (mid & H6));
      [now destruct c | now destruct c | exact Ht |].
    exists o2. split_and!; try assumption. exists mid. rewrite H6.
    destruct c; cbn; rewrite <- !app_assoc; reflexivity. }
  clear Hsw.
  assert (Hrouter :
    exists o',
      (let (o'0, s) :=
         match _agents o !! "router" with
         | Some _ => set_active_agent now "router" None
         | None => fun o0 : Orchestrator => (o0, inr ())
         end (if can_clear_audio
              then log EvClearAudio (log EvCancelFiller o)
              else log EvCancelFiller o) in
       match s with
       | inl e => (o'0, inl e)
       | inr _ =>
           (log EvObserverReset
              (log (EvSendText "I understand. How can I help you?"
                      (active_name_or_system o'0)) o'0), inr ())
       end) = (o', inr ())
      /\ _active_agent o'
         = match _agents o !! "router" ≫= (fun _ => Some "router") with
           | Some t => Some t
           | None => _active_agent o
           end
      /\ (forall t,
            _agents o !! "router" ≫= (fun _ => Some "router") = Some t ->
            exists ag, _agents o !! t = Some ag
              /\ active_agent_obj o' = Some (mkAgent (name ag) None)
              /\ active_agent (session (context o')) = t)
      /\ (_agents o !! "router" ≫= (fun _ : Agent => Some "router") = None ->
          context o' = context o /\ _agents o' = _agents o)
      /\ handoff_data (session (context o'))
         = handoff_data (session (context o))
      /\ exists middle,
           trace o'
           = (trace o
              ++ EvCancelFiller
                 :: (if can_clear_audio then [EvClearAudio] else [])
              ++ middle
              ++ [EvSendText "I understand. How can I help you?"
                    (active_name_or_system o');
                  EvObserverReset])%list).
  { destruct (_agents o !! "router") as [ag|] eqn:Hr; cbn [mbind option_bind].
    - destruct can_clear_audio.
      + land_on Hland "router" ag Hr true.
      + land_on Hland "router" ag Hr false.
    - eexists. split; [reflexivity|].
      split_and!; try discriminate; try reflexivity;
        try (now destruct can_clear_audio).
      exists []. destruct can_clear_audio; cbn;
        rewrite <- ?app_assoc; reflexivity. }
  destruct (truthy target) eqn:Htru.
  - destruct target as [t|]; [|discriminate Htru]. cbn [mbind option_bind].
    destruct (_agents o !! t) as [ag|] eqn:Ht.
    + destruct can_clear_audio;
        cbn -[set_active_agent active_name_or_system active_agent_obj];
        rewrite Ht;
        cbn -[set_active_agent active_name_or_system active_agent_obj].
      * land_on Hland t ag Ht true.
      * land_on Hland t ag Ht false.
    + destruct Hrouter as (o' & He & Hrest). exists o'.
      split; [|exact Hrest]. rewrite <- He.
      destruct can_clear_audio; cbn -[set_active_agent active_name_or_system];
        rewrite Ht; reflexivity.
  - destruct Hrouter as (o' & He & Hrest). exists o'.
    split; [|exact Hrest]. rewrite <- He.
    destruct can_clear_audio; reflexivity.
Qed.

Lemma handle_routing_decision_run (now : Z) (response : Response)
  (d : RoutingDecision) (o : Orchestrator) (ag : Agent) :
  _agents o !! route_to d = Some ag ->
  let h := mkHandoff (active_agent (session (context o))) (route_to d)
             (get_last_user_turn (session (context o)))
             (handover_context d)
             (if ctx_is_authenticated (context o)
              then full_name (user (context o)) else None)
             (greeting_completed (session (context o)))
             (data (scratchpad (session (context o))))
             (Some (thought_process d)) now in
  exists o',
    _handle_routing_decision now response d o = (o', inr tt)
    /\ active_agent_obj o'
       = Some (mkAgent (name ag) (Some (to_context_injection h)))
    /\ _active_agent o' = Some (route_to d)
    /\ session (context o')
       = switch_agent now (route_to d)
           (set_handoff_data (Some h) (session (context o)))
    /\ user (context o') = user (context o)
    /\ trace o'
       = (trace o
          ++ [EvSendFiller F_ROUTING (resp_agent_name response);
              EvPrepareHandoff (with_user_name None h);
              EvCancelFiller]
          ++ match active_agent_obj o with
             | Some a0 => [EvOnExit (name a0)]
             | None => []
             end
          ++ [EvOnEnter (name ag) (Some h)])%list.
Proof.
  intros Hk h. unfold _handle_routing_decision, prepare, attach_user_name.
  run_m. rewrite Hk. cbn -[set_active_agent].
  unfold ctx_is_authenticated in *. cbn -[set_active_agent].
  subst h.
  destruct (is_authenticated (user (context o)));
    cbn -[set_active_agent];
    (match goal with
     | |- context [set_active_agent now (route_to d) ?hh ?o1] =>
         destruct (set_active_agent_run now (route_to d) hh o1 ag Hk)
           as (o2 & -> & Ha & Hag & _ & Hs & Hu & _ & _ & _ & Htr)
     end;
     exists o2; split; [reflexivity|];
     unfold active_agent_obj at 1; rewrite Ha; cbn [mbind option_bind];
     rewrite Hag, Hs, Hu, Htr; split_and!; try reflexivity;
     cbn; rewrite <- ?app_assoc; reflexivity).
Qed.


(** Handling an intervention never raises.  It lands on the requested
    agent when one is named and registered, else on "router" when that is
    registered, else it leaves the active agent as it is.  The agent it
    lands on is entered without a handoff, so its prompt carries no
    handoff text; a handoff pending in the session is left there. *)
Theorem handle_intervention_outcome (now : Z) (target : option string)
  (can_clear_audio : bool) (o : Orchestrator) :
  let o' := fst (_handle_intervention now target can_clear_audio o) in
  let landing :=
    match (if truthy target
           then target ≫= fun t => _ ← _agents o !! t; Some t
           else None) with
    | Some t => Some t
    | None => _ ← _agents o !! "router"; Some "router"
    end in
  snd (_handle_intervention now target can_clear_audio o) = inr tt
  /\ _active_agent o'
     = match landing with Some t => Some t | None => _active_agent o end
  /\ (forall t, landing = Some t ->
        exists ag, _agents o !! t = Some ag
          /\ active_agent_obj o' = Some (mkAgent (name ag) None)
          /\ active_agent (session (context o')) = t)
  /\ handoff_data (session (context o'))
     = handoff_data (session (context o)).
Proof.
  intros o' landing.
  destruct (handle_intervention_run now target can_clear_audio o)
    as (o2 & He & Ha & Hl & _ & Hh & _).
  subst o'. rewrite He. cbn [fst snd].
  split_and!; [reflexivity | exact Ha | exact Hl | exact Hh].
Qed.

(** Every intervention raised by the default observer, whatever hotword
    it was raised for, lands on "router" when "router" is registered and
    no agent is registered under "human_intervention": the hotwords
    operator, help and emergency then behave like stop and cancel. *)
Theorem default_hotwords_land_on_router (now : Z) (signal : Signal)
  (msg ty : string) (target hotword : option string)
  (can_clear_audio : bool) (o : Orchestrator) (router : Agent) :
  Observer._analyze_signal Observer.default_observer signal
  = inl (PriorityIntervention msg ty target hotword) ->
  _agents o !! "human_intervention" = None ->
  _agents o !! "router" = Some router ->
  let o' := fst (_handle_intervention now target can_clear_audio o) in
  snd (_handle_intervention now target can_clear_audio o) = inr tt
  /\ _active_agent o' = Some "router"
  /\ active_agent (session (context o')) = "router".
Proof.
  intros Hob Hhi Hr o'.
  assert (Htarget : target = Some "human_intervention"
                    \/ target = Some "router").
  { unfold Observer._analyze_signal in Hob.
    destruct (Observer.signal_text signal) as [text|]; [|discriminate].
    destruct (nonempty text); [|discriminate].
    change (Observer.enable_sentiment Observer.default_observer)
      with false in Hob.
    unfold Observer.matches in Hob.
    change (Observer.hotword_config Observer.default_observer)
      with (Observer.mkHotwordConfig Observer.default_hotwords false) in Hob.
    cbn [Observer.case_sensitive Observer.hotwords andb] in Hob.
    destruct (Observer.first_match false (lower text)
                Observer.default_hotwords) as [w|] eqn:Hm;
      cbn [Observer.keep_truthy] in Hob; [|discriminate].
    destruct (first_match_Some _ _ _ _ Hm) as [Hin _].
    destruct (default_hotword_target w Hin) as (Hw & Htg & _).
    rewrite Hw, Htg in Hob. injection Hob as _ _ <- _.
    match goal with
    | |- context [if ?b then _ else _] => destruct b
    end; auto. }
  destruct (handle_intervention_run now target can_clear_audio o)
    as (o2 & He & Ha & Hl & _).
  subst o'. rewrite He. cbn [fst snd]. split; [reflexivity|].
  assert (Hland :
    match (if truthy target
           then target ≫= fun t => _ ← _agents o !! t; Some t
           else None) with
    | Some t => Some t
    | None => _ ← _agents o !! "router"; Some "router"
    end = Some "router").
  { destruct Htarget as [-> | ->]; cbn [truthy nonempty mbind option_bind];
      rewrite ?Hhi, ?Hr; cbn [mbind option_bind]; rewrite ?Hr; reflexivity. }
  rewrite Hland in Ha. split; [exact Ha|].
  destruct (Hl "router" Hland) as (ag & _ & _ & Hs). exact Hs.
Qed.

Lemma default_hotwords_land_on_router_witness :
  let o := mkOrch (new_context "s" 0)
             (<["router" := mkAgent "router" None]>
                (<["task_manager" := mkAgent "task_manager" None]> ∅))
             (Some "task_manager") true [] in
  let o' := fst (_handle_intervention 7 (Some "human_intervention") true o) in
  snd (_handle_intervention 7 (Some "human_intervention") true o) = inr tt
  /\ _active_agent o' = Some "router"
  /\ active_agent (session (context o')) = "router".
Proof.
  exact (default_hotwords_land_on_router 7
           (TextSignal "s" "I need an operator")
           "Hotword detected: operator" "HOTWORD"
           (Some "human_intervention") (Some "operator") true
           (mkOrch (new_context "s" 0)
              (<["router" := mkAgent "router" None]>
                 (<["task_manager" := mkAgent "task_manager" None]> ∅))
              (Some "task_manager") true [])
           (mkAgent "router" None) eq_refl eq_refl eq_refl).
Defined.

(** A routing decision never raises.  Towards an agent that is not
    registered it does nothing at all: no filler, no handoff, no switch.
    Towards a registered agent it makes that agent active and enters it
    with a handoff from the agent that was active, whose reason is the
    thought process of the decision, whose intent is its handover
    context, and which names the user when the user is authenticated;
    that handoff is the one left in the session slot. *)
Theorem routing_decision_outcome (now : Z) (response : Response)
  (d : RoutingDecision) (o : Orchestrator) :
  let r := _handle_routing_decision now response d o in
  snd r = inr tt
  /\ match _agents o !! route_to d with
     | None => fst r = o
     | Some ag =>
         exists h,
           active_agent_obj (fst r)
           = Some (mkAgent (name ag) (Some (to_context_injection h)))
           /\ handoff_data (session (context (fst r))) = Some h
           /\ active_agent (session (context (fst r))) = route_to d
           /\ source_agent h = active_agent (session (context o))
           /\ target_agent h = route_to d
           /\ reason h = Some (thought_process d)
           /\ user_intent h = handover_context d
           /\ last_user_turn h = get_last_user_turn (session (context o))
           /\ user_name h
              = (if ctx_is_authenticated (context o)
                 then full_name (user (context o)) else None)
     end.
Proof.
  intros r. subst r.
  destruct (_agents o !! route_to d) as [ag|] eqn:Hk.
  - destruct (handle_routing_decision_run now response d o ag Hk)
      as (o' & -> & Hobj & _ & Hs & _).
    cbn [fst snd]. split; [reflexivity|].
    eexists. split; [exact Hobj|]. rewrite Hs.
    split_and!; reflexivity.
  - unfold _handle_routing_decision. run_m. rewrite Hk.
    split; reflexivity.
Qed.



(** A response that is not a routing decision and carries text or audio
    is streamed out, latches the greeting flag and is recorded as one
    assistant turn, with the text, or "[audio response]" when the text is
    absent or empty; the last user message of the session stays what it
    was.  A response with neither text nor audio changes nothing: it is
    not streamed and does not latch the greeting. *)
Theorem dispatch_plain_response (now : Z) (response : Response)
  (o : Orchestrator) :
  (if is_routing (response_type response)
   then routing_decision response else None) = None ->
  let r := dispatch_response now response o in
  snd r = inr tt
  /\ if truthy (text_content response) || truthy (audio_data response)
     then
       trace (fst r) = (trace o ++ [EvStreamOutput response])%list
       /\ greeting_completed (session (context (fst r))) = true
       /\ conversation_history (session (context (fst r)))
          = (conversation_history (session (context o))
             ++ [mkTurn now "assistant"
                   (match text_content response with
                    | Some t => if nonempty t then t else "[audio response]"
                    | None => "[audio response]"
                    end)
                   (Some (resp_agent_name response))])%list
       /\ get_last_user_turn (session (context (fst r)))
          = get_last_user_turn (session (context o))
     else fst r = o.
Proof.
  intros Hd r. subst r. unfold dispatch_response. rewrite Hd.
  destruct (truthy (text_content response) || truthy (audio_data response))
    eqn:Hany; [|split; reflexivity].
  run_m. cbn.
  assert (Hc : (if truthy (text_content response)
                then default "" (text_content response)
                else "[audio response]")
               = match text_content response with
                 | Some t => if nonempty t then t else "[audio response]"
                 | None => "[audio response]"
                 end).
  { destruct (text_content response) as [t|]; [|reflexivity].
    cbn. now destruct (nonempty t). }
  destruct (greeting_completed (session (context o))) eqn:Hg; cbn;
    rewrite Hc, ?Hg; (split_and!; try reflexivity);
    unfold get_last_user_turn; cbn; rewrite rev_app_distr; reflexivity.
Qed.

Lemma dispatch_plain_response_witness :
  let o := mkOrch (new_context "s" 0) ∅ None true [] in
  let r := dispatch_response 4 (audio_response "s" "identity" "pcm") o in
  snd r = inr tt
  /\ trace (fst r) = [EvStreamOutput (audio_response "s" "identity" "pcm")]
  /\ greeting_completed (session (context (fst r))) = true
  /\ conversation_history (session (context (fst r)))
     = [mkTurn 4 "assistant" "[audio response]" (Some "identity")]
  /\ get_last_user_turn (session (context (fst r))) = None.
Proof.
  exact (dispatch_plain_response 4 (audio_response "s" "identity" "pcm")
           (mkOrch (new_context "s" 0) ∅ None true []) eq_refl).
Defined.

End SwitchFacts.

(** ** Sign-up and the start of a call *)

Section CallFacts.
Import Orch Identity Twilio.

Ltac run_m :=
  unfold mbind, M_bind, mret, M_ret, get, put, raise, lift, emit,
    modify_session, modify; cbn beta iota.

Lemma remove_char_absent (c : ascii) (s : string) :
  ~ In c (list_ascii_of_string (remove_char c s)).
Proof.
  induction s as [|x s IH]; simpl; [tauto|].
  destruct (Ascii.eqb x c) eqn:He; [exact IH|].
  simpl. intros [->|H]; [|exact (IH H)].
  now rewrite Ascii.eqb_refl in He.
Qed.

Lemma remove_char_subset (c d : ascii) (s : string) :
  In d (list_ascii_of_string (remove_char c s)) ->
  In d (list_ascii_of_string s).
Proof.
  induction s as [|x s IH]; simpl; [tauto|].
  destruct (Ascii.eqb x c); simpl; intuition.
Qed.

Lemma remove_char_id (c : ascii) (s : string) :
  ~ In c (list_ascii_of_string s) -> remove_char c s = s.
Proof.
  induction s as [|x s IH]; simpl; [reflexivity|].
  intros H. destruct (Ascii.eqb x c) eqn:He.
  - apply Ascii.eqb_eq in He. subst. tauto.
  - f_equal. apply IH. tauto.
Qed.

Lemma clean_phone_chars (p : string) :
  ~ In " "%char (list_ascii_of_string (clean_phone p))
  /\ ~ In "-"%char (list_ascii_of_string (clean_phone p)).
Proof.
  unfold clean_phone. split; [|apply remove_char_absent].
  intros H. apply remove_char_subset in H.
  exact (remove_char_absent _ _ H).
Qed.

Lemma clean_phone_idempotent (p : string) :
  clean_phone (clean_phone p) = clean_phone p.
Proof.
  destruct (clean_phone_chars p) as [Hs Hd].
  unfold clean_phone at 1.
  rewrite (remove_char_id " " _ Hs). now apply remove_char_id.
Qed.

Lemma create_user_created (new_id : string) (now : Z)
  (phone name : string) (tbl tbl' : gmap string UserRepo.User)
  (uid : string) (fn : option string) :
  _create_user new_id now phone name tbl = (tbl', UserCreated uid fn) ->
  uid = new_id /\ fn = Some name
  /\ tbl !! new_id = None
  /\ UserRepo.phone_taken (clean_phone phone) new_id tbl = false
  /\ tbl' = <[new_id := UserRepo.mkUser new_id (clean_phone phone)
                          (Some name) [] now now]> tbl.
Proof.
  unfold _create_user, UserRepo.create.
  destruct (tbl !! new_id); [discriminate|].
  destruct (UserRepo.phone_taken (clean_phone phone) new_id tbl);
    [discriminate|].
  cbn. intros [= <- <- <-]. repeat split; reflexivity.
Qed.

(** A sign-up stores the phone number without spaces and dashes.  Once a
    number is signed up, a sign-up with a number that differs from it
    only by spaces and dashes is refused and leaves the table as it
    is. *)
Theorem signup_normalises_phone (id1 id2 : string) (t1 t2 : Z)
  (p1 p2 n1 n2 : string) (tbl tbl' : gmap string UserRepo.User)
  (uid : string) (fn : option string) :
  _create_user id1 t1 p1 n1 tbl = (tbl', UserCreated uid fn) ->
  (exists u, UserRepo.get_by_id uid tbl' = Some u
     /\ UserRepo.phone_number u = clean_phone p1
     /\ UserRepo.full_name u = Some n1
     /\ ~ In " "%char (list_ascii_of_string (UserRepo.phone_number u))
     /\ ~ In "-"%char (list_ascii_of_string (UserRepo.phone_number u)))
  /\ (clean_phone p2 = clean_phone p1 ->
      exists e, _create_user id2 t2 p2 n2 tbl' = (tbl', UserNotCreated e)).
Proof.
  intros H. apply create_user_created in H.
  destruct H as (-> & -> & Hfresh & Htaken & ->). split.
  - eexists. split; [apply lookup_insert_eq|]. cbn.
    destruct (clean_phone_chars p1). auto.
  - intros Hc. unfold _create_user, UserRepo.create. rewrite Hc.
    destruct (decide (id2 = id1)) as [->|Hne].
    + rewrite lookup_insert_eq. eauto.
    + rewrite lookup_insert_ne by congruence.
      destruct (tbl !! id2); [eauto|].
      assert (Ht : UserRepo.phone_taken (clean_phone p1) id2
                     (<[id1 := UserRepo.mkUser id1 (clean_phone p1)
                                 (Some n1) [] t1 t1]> tbl) = true).
      { unfold UserRepo.phone_taken. apply bool_decide_eq_true_2.
        eexists id1, _. split; [apply lookup_insert_eq|].
        split; [congruence | reflexivity]. }
      rewrite Ht. eauto.
Qed.

Lemma signup_normalises_phone_witness :
  (exists u,
     UserRepo.get_by_id "u1"
       (<["u1" := UserRepo.mkUser "u1" "+15550100" (Some "Ann") [] 1 1]> ∅)
     = Some u
     /\ UserRepo.phone_number u = clean_phone "+1 555-0100"
     /\ UserRepo.full_name u = Some "Ann"
     /\ ~ In " "%char (list_ascii_of_string (UserRepo.phone_number u))
     /\ ~ In "-"%char (list_ascii_of_string (UserRepo.phone_number u)))
  /\ (clean_phone "+1555 0100" = clean_phone "+1 555-0100" ->
      exists e,
        _create_user "u2" 2 "+1555 0100" "Bob"
          (<["u1" := UserRepo.mkUser "u1" "+15550100" (Some "Ann") [] 1 1]> ∅)
        = (<["u1" := UserRepo.mkUser "u1" "+15550100" (Some "Ann") [] 1 1]> ∅,
           UserNotCreated e)).
Proof.
  exact (signup_normalises_phone "u1" "u2" 1 2 "+1 555-0100" "+1555 0100"
           "Ann" "Bob" ∅ _ "u1" (Some "Ann") eq_refl).
Defined.

Lemma get_by_phone_Some (phone : string) (tbl : gmap string UserRepo.User)
  (u : UserRepo.User) :
  UserRepo.get_by_phone phone tbl = inr (Some u) ->
  exists i, tbl !! i = Some u /\ UserRepo.phone_number u = phone.
Proof.
  unfold UserRepo.get_by_phone, UserRepo.scalar_one_or_none.
  destruct (map_to_list (filter (UserRepo.has_phone phone) tbl))
    as [|[i v] [|? ?]] eqn:Hl; cbn; try discriminate.
  intros [= ->].
  assert (Hin : (i, u) ∈ map_to_list (filter (UserRepo.has_phone phone) tbl))
    by (rewrite Hl; apply list_elem_of_here).
  apply elem_of_map_to_list, map_lookup_filter_Some in Hin.
  destruct Hin as [Hi Hp]. now exists i.
Qed.

Lemma choose_initial_agent_run (n : string)
  (tbl : gmap string UserRepo.User) (o : Orchestrator) :
  (exists i u,
      tbl !! i = Some u /\ UserRepo.phone_number u = n
      /\ n <> "" /\ n <> "unknown"
      /\ UserRepo.get_by_phone n tbl = inr (Some u)
      /\ choose_initial_agent n tbl o
         = (set_context
              (set_user (mkUser (UserRepo.user_id u) n
                           (UserRepo.full_name u) true) (context o)) o,
            inr "task_manager"))
  \/ ((n = "" \/ n = "unknown"
       \/ forall u, UserRepo.get_by_phone n tbl <> inr (Some u))
      /\ choose_initial_agent n tbl o = (o, inr "identity")).
Proof.
  unfold choose_initial_agent.
  destruct (nonempty n) eqn:Hne; cbn [andb].
  - destruct (String.eqb n "unknown") eqn:Hu; cbn [negb].
    + apply String.eqb_eq in Hu. right. auto.
    + apply String.eqb_neq in Hu. apply nonempty_true in Hne.
      destruct (UserRepo.get_by_phone n tbl) as [e|[u|]] eqn:Hg.
      * right. split; [|reflexivity]. right; right. intros u; discriminate.
      * left. destruct (get_by_phone_Some n tbl u Hg) as (i & Hi & Hp).
        exists i, u. split_and!; auto.
      * right. split; [|reflexivity]. right; right. intros u; discriminate.
  - right. destruct n; [|discriminate]. auto.
Qed.

(** When the start of a call returns, the caller is on "task_manager"
    exactly when the context is authenticated, and on "identity"
    otherwise.  An authenticated context carries the id and the name of a
    stored user whose phone number is the caller's; an empty or "unknown"
    number, or a failed lookup, never authenticates.  The session is new:
    no history, no greeting done, no handoff. *)
Theorem start_call_outcome (now : Z) (call_sid n : string)
  (tbl : gmap string UserRepo.User) (o : Orchestrator) :
  snd (start_call now call_sid n tbl o) = inr tt ->
  let o' := fst (start_call now call_sid n tbl o) in
  (ctx_is_authenticated (context o') = true
   <-> _active_agent o' = Some "task_manager")
  /\ (ctx_is_authenticated (context o') = false
      <-> _active_agent o' = Some "identity")
  /\ (ctx_is_authenticated (context o') = true ->
      n <> "" /\ n <> "unknown"
      /\ exists i u,
           tbl !! i = Some u /\ UserRepo.phone_number u = n
           /\ user (context o')
              = mkUser (UserRepo.user_id u) n (UserRepo.full_name u) true)
  /\ conversation_history (session (context o')) = []
  /\ greeting_completed (session (context o')) = false
  /\ handoff_data (session (context o')) = None
  /\ session_id (session (context o')) = call_sid.
Proof.
  unfold start_call. run_m.
  set (o1 := set_context (set_session (new_session call_sid TWILIO now)
                            (context (set_context (clear_user (context o)) o)))
               (set_context (clear_user (context o)) o)).
  destruct (choose_initial_agent_run n tbl o1)
    as [(i & u & Hi & Hp & Hn1 & Hn2 & _ & ->)|[_ ->]]; cbn beta iota.
  - match goal with
    | |- context [set_active_agent now "task_manager" None ?o2] =>
        destruct (_agents o2 !! "task_manager") as [ag|] eqn:Hk;
        [destruct (set_active_agent_run now "task_manager" None o2 ag Hk)
           as (o3 & -> & Ha & _ & _ & Hs & Hu & _)
        | unfold set_active_agent; run_m; rewrite Hk; discriminate]
    end.
    intros _. cbn [fst]. unfold ctx_is_authenticated.
    rewrite Ha, Hs, Hu. cbn.
    split; [tauto|]. split; [split; discriminate|].
    split; [|split_and!; reflexivity].
    intros _. split_and!; auto. exists i, u. auto.
  - match goal with
    | |- context [set_active_agent now "identity" None ?o2] =>
        destruct (_agents o2 !! "identity") as [ag|] eqn:Hk;
        [destruct (set_active_agent_run now "identity" None o2 ag Hk)
           as (o3 & -> & Ha & _ & _ & Hs & Hu & _)
        | unfold set_active_agent; run_m; rewrite Hk; discriminate]
    end.
    intros _. cbn [fst]. unfold ctx_is_authenticated.
    rewrite Ha, Hs, Hu. cbn.
    split; [split; discriminate|]. split; [tauto|].
    split; [discriminate | split_and!; reflexivity].
Qed.

Lemma start_call_outcome_witness :
  let tbl : gmap string UserRepo.User :=
    <["u1" := UserRepo.mkUser "u1" "+15550100" (Some "Ann") [] 1 1]> ∅ in
  let o := mkOrch (new_context "old" 0)
             (<["identity" := mkAgent "identity" None]>
                (<["task_manager" := mkAgent "task_manager" None]> ∅))
             None true [] in
  let o' := fst (start_call 5 "CA1" "+15550100" tbl o) in
  (ctx_is_authenticated (context o') = true
   <-> _active_agent o' = Some "task_manager")
  /\ (ctx_is_authenticated (context o') = false
      <-> _active_agent o' = Some "identity")
  /\ (ctx_is_authenticated (context o') = true ->
      "+15550100" <> "" /\ "+15550100" <> "unknown"
      /\ exists i u,
           tbl !! i = Some u /\ UserRepo.phone_number u = "+15550100"
           /\ user (context o')
              = mkUser (UserRepo.user_id u) "+15550100"
                  (UserRepo.full_name u) true)
  /\ conversation_history (session (context o')) = []
  /\ greeting_completed (session (context o')) = false
  /\ handoff_data (session (context o')) = None
  /\ session_id (session (context o')) = "CA1".
Proof.
  exact (start_call_outcome 5 "CA1" "+15550100"
           (<["u1" := UserRepo.mkUser "u1" "+15550100" (Some "Ann") [] 1 1]> ∅)
           (mkOrch (new_context "old" 0)
              (<["identity" := mkAgent "identity" None]>
                 (<["task_manager" := mkAgent "task_manager" None]> ∅))
              None true [])
           eq_refl).
Defined.

(** A caller who signed up with the number they call from is recognised
    at the start of the next call: the lookup finds the account that the
    sign-up made and the call starts on "task_manager", authenticated
    under that account.  This needs the number to be free of spaces and
    dashes, as the sign-up stores it without them while the lookup uses
    it as it comes. *)
Theorem caller_recognised_after_signup (new_id : string) (t now : Z)
  (call_sid p name : string) (tbl tbl' : gmap string UserRepo.User)
  (uid : string) (fn : option string) (o : Orchestrator)
  (ag : Agent) :
  UserRepo.phones_unique tbl ->
  _create_user new_id t p name tbl = (tbl', UserCreated uid fn) ->
  clean_phone p = p -> p <> "" -> p <> "unknown" ->
  _agents o !! "task_manager" = Some ag ->
  let o' := fst (start_call now call_sid p tbl' o) in
  snd (start_call now call_sid p tbl' o) = inr tt
  /\ _active_agent o' = Some "task_manager"
  /\ user (context o') = mkUser new_id p (Some name) true.
Proof.
  intros Hu Hc Hclean Hp1 Hp2 Hag o'. subst o'.
  pose proof (create_phones_unique new_id t (clean_phone p) (Some name)
                None tbl Hu) as Hu'.
  apply create_user_created in Hc.
  destruct Hc as (-> & -> & Hfresh & Htaken & ->).
  unfold UserRepo.create in Hu'. rewrite Hfresh, Htaken in Hu'.
  cbn [UserRepo.table_after default] in Hu'.
  rewrite Hclean in *.
  assert (Hg : UserRepo.get_by_phone p
                 (<[new_id := UserRepo.mkUser new_id p (Some name) [] t t]>
                    tbl)
               = inr (Some (UserRepo.mkUser new_id p (Some name) [] t t))).
  { apply (get_by_phone_found _ new_id
             (UserRepo.mkUser new_id p (Some name) [] t t) Hu').
    apply lookup_insert_eq. }
  unfold start_call, choose_initial_agent. run_m.
  apply nonempty_true in Hp1. rewrite Hp1.
  apply String.eqb_neq in Hp2. rewrite Hp2. cbn [andb negb].
  rewrite Hg. cbn beta iota.
  match goal with
  | |- context [set_active_agent now "task_manager" None ?o2] =>
      destruct (set_active_agent_run now "task_manager" None o2 ag Hag)
        as (o3 & -> & Ha & _ & _ & _ & Hu3 & _)
  end.
  cbn [fst snd]. rewrite Hu3. split_and!; [reflexivity | exact Ha | reflexivity].
Qed.

Lemma caller_recognised_after_signup_witness :
  let o := mkOrch (new_context "old" 0)
             (<["identity" := mkAgent "identity" None]>
                (<["task_manager" := mkAgent "task_manager" None]> ∅))
             None true [] in
  let tbl' : gmap string UserRepo.User :=
    <["u1" := UserRepo.mkUser "u1" "+15550100" (Some "Ann") [] 1 1]> ∅ in
  let o' := fst (start_call 9 "CA2" "+15550100" tbl' o) in
  snd (start_call 9 "CA2" "+15550100" tbl' o) = inr tt
  /\ _active_agent o' = Some "task_manager"
  /\ user (context o') = mkUser "u1" "+15550100" (Some "Ann") true.
Proof.
  apply (caller_recognised_after_signup "u1" 1 9 "CA2" "+15550100" "Ann" ∅
           _ "u1" (Some "Ann") _ (mkAgent "task_manager" None)
           phones_unique_empty eq_refl eq_refl);
    [discriminate | discriminate | reflexivity].
Defined.



Lemma injection_of_parts (h : HandoffData) (x : string) :
  In x (injection_parts h) ->
  to_context_injection h
  = handoff_header ++ join nl (injection_parts h) ++ handoff_footer.
Proof.
  unfold to_context_injection.
  destruct (injection_parts h); [intros [] | reflexivity].
Qed.

(** After a successful sign-up on a telephone call, the context is
    authenticated under the new account and, when "task_manager" is
    registered, the next turn of the session loop switches to it.  The
    prompt of that agent then ends with a handoff text that names the
    user and gives "User authenticated" as the reason; the request for
    the switch is cleared. *)
Theorem signup_hands_off_to_task_manager (t1 t2 : Z)
  (session_phone uid full : string) (v : VoiceHandler)
  (o : Orchestrator) (ag : Agent) (prompt : string) :
  _agents o !! "task_manager" = Some ag ->
  full <> "" ->
  let r := (v' ← on_create_user_result t1 session_phone
                   (UserCreated uid (Some full)) v;
            switch_if_requested t2 v') o in
  exists h a,
    snd r = inr (mkVoice false None None, true)
    /\ user (context (fst r)) = mkUser uid session_phone (Some full) true
    /\ active_agent_obj (fst r) = Some a
    /\ name a = name ag
    /\ inject_handoff prompt a
       = prompt ++ nl ++ nl ++ to_context_injection h
    /\ In ("User Name: " ++ full) (injection_parts h)
    /\ In "Handoff Reason: User authenticated" (injection_parts h)
    /\ ends_with "[END CONTEXT]" (inject_handoff prompt a).
Proof.
  intros Hk Hne r. subst r.
  unfold on_create_user_result, switch_if_requested, prepare.
  run_m. cbn -[set_active_agent].
  match goal with
  | |- context [set_active_agent t2 "task_manager" (Some ?hh) ?o1] =>
      destruct (set_active_agent_run t2 "task_manager" (Some hh) o1 ag Hk)
        as (o2 & -> & Ha & Hag & _ & _ & Hu & _);
      set (h := hh) in *
  end.
  assert (Hname : In ("User Name: " ++ full) (injection_parts h)).
  { apply In_parts. left. exists full. split; [reflexivity|].
    split; [exact Hne|]. now rewrite string_app_nil_r. }
  assert (Hreason : In "Handoff Reason: User authenticated"
                      (injection_parts h)).
  { apply In_parts. do 4 right. exists "User authenticated".
    split; [reflexivity|]. split; [discriminate | reflexivity]. }
  pose proof (injection_of_parts h _ Hname) as Hinj.
  assert (Hprompt :
    inject_handoff prompt
      (mkAgent (name ag) (to_context_injection <$> Some h))
    = prompt ++ nl ++ nl ++ to_context_injection h).
  { unfold inject_handoff. cbn [_handoff_context fmap option_fmap option_map].
    rewrite Hinj. reflexivity. }
  exists h, (mkAgent (name ag) (to_context_injection <$> Some h)).
  cbn [fst snd]. unfold active_agent_obj. rewrite Ha.
  cbn [mbind option_bind]. rewrite Hag, Hu.
  split_and!; try reflexivity; try assumption.
  rewrite Hprompt, Hinj. unfold handoff_footer.
  exists (prompt ++ nl ++ nl ++ handoff_header
          ++ join nl (injection_parts h) ++ nl).
  now rewrite !string_app_assoc.
Qed.

Lemma signup_hands_off_to_task_manager_witness :
  let o := mkOrch (new_context "s" 0)
             (<["identity" := mkAgent "identity" None]>
                (<["task_manager" := mkAgent "task_manager" None]> ∅))
             (Some "identity") true [] in
  let r := (v' ← on_create_user_result 1 "+15550100"
                   (UserCreated "u1" (Some "Ann")) (mkVoice false None None);
            switch_if_requested 2 v') o in
  exists h a,
    snd r = inr (mkVoice false None None, true)
    /\ user (context (fst r)) = mkUser "u1" "+15550100" (Some "Ann") true
    /\ active_agent_obj (fst r) = Some a
    /\ name a = "task_manager"
    /\ inject_handoff "You manage tasks." a
       = "You manage tasks." ++ nl ++ nl ++ to_context_injection h
    /\ In ("User Name: " ++ "Ann") (injection_parts h)
    /\ In "Handoff Reason: User authenticated" (injection_parts h)
    /\ ends_with "[END CONTEXT]" (inject_handoff "You manage tasks." a).
Proof.
  assert (H : "Ann" <> "") by discriminate.
  exact (signup_hands_off_to_task_manager 1 2 "+15550100" "u1" "Ann"
           (mkVoice false None None)
           (mkOrch (new_context "s" 0)
              (<["identity" := mkAgent "identity" None]>
                 (<["task_manager" := mkAgent "task_manager" None]> ∅))
              (Some "identity") true [])
           (mkAgent "task_manager" None) "You manage tasks." eq_refl H).
Defined.

End CallFacts.

(** ** Task manager agent: who owns a new task, what a summary lists *)

Section TaskAgentFacts.
Import TaskAgent.

(** [create_task] needs a signed-in user: on a context that is not
    authenticated it raises and stores nothing.  For an authenticated
    user, a fresh id and a user the store accepts, it stores the task
    under the id of that user, open, with the priority clamped, and
    leaves every other task as it was.  Without a current context it
    reports that and stores nothing. *)
Theorem create_task_owner (ctx : GlobalContext) (new_id : string) (now : Z)
  (descr : string) (prio : Z) (due : option Z) (db : TaskRepo.Database) :
  (ctx_is_authenticated ctx = false ->
   _create_task (Some ctx) new_id now descr prio due db
   = inl (ValueError "User not authenticated"))
  /\ (ctx_is_authenticated ctx = true ->
      TaskRepo.get_by_id new_id db = None ->
      TaskRepo.enforces_foreign_keys db = false
      \/ user_id (user ctx) ∈ TaskRepo.users db ->
      exists db',
        _create_task (Some ctx) new_id now descr prio due db
        = inr (db', TaskCreated new_id descr (TaskRepo.clamp_priority prio)
                      due)
        /\ TaskRepo.get_by_id new_id db'
           = Some (TaskRepo.mkTask new_id (user_id (user ctx)) descr
                     (TaskRepo.clamp_priority prio) "OPEN" due now now)
        /\ forall k, k <> new_id ->
             TaskRepo.get_by_id k db' = TaskRepo.get_by_id k db)
  /\ _create_task None new_id now descr prio due db = inr (db, NoContext).
Proof.
  split; [|split; [|reflexivity]].
  - intros Ha. unfold _create_task, _get_user_id. now rewrite Ha.
  - intros Ha Hfresh Hfk.
    unfold _create_task, _get_user_id, TaskRepo.create.
    unfold TaskRepo.get_by_id in Hfresh. rewrite Ha, Hfresh. cbn [negb].
    assert (Hok : TaskRepo.enforces_foreign_keys db
                  && negb (bool_decide
                             (user_id (user ctx) ∈ TaskRepo.users db))
                  = false).
    { destruct Hfk as [-> | Hin]; [reflexivity|].
      rewrite (bool_decide_eq_true_2 _ Hin). apply andb_false_r. }
    rewrite Hok. eexists. split; [reflexivity|].
    unfold TaskRepo.get_by_id. cbn. split.
    + apply lookup_insert_eq.
    + intros k Hk. now rewrite lookup_insert_ne by congruence.
Qed.

Lemma create_task_owner_witness :
  _create_task (Some (new_context "s" 0)) "t1" 5 "buy milk" 9 None
    (TaskRepo.empty_database false)
  = inl (ValueError "User not authenticated")
  /\ exists db',
       _create_task
         (Some (set_user (mkUser "u1" "555" (Some "Ann") true)
                  (new_context "s" 0)))
         "t1" 5 "buy milk" 9 None (TaskRepo.empty_database false)
       = inr (db', TaskCreated "t1" "buy milk" (TaskRepo.clamp_priority 9)
                     None)
       /\ TaskRepo.get_by_id "t1" db'
          = Some (TaskRepo.mkTask "t1" "u1" "buy milk"
                    (TaskRepo.clamp_priority 9) "OPEN" None 5 5)
       /\ forall k, k <> "t1" ->
            TaskRepo.get_by_id k db'
            = TaskRepo.get_by_id k (TaskRepo.empty_database false).
Proof.
  split.
  - exact (proj1 (create_task_owner (new_context "s" 0) "t1" 5 "buy milk"
                    9 None (TaskRepo.empty_database false)) eq_refl).
  - exact (proj1 (proj2 (create_task_owner
                           (set_user (mkUser "u1" "555" (Some "Ann") true)
                              (new_context "s" 0))
                           "t1" 5 "buy milk" 9 None
                           (TaskRepo.empty_database false)))
             eq_refl eq_refl (or_introl eq_refl)).
Defined.

Lemma firstn_length_le {A : Type} (n : nat) (l : list A) :
  (length (firstn n l) <= n)%nat.
Proof.
  revert l. induction n as [|n IH]; intros [|x l]; simpl; try lia.
  specialize (IH l). lia.
Qed.

Lemma firstn_incl_list {A : Type} (n : nat) (l : list A) (x : A) :
  In x (firstn n l) -> In x l.
Proof.
  revert l. induction n as [|n IH]; intros [|y l]; simpl; try tauto.
  intros [->|H]; [now left | right; now apply IH].
Qed.

Lemma parts_with_high_length (tasks : list TaskRepo.Task) :
  (length (parts_with_high tasks) <= 5)%nat.
Proof.
  unfold parts_with_high.
  destruct (List.filter is_high tasks) as [|h hs]; [simpl; lia|].
  rewrite !length_app, length_map. cbn [length].
  pose proof (firstn_length_le 3 (h :: hs)) as H. cbn [length] in H. lia.
Qed.

(** The summary of a list of tasks is a count line, then, when there are
    tasks of priority 1 or 2, their number and the first three of them,
    then, when there are tasks of priority 3 or 4, their number and the
    first two of them: the test on the length of the summary never hides
    that second group.  Tasks of priority 5 and more are counted but
    never listed, and the summary has at most eight lines' worth of
    parts. *)
Theorem summary_shape (tasks : list TaskRepo.Task) :
  let high := List.filter is_high tasks in
  let normal := List.filter is_normal tasks in
  summary_parts tasks
  = ([("You have " ++ pretty (length tasks) ++ " task"
       ++ (if Nat.eqb (length tasks) 1 then "" else "s") ++ ".")%string]
     ++ match high with
        | [] => []
        | _ => (nl ++ pretty (length high) ++ " high priority:")%string
               :: List.map bullet (firstn 3 high)
        end
     ++ match normal with
        | [] => []
        | _ => (nl ++ pretty (length normal) ++ " normal priority:")%string
               :: List.map bullet (firstn 2 normal)
        end)%list
  /\ (length (summary_parts tasks) <= 8)%nat
  /\ (forall t, In t (firstn 3 high ++ firstn 2 normal)%list ->
        In t tasks /\ (TaskRepo.priority t <= 4)%Z).
Proof.
  intros high normal.
  assert (Heq : summary_parts tasks
    = ([("You have " ++ pretty (length tasks) ++ " task"
         ++ (if Nat.eqb (length tasks) 1 then "" else "s") ++ ".")%string]
       ++ match high with
          | [] => []
          | _ => (nl ++ pretty (length high) ++ " high priority:")%string
                 :: List.map bullet (firstn 3 high)
          end
       ++ match normal with
          | [] => []
          | _ => (nl ++ pretty (length normal) ++ " normal priority:")%string
                 :: List.map bullet (firstn 2 normal)
          end)%list).
  { unfold summary_parts. fold normal.
    pose proof (parts_with_high_length tasks) as Hlen.
    assert (Hlt : (length (parts_with_high tasks) <? 6)%nat = true)
      by (apply Nat.ltb_lt; lia).
    rewrite Hlt. unfold parts_with_high. fold high.
    destruct high as [|h hs], normal as [|m ms]; cbn [app];
      rewrite <- ?app_assoc; try reflexivity.
    now rewrite app_nil_r. }
  split; [exact Heq|]. split.
  - rewrite Heq.
    pose proof (firstn_length_le 3 high) as H3.
    pose proof (firstn_length_le 2 normal) as H2.
    destruct high as [|h hs], normal as [|m ms];
      rewrite ?length_app; cbn [length app];
      rewrite ?length_map; cbn [length] in *; lia.
  - intros t Hin. apply in_app_iff in Hin.
    destruct Hin as [Hin | Hin];
      apply firstn_incl_list in Hin;
      apply filter_In in Hin; destruct Hin as [Ht Hp].
    + split; [exact Ht|].
      unfold is_high in Hp. apply Z.leb_le in Hp. lia.
    + split; [exact Ht|].
      unfold is_normal in Hp. apply andb_true_iff in Hp.
      destruct Hp as [_ Hp]. now apply Z.leb_le in Hp.
Qed.

End TaskAgentFacts.

(** ** Context: signing in while a handoff is pending *)

Section PendingHandoffFacts.

(** Signing a user in while a handoff is pending puts the name of the
    user on that handoff, so that the text rendered from it has the "User
    Name" line, and changes nothing else in it; the handoff stays
    pending.  With no handoff pending the session is left as it is. *)
Theorem set_user_names_pending_handoff (u : UserContext)
  (g : GlobalContext) :
  user (set_user u g) = u
  /\ match handoff_data (session g) with
     | Some h =>
         exists h',
           handoff_data (session (set_user u g)) = Some h'
           /\ user_name h' = full_name u
           /\ (forall n, full_name u = Some n -> n <> "" ->
                 In ("User Name: " ++ n) (injection_parts h'))
           /\ (forall x, In x (injection_parts h) ->
                 (forall n, x <> "User Name: " ++ n) ->
                 In x (injection_parts h'))
           /\ target_agent h' = target_agent h
           /\ reason h' = reason h
           /\ user_intent h' = user_intent h
     | None => session (set_user u g) = session g
     end.
Proof.
  split; [reflexivity|]. unfold set_user. cbn [session].
  destruct (handoff_data (session g)) as [h|] eqn:Hh; [|reflexivity].
  exists (with_user_name (full_name u) h).
  split_and!; try reflexivity.
  - intros n Hn Hne. apply In_parts. left. exists n.
    split; [exact Hn|]. split; [exact Hne|].
    now rewrite string_app_nil_r.
  - intros x Hx Hnot. apply In_parts in Hx. apply In_parts.
    destruct Hx as [(s & _ & _ & ->)|Hx].
    + exfalso. apply (Hnot s). now rewrite string_app_nil_r.
    + right. exact Hx.
Qed.

End PendingHandoffFacts.
